(** * whatsapp-companion: the flow state machine and the scoring, token
    and shame engines, embedded from the TypeScript sources.

    Conventions of the embedding.
    - A JavaScript string is the [string] of its UTF-8 bytes. The texts are
      taken to be plain ([Js.plain]): their characters are ASCII characters
      or the bullet U+2022, the one other character that a pattern of the
      sources names. On plain texts [toLowerCase]/[toUpperCase] map the ASCII
      letters and white space is the ASCII white space; [Js.length] counts
      UTF-16 code units, as [s.length] does.
    - A JavaScript number holding an integer is a [Z].
    - A SQL table is the list of its rows in physical order; [SELECT ... WHERE]
      filters it, [queryOne] takes the first row, [UPDATE ... WHERE] maps over
      it, [INSERT] appends after the key constraints of schema.sql are checked.
    - A JavaScript object used as a dictionary is the [gmap] of its own
      properties, written with [Js.setProp]; a [Map] is a [gmap].
    - The fixed reply texts are copied byte for byte (a non-ASCII character
      is its UTF-8 bytes).
    - A function that reads the clock or draws a fresh id reads it from a
      [Clock] record; a function that writes returns the new store; a
      rejected promise (an SQL error) is [None]. *)

From Stdlib Require Import ZArith Ascii List Lia Bool.
From stdpp Require Import base option list strings gmap pretty.

#[local] Open Scope Z_scope.

(** ** JavaScript string primitives *)

Module Js.

Definition isSpace (c : ascii) : bool := Ascii.is_space c.

Definition isDigit (c : ascii) : bool :=
  let n := nat_of_ascii c in (48 <=? n)%nat && (n <=? 57)%nat.

Definition lowerChar (c : ascii) : ascii :=
  let n := nat_of_ascii c in
  if (65 <=? n)%nat && (n <=? 90)%nat then ascii_of_nat (n + 32) else c.

Definition upperChar (c : ascii) : ascii :=
  let n := nat_of_ascii c in
  if (97 <=? n)%nat && (n <=? 122)%nat then ascii_of_nat (n - 32) else c.

Fixpoint mapChars (f : ascii -> ascii) (s : string) : string :=
  match s with
  | EmptyString => EmptyString
  | String c r => String (f c) (mapChars f r)
  end.

(** [s.toLowerCase()], [s.toUpperCase()] *)
Definition toLowerCase : string -> string := mapChars lowerChar.
Definition toUpperCase : string -> string := mapChars upperChar.

(** [s.replace(/^\s+/, '')] *)
Fixpoint trimStart (s : string) : string :=
  match s with
  | EmptyString => EmptyString
  | String c r => if isSpace c then trimStart r else s
  end.

(** [s.replace(/\s+$/, '')] *)
Fixpoint trimEnd (s : string) : string :=
  match s with
  | EmptyString => EmptyString
  | String c r =>
      match trimEnd r with
      | EmptyString => if isSpace c then EmptyString else String c EmptyString
      | r' => String c r'
      end
  end.

(** [s.trim()] *)
Definition trim (s : string) : string := trimEnd (trimStart s).

Definition isEmpty (s : string) : bool :=
  match s with EmptyString => true | _ => false end.

(** [s.startsWith(p)] *)
Fixpoint startsWith (p s : string) : bool :=
  match p, s with
  | EmptyString, _ => true
  | String a p', String b s' => Ascii.eqb a b && startsWith p' s'
  | String _ _, EmptyString => false
  end.

(** [s.includes(sub)] *)
Fixpoint includes (s sub : string) : bool :=
  startsWith sub s ||
  match s with
  | EmptyString => false
  | String _ r => includes r sub
  end.

(** [s.split(sep)] for a one-character separator. *)
Fixpoint split (sep : ascii) (s : string) : list string :=
  match s with
  | EmptyString => [EmptyString]
  | String c r =>
      if Ascii.eqb c sep then EmptyString :: split sep r
      else match split sep r with
           | [] => [String c EmptyString]
           | w :: ws => String c w :: ws
           end
  end.

(** [parts.join(sep)] *)
Fixpoint join (sep : string) (parts : list string) : string :=
  match parts with
  | [] => EmptyString
  | [p] => p
  | p :: ps => p +:+ sep +:+ join sep ps
  end.

(** The first [n] bytes of a text. *)
Fixpoint take (n : nat) (s : string) : string :=
  match n, s with
  | O, _ => EmptyString
  | S _, EmptyString => EmptyString
  | S n', String c r => String c (take n' r)
  end.

(** [s.replace(a, b)] for one-character [a] and [b]: first occurrence only. *)
Fixpoint replaceFirstChar (a b : ascii) (s : string) : string :=
  match s with
  | EmptyString => EmptyString
  | String c r => if Ascii.eqb c a then String b r
                  else String c (replaceFirstChar a b r)
  end.

(** [s.replace(/\s+/g, '_')]: every maximal run of white space becomes
    one underscore. *)
Fixpoint underscoreSpaces (s : string) : string :=
  match s with
  | EmptyString => EmptyString
  | String c r =>
      if isSpace c then
        match r with
        | String d _ => if isSpace d then underscoreSpaces r
                        else String "_" (underscoreSpaces r)
        | EmptyString => String "_" EmptyString
        end
      else String c (underscoreSpaces r)
  end.

(** [`${n}`] for an integer-valued number. *)
Definition ofNumber (n : Z) : string := pretty n.

(** The double quote character as a one-character string. *)
Definition dquote : string := String (ascii_of_nat 34) EmptyString.

(** The bullet U+2022 as its three UTF-8 bytes. *)
Definition bullet : string :=
  String "226" (String "128" (String "162" EmptyString)).



(** [s.length]: the number of UTF-16 code units of the text. A byte that
    continues a character counts for none, the first byte of a character
    for one, and for two when the character lies beyond U+FFFF. *)
Fixpoint length (s : string) : nat :=
  match s with
  | EmptyString => 0%nat
  | String c r =>
      let n := nat_of_ascii c in
      ((if (n <? 128)%nat then 1
        else if (n <? 192)%nat then 0
        else if (n <? 240)%nat then 1 else 2) + length r)%nat
  end.

(** [s.substring(0, n)], counted in UTF-16 units: a character is taken
    with the bytes that continue it. *)
Fixpoint substring0 (n : nat) (s : string) {struct s} : string :=
  match s with
  | EmptyString => EmptyString
  | String c r =>
      let b := nat_of_ascii c in
      if (128 <=? b)%nat && (b <? 192)%nat then String c (substring0 n r)
      else match n with
           | O => EmptyString
           | S n' => String c (substring0 n' r)
           end
  end.

(** [o[k] = v] for a number [v] on an object whose prototype is
    Object.prototype: the key __proto__ names the accessor of the prototype,
    whose setter ignores a number, unless the object has an own property of
    that name (as [JSON.parse] can create one); every other key becomes or
    stays an own property. *)
Definition setProp (k : string) (v : Z) (o : gmap string Z) : gmap string Z :=
  if decide (k = "__proto__" ∧ o !! k = None) then o else <[k := v]> o.

Definition newline : ascii := "010"%char.
Definition nl : string := String newline EmptyString.

End Js.

(** ** db/queries.ts and schema.sql *)

Module Db.

(** What a call reads from its environment. *)
Record Clock := {
  js_today : string;      (* new Date().toISOString().split('T')[0] *)
  current_date : string;  (* SQL CURRENT_DATE *)
  week_start_now : string;(* date_trunc('week', CURRENT_DATE)::date *)
  now : string;           (* SQL NOW() *)
  fresh_id : string;      (* gen_random_uuid() *)
  fresh_id_2 : string     (* a second gen_random_uuid() of the same call *)
}.

Record User := {
  user_id : string;
  phone : string;
  user_name : option string;
  timezone : string;
  wake_time : option string;
  sleep_time : option string;
  eating_window_start : option string;
  eating_window_end : option string;
  risk_times : list string;
  shame_level : Z;
  loss_aversion_enabled : bool;
  onboarding_complete : bool;
  onboarding_step : string;
  user_created_at : string
}.

Record BinaryAction := {
  action_name : string;
  threshold : option string;
  points : Z
}.

Record Contract := {
  contract_id : string;
  contract_user : string;
  goal : string;
  binary_actions : list BinaryAction;
  rules_text : option string;
  active : bool
}.

Record TomorrowPlan := {
  eating_window : string;
  first_meal : string;
  walk_time : string;
  strength : bool;
  danger_moment : string
}.

Record DailyLog := {
  log_id : string;
  log_user : string;
  log_date : string;
  scores : gmap string Z;
  total_score : Z;
  tomorrow_locked : bool;
  tomorrow_plan : option TomorrowPlan;
  miss_reason : option string;
  notes : option string;
  log_created_at : string
}.

Record LossEvent := {
  loss_date : string;
  loss_reason : string;
  loss_amount : Z
}.

Record TokenRecord := {
  token_id : string;
  token_user : string;
  week_start : string;
  starting_tokens : Z;
  current_tokens : Z;
  loss_events : list LossEvent;
  punishment_triggered : bool
}.

Record Pattern := {
  pattern_id : string;
  pattern_user : string;
  pattern_type : string;
  content : string;
  frequency : Z;
  last_seen : string
}.

(** A key is present in a partial object. *)
Definition is_set {A} (o : option A) : bool :=
  match o with Some _ => true | None => false end.

(** *** User queries *)

(** [Partial<User>]: the columns the flows write. *)
Record UserUpdate := {
  set_name : option string;
  set_wake_time : option string;
  set_sleep_time : option string;
  set_eating_window_start : option string;
  set_eating_window_end : option string;
  set_risk_times : option (list string);
  set_shame_level : option Z;
  set_onboarding_complete : option bool;
  set_onboarding_step : option string
}.

Definition no_user_update : UserUpdate :=
  {| set_name := None; set_wake_time := None; set_sleep_time := None;
     set_eating_window_start := None; set_eating_window_end := None;
     set_risk_times := None; set_shame_level := None;
     set_onboarding_complete := None; set_onboarding_step := None |}.

(** [Object.keys(updates).length === 0] *)
Definition user_update_empty (u : UserUpdate) : bool :=
  negb (is_set (set_name u) || is_set (set_wake_time u)
        || is_set (set_sleep_time u) || is_set (set_eating_window_start u)
        || is_set (set_eating_window_end u) || is_set (set_risk_times u)
        || is_set (set_shame_level u) || is_set (set_onboarding_complete u)
        || is_set (set_onboarding_step u)).

Definition apply_user_update (u : UserUpdate) (r : User) : User :=
  {| user_id := user_id r; phone := phone r;
     user_name := from_option Some (user_name r) (set_name u);
     timezone := timezone r;
     wake_time := from_option Some (wake_time r) (set_wake_time u);
     sleep_time := from_option Some (sleep_time r) (set_sleep_time u);
     eating_window_start :=
       from_option Some (eating_window_start r) (set_eating_window_start u);
     eating_window_end :=
       from_option Some (eating_window_end r) (set_eating_window_end u);
     risk_times := default (risk_times r) (set_risk_times u);
     shame_level := default (shame_level r) (set_shame_level u);
     loss_aversion_enabled := loss_aversion_enabled r;
     onboarding_complete :=
       default (onboarding_complete r) (set_onboarding_complete u);
     onboarding_step := default (onboarding_step r) (set_onboarding_step u);
     user_created_at := user_created_at r |}.

(** name VARCHAR(100) and onboarding_step VARCHAR(50) of table users: the
    characters are counted, which on plain texts are the UTF-16 units. *)
Definition user_update_fits (u : UserUpdate) : Prop :=
  (Js.length (default EmptyString (set_name u)) <= 100)%nat ∧
  (Js.length (default EmptyString (set_onboarding_step u)) <= 50)%nat.

(** [UPDATE users SET ... WHERE id = $1 RETURNING *]; an empty SET clause
    is a syntax error. *)
Definition updateUser (tbl : list User) (id : string) (updates : UserUpdate)
    : option (list User * option User) :=
  if user_update_empty updates then None
  else if decide (user_update_fits updates) then
    Some ((λ r, if decide (user_id r = id) then apply_user_update updates r
                else r) <$> tbl,
          head (apply_user_update updates <$> filter (λ r, user_id r = id) tbl))
  else None.

(** *** Daily log queries *)

(** [Partial<DailyLog>]: any subset of the columns. A nullable column is
    written with [null] as [Some None]. *)
Record DailyLogUpdate := {
  set_log_id : option string;
  set_log_user : option string;
  set_log_date : option string;
  set_scores : option (gmap string Z);
  set_total_score : option Z;
  set_tomorrow_locked : option bool;
  set_tomorrow_plan : option (option TomorrowPlan);
  set_miss_reason : option (option string);
  set_notes : option (option string);
  set_log_created_at : option string
}.

Definition no_log_update : DailyLogUpdate :=
  {| set_log_id := None; set_log_user := None; set_log_date := None;
     set_scores := None; set_total_score := None;
     set_tomorrow_locked := None; set_tomorrow_plan := None;
     set_miss_reason := None; set_notes := None;
     set_log_created_at := None |}.

(** [Object.keys(updates).length === 0] *)
Definition log_update_empty (u : DailyLogUpdate) : bool :=
  negb (is_set (set_log_id u) || is_set (set_log_user u)
        || is_set (set_log_date u) || is_set (set_scores u)
        || is_set (set_total_score u) || is_set (set_tomorrow_locked u)
        || is_set (set_tomorrow_plan u) || is_set (set_miss_reason u)
        || is_set (set_notes u) || is_set (set_log_created_at u)).

(** [typeof v === 'object' ? JSON.stringify(v) : v] on a text column:
    [null] is an object, so the text 'null' is what is stored. *)
Definition text_param (v : option string) : option string :=
  match v with
  | Some text => Some text
  | None => Some "null"
  end.

Definition apply_log_update (u : DailyLogUpdate) (r : DailyLog) : DailyLog :=
  {| log_id := default (log_id r) (set_log_id u);
     log_user := default (log_user r) (set_log_user u);
     log_date := default (log_date r) (set_log_date u);
     scores := default (scores r) (set_scores u);
     total_score := default (total_score r) (set_total_score u);
     tomorrow_locked := default (tomorrow_locked r) (set_tomorrow_locked u);
     tomorrow_plan := default (tomorrow_plan r) (set_tomorrow_plan u);
     miss_reason := from_option text_param (miss_reason r) (set_miss_reason u);
     notes := from_option text_param (notes r) (set_notes u);
     log_created_at := default (log_created_at r) (set_log_created_at u) |}.

Definition log_key (r : DailyLog) : string * string := (log_user r, log_date r).

(** PRIMARY KEY (id) and UNIQUE(user_id, date) of table daily_logs. *)
Definition logs_ok (tbl : list DailyLog) : Prop :=
  NoDup (log_id <$> tbl) ∧ NoDup (log_key <$> tbl).

(** The row an INSERT creates when no column is given a value. *)
Definition default_log (clk : Clock) (userId date : string) : DailyLog :=
  {| log_id := fresh_id clk; log_user := userId; log_date := date;
     scores := ∅; total_score := 0; tomorrow_locked := false;
     tomorrow_plan := None; miss_reason := None; notes := None;
     log_created_at := now clk |}.

Definition select_log (tbl : list DailyLog) (userId date : string)
    : option DailyLog :=
  head (filter (λ r, log_key r = (userId, date)) tbl).

Definition getTodayLog (clk : Clock) (tbl : list DailyLog) (userId : string)
    : option DailyLog :=
  select_log tbl userId (current_date clk).

Definition upsertDailyLog (clk : Clock) (tbl : list DailyLog)
    (userId date : string) (updates : DailyLogUpdate)
    : option (list DailyLog * DailyLog) :=
  match select_log tbl userId date with
  | Some existing =>
      (* UPDATE daily_logs SET ... WHERE user_id = $1 AND date = $2 *)
      if log_update_empty updates then None
      else
        let tbl' := (λ r, if decide (log_key r = (userId, date))
                          then apply_log_update updates r else r) <$> tbl in
        if decide (logs_ok tbl') then
          match apply_log_update updates
                  <$> filter (λ r, log_key r = (userId, date)) tbl with
          | result :: _ => Some (tbl', result)
          | [] => None
          end
        else None
  | None =>
      (* INSERT INTO daily_logs (user_id, date, ...keys) VALUES (...) *)
      if decide (set_log_user updates = None ∧ set_log_date updates = None) then
        let row := apply_log_update updates (default_log clk userId date) in
        if decide (logs_ok (tbl ++ [row])) then Some (tbl ++ [row], row)
        else None
      else None
  end.

(** The columns an update does not name have the same value in [new] as
    in [old]. *)
Definition fields_kept (u : DailyLogUpdate) (old new : DailyLog) : Prop :=
  (set_log_id u = None → log_id new = log_id old) ∧
  (set_log_user u = None → log_user new = log_user old) ∧
  (set_log_date u = None → log_date new = log_date old) ∧
  (set_scores u = None → scores new = scores old) ∧
  (set_total_score u = None → total_score new = total_score old) ∧
  (set_tomorrow_locked u = None → tomorrow_locked new = tomorrow_locked old) ∧
  (set_tomorrow_plan u = None → tomorrow_plan new = tomorrow_plan old) ∧
  (set_miss_reason u = None → miss_reason new = miss_reason old) ∧
  (set_notes u = None → notes new = notes old) ∧
  (set_log_created_at u = None → log_created_at new = log_created_at old).

(** An update names no key column. *)
Definition keeps_key (updates : DailyLogUpdate) : Prop :=
  set_log_id updates = None ∧ set_log_user updates = None ∧
  set_log_date updates = None.

(** *** Pattern queries *)

Definition pattern_key (r : Pattern) : string * string * string :=
  (pattern_user r, pattern_type r, content r).

(** [recordPattern]: bump the frequency of the row with this exact
    (user, type, content), or insert it with frequency 1. *)
Definition recordPattern (clk : Clock) (newId : string) (tbl : list Pattern)
    (userId patternType text : string) : option (list Pattern * Pattern) :=
  match head (filter (λ r, pattern_key r = (userId, patternType, text)) tbl) with
  | Some existing =>
      let bump r := {| pattern_id := pattern_id r; pattern_user := pattern_user r;
                       pattern_type := pattern_type r; content := content r;
                       frequency := frequency r + 1; last_seen := now clk |} in
      match bump <$> filter (λ r, pattern_id r = pattern_id existing) tbl with
      | result :: _ =>
          Some ((λ r, if decide (pattern_id r = pattern_id existing)
                      then bump r else r) <$> tbl, result)
      | [] => None
      end
  | None =>
      let row := {| pattern_id := newId; pattern_user := userId;
                    pattern_type := patternType; content := text;
                    frequency := 1; last_seen := now clk |} in
      if decide (newId ∉ (pattern_id <$> tbl)) then Some (tbl ++ [row], row)
      else None
  end.

(** *** Token queries *)

Definition token_key (r : TokenRecord) : string * string :=
  (token_user r, week_start r).

(** PRIMARY KEY (id) and UNIQUE(user_id, week_start) of table tokens. *)
Definition token_insert_allowed (tbl : list TokenRecord) (r : TokenRecord) : Prop :=
  (token_id r ∉ (token_id <$> tbl)) ∧ (token_key r ∉ (token_key <$> tbl)).

Definition getCurrentWeekTokens (clk : Clock) (tbl : list TokenRecord)
    (userId : string) : option TokenRecord :=
  head (filter (λ r, token_key r = (userId, week_start_now clk)) tbl).

(** The row an INSERT INTO tokens (user_id, week_start) creates: the
    other columns take the defaults of the schema. *)
Definition fresh_tokens (clk : Clock) (userId : string) : TokenRecord :=
  {| token_id := fresh_id clk; token_user := userId;
     week_start := week_start_now clk;
     starting_tokens := 7; current_tokens := 7;
     loss_events := []; punishment_triggered := false |}.

Definition getOrCreateWeekTokens (clk : Clock) (tbl : list TokenRecord)
    (userId : string) : option (list TokenRecord * TokenRecord) :=
  match getCurrentWeekTokens clk tbl userId with
  | Some tokens => Some (tbl, tokens)
  | None =>
      let row := fresh_tokens clk userId in
      if decide (token_insert_allowed tbl row) then Some (tbl ++ [row], row)
      else None
  end.

(** SET current_tokens = $2, loss_events = $3, punishment_triggered = $4 *)
Definition set_tokens (newAmount : Z) (lossEvents : list LossEvent)
    (punished : bool) (r : TokenRecord) : TokenRecord :=
  {| token_id := token_id r; token_user := token_user r;
     week_start := week_start r; starting_tokens := starting_tokens r;
     current_tokens := newAmount; loss_events := lossEvents;
     punishment_triggered := punished |}.

Definition deductToken (clk : Clock) (tbl : list TokenRecord)
    (userId reason : string) (amount : Z)
    : option (list TokenRecord * TokenRecord) :=
  match getOrCreateWeekTokens clk tbl userId with
  | None => None
  | Some (tbl1, tokens) =>
      let newAmount := Z.max 0 (current_tokens tokens - amount) in
      let lossEvent := {| loss_date := js_today clk; loss_reason := reason;
                          loss_amount := amount |} in
      let lossEvents := loss_events tokens ++ [lossEvent] in
      let upd := set_tokens newAmount lossEvents (bool_decide (newAmount = 0)) in
      (* UPDATE tokens SET ... WHERE id = $1 RETURNING * *)
      match upd <$> filter (λ r, token_id r = token_id tokens) tbl1 with
      | result :: _ =>
          Some ((λ r, if decide (token_id r = token_id tokens) then upd r else r)
                  <$> tbl1, result)
      | [] => None
      end
  end.

(** The invariant of a row of table tokens. *)
Definition token_row_ok (r : TokenRecord) : Prop :=
  0 <= current_tokens r <= starting_tokens r ∧
  (punishment_triggered r = true ↔ current_tokens r = 0).

(** The ledgers the program can build: it only writes table tokens in
    [getOrCreateWeekTokens] and in [deductToken], whose amounts are 1 and 2. *)
Inductive ledger : list TokenRecord → Prop :=
| ledger_empty : ledger []
| ledger_read clk tbl userId tbl' tokens :
    ledger tbl →
    getOrCreateWeekTokens clk tbl userId = Some (tbl', tokens) →
    ledger tbl'
| ledger_deduct clk tbl userId reason amount tbl' tokens :
    ledger tbl → 0 < amount →
    deductToken clk tbl userId reason amount = Some (tbl', tokens) →
    ledger tbl'.

(** The invariant of the table: the primary key holds and every row is
    within bounds. *)
Definition tokens_ok (tbl : list TokenRecord) : Prop :=
  NoDup (token_id <$> tbl) ∧ Forall token_row_ok tbl.

End Db.

(** ** flows/lossAversion.ts *)

Module LossAversion.
Import Db.

Inductive Severity := minor | major.

Definition zero_tokens_message : string :=
  "🚨 ZERO TOKENS" +:+ Js.nl +:+ Js.nl +:+
  "You've lost all 7 tokens this week." +:+ Js.nl +:+ Js.nl +:+
  "The pre-agreed punishment is now active." +:+ Js.nl +:+ Js.nl +:+
  "This is the cost of breaking your commitment." +:+ Js.nl +:+ Js.nl +:+
  "Next week starts fresh. But this week, you pay the price.".

Definition processFailure (clk : Clock) (tbl : list TokenRecord) (user : User)
    (reason : string) (severity : Severity)
    : option (list TokenRecord * string) :=
  if negb (loss_aversion_enabled user) then Some (tbl, EmptyString)
  else
    let amount := match severity with major => 2 | minor => 1 end in
    match deductToken clk tbl (user_id user) reason amount with
    | None => None
    | Some (tbl', tokens) =>
        if punishment_triggered tokens then Some (tbl', zero_tokens_message)
        else
          let remaining := current_tokens tokens in
          let emoji := if remaining <=? 2 then "⚠️" else "📉" in
          Some (tbl',
            emoji +:+ " Token lost: " +:+ reason +:+ Js.nl +:+ Js.nl +:+
            "Remaining this week: " +:+ Js.ofNumber remaining +:+ "/7" +:+
            Js.nl +:+ Js.nl +:+
            (if remaining <=? 2
             then "You're running low. Every action counts now."
             else EmptyString))
    end.

(** [if (msg) messages.push(msg)] *)
Definition push_if_nonempty (messages : list string) (msg : string) : list string :=
  if Js.isEmpty msg then messages else messages ++ [msg].

Definition checkDailyFailures (clk : Clock) (tbl : list TokenRecord)
    (user : User) (todayLog : DailyLog) (totalPossible : Z)
    : option (list TokenRecord * list string) :=
  let messages : list string := [] in
  if negb (loss_aversion_enabled user) then Some (tbl, messages)
  else
    (* total_score < totalPossible * 0.5 on integers *)
    let step1 :=
      if 2 * total_score todayLog <? totalPossible then
        match processFailure clk tbl user
                ("Score " +:+ Js.ofNumber (total_score todayLog) +:+ "/" +:+
                 Js.ofNumber totalPossible) minor with
        | None => None
        | Some (tbl1, msg) => Some (tbl1, push_if_nonempty messages msg)
        end
      else Some (tbl, messages) in
    match step1 with
    | None => None
    | Some (tbl1, messages1) =>
        if negb (tomorrow_locked todayLog) then
          match processFailure clk tbl1 user "Missed nightly lock" major with
          | None => None
          | Some (tbl2, msg) => Some (tbl2, push_if_nonempty messages1 msg)
          end
        else Some (tbl1, messages1)
    end.

End LossAversion.

(** ** flows/photoShame.ts *)

Module PhotoShame.
Import Db.

Record ShameEscalation := {
  level : Z;
  trigger : string;
  message : string;
  showBaseline : bool;
  showRecent : bool;
  actionRequired : string
}.

Fixpoint countConsecutiveFailures (logs : list DailyLog) : Z :=
  match logs with
  | [] => 0
  | log :: rest =>
      if total_score log <? 5 then 1 + countConsecutiveFailures rest else 0
  end.

Definition determineShameEscalation (user : User) (recentLogs : list DailyLog)
    (patterns : list Pattern) : option ShameEscalation :=
  if shame_level user =? 0 then None
  else
    let failedDays :=
      Z.of_nat (length (filter (λ l, total_score l < 5) recentLogs)) in
    let consecutiveFailures := countConsecutiveFailures recentLogs in
    let missedLocks :=
      Z.of_nat (length (filter (λ l, tomorrow_locked l = false) recentLogs)) in
    let repeatExcuses :=
      filter (λ p, pattern_type p = "miss_reason" ∧ 2 <= frequency p) patterns in
    if (1 <=? shame_level user) && (1 <=? failedDays) && (failedDays <=? 2) then
      Some {| level := 1; trigger := "single_slip";
              message := "You slipped. Remember where you started.";
              showBaseline := true; showRecent := false;
              actionRequired :=
                "What's the ONE thing you'll do differently today?" |}
    else if (2 <=? shame_level user)
            && ((2 <=? consecutiveFailures)
                || (0 <? Z.of_nat (length repeatExcuses))) then
      let excuse := match repeatExcuses with
                    | p :: _ => if Js.isEmpty (content p)
                                then "no clear reason" else content p
                    | [] => "no clear reason"
                    end in
      Some {| level := 2; trigger := "repeat_failure";
              message :=
                "This is the " +:+
                (if 1 <? consecutiveFailures
                 then Js.ofNumber consecutiveFailures +:+ "th" else "2nd") +:+
                " time this week. The excuse: " +:+ Js.dquote +:+ excuse +:+
                Js.dquote +:+ ". Same pattern, same result.";
              showBaseline := true; showRecent := true;
              actionRequired :=
                "What will you do TODAY to break this pattern?" |}
    else if (3 <=? shame_level user) && (4 <=? failedDays) then
      Some {| level := 3; trigger := "severe_pattern";
              message :=
                "4+ days below target. Look at these photos. Nothing changed. The only person who can change this is you.";
              showBaseline := true; showRecent := true;
              actionRequired :=
                "Tell me what you're going to do RIGHT NOW." |}
    else None.

(** The tier of a decision: 0 stands for no escalation. *)
Definition tier (e : option ShameEscalation) : Z :=
  match e with Some s => level s | None => 0 end.

(** The number of days below 5 in the window. *)
Definition failedDays (recentLogs : list DailyLog) : Z :=
  Z.of_nat (length (filter (λ l, total_score l < 5) recentLogs)).

(** Some miss_reason pattern was recorded at least twice. *)
Definition repeatExcuse (patterns : list Pattern) : Prop :=
  ∃ p, p ∈ patterns ∧ pattern_type p = "miss_reason" ∧ 2 <= frequency p.

(** The conditions of the three tiers. *)
Definition tier3_cond (user : User) (logs : list DailyLog) : Prop :=
  3 <= shame_level user ∧ 4 <= failedDays logs.
Definition tier2_cond (user : User) (logs : list DailyLog)
    (patterns : list Pattern) : Prop :=
  2 <= shame_level user ∧
  (2 <= countConsecutiveFailures logs ∨ repeatExcuse patterns).
Definition tier1_cond (user : User) (logs : list DailyLog) : Prop :=
  1 <= shame_level user ∧ 1 <= failedDays logs <= 2.

(** The decision as the specification words it: tier 3 is tried first,
    then tier 2, then tier 1. *)
Definition spec_tier_3_2_1 (user : User) (logs : list DailyLog)
    (patterns : list Pattern) (t : Z) : Prop :=
  if decide (shame_level user = 0) then t = 0
  else (tier3_cond user logs ∧ t = 3)
     ∨ (¬ tier3_cond user logs ∧ tier2_cond user logs patterns ∧ t = 2)
     ∨ (¬ tier3_cond user logs ∧ ¬ tier2_cond user logs patterns
        ∧ tier1_cond user logs ∧ t = 1)
     ∨ (¬ tier3_cond user logs ∧ ¬ tier2_cond user logs patterns
        ∧ ¬ tier1_cond user logs ∧ t = 0).

(** The same decision with the tiers tried in the order 1, 2, 3. *)
Definition tier_1_2_3 (user : User) (logs : list DailyLog)
    (patterns : list Pattern) (t : Z) : Prop :=
  if decide (shame_level user = 0) then t = 0
  else (tier1_cond user logs ∧ t = 1)
     ∨ (¬ tier1_cond user logs ∧ tier2_cond user logs patterns ∧ t = 2)
     ∨ (¬ tier1_cond user logs ∧ ¬ tier2_cond user logs patterns
        ∧ tier3_cond user logs ∧ t = 3)
     ∨ (¬ tier1_cond user logs ∧ ¬ tier2_cond user logs patterns
        ∧ ¬ tier3_cond user logs ∧ t = 0).

End PhotoShame.

(** ** flows/scorecard.ts *)

Module Scorecard.
Import Db.

Record ScoreUpdate := {
  action : string;
  completed : bool;
  value : option Z
}.

Record ScoreResult := {
  newScore : Z;
  totalPossible : Z;
  message : string
}.

(** [contract.binary_actions.find(a => a.name.toLowerCase() ===
    name.toLowerCase())] *)
Definition findAction (contract : Contract) (name : string)
    : option BinaryAction :=
  List.find (λ a, bool_decide (Js.toLowerCase (action_name a)
                               = Js.toLowerCase name))
    (binary_actions contract).

(** [Object.values(scores).reduce((a, b) => a + b, 0)] *)
Definition sumScores (scores : gmap string Z) : Z :=
  map_fold (λ _ b a, a + b) 0 scores.

(** [contract.binary_actions.reduce((a, b) => a + b.points, 0)] *)
Definition sumPoints (actions : list BinaryAction) : Z :=
  foldl (λ a b, a + points b) 0 actions.

(** The object [{ scores, total_score }]. *)
Definition score_columns (scores : gmap string Z) (total : Z) : DailyLogUpdate :=
  {| set_log_id := None; set_log_user := None; set_log_date := None;
     set_scores := Some scores; set_total_score := Some total;
     set_tomorrow_locked := None; set_tomorrow_plan := None;
     set_miss_reason := None; set_notes := None;
     set_log_created_at := None |}.

Definition updateScore (clk : Clock) (tbl : list DailyLog) (user : User)
    (contract : Contract) (update : ScoreUpdate)
    : option (list DailyLog * ScoreResult) :=
  let today := js_today clk in
  let log := getTodayLog clk tbl (user_id user) in
  let scores := from_option Db.scores ∅ log in
  match findAction contract (action update) with
  | None =>
      Some (tbl, {| newScore := 0; totalPossible := 0;
                    message := "Unknown action: " +:+ action update |})
  | Some act =>
      let earned := if completed update then points act else 0 in
      let scores := Js.setProp (action_name act) earned scores in
      let totalScore := sumScores scores in
      let totalPossible := sumPoints (binary_actions contract) in
      match upsertDailyLog clk tbl (user_id user) today
              (score_columns scores totalScore) with
      | None => None
      | Some (tbl', _) =>
          let emoji := if completed update then "✓" else "✗" in
          Some (tbl',
                {| newScore := totalScore; totalPossible := totalPossible;
                   message :=
                     emoji +:+ " " +:+ action_name act +:+ ": " +:+
                     Js.ofNumber earned +:+ "/" +:+
                     Js.ofNumber (points act) +:+ " pts" +:+ Js.nl +:+ Js.nl +:+
                     "Today: " +:+ Js.ofNumber totalScore +:+ "/" +:+
                     Js.ofNumber totalPossible |})
      end
  end.

End Scorecard.

(** ** flows/nightlyLock.ts *)

Module NightlyLock.
Import Db.

Inductive Step :=
  step_start | step_scoring | step_miss_reason | step_planning | step_confirm.

Record NightlyLockState := {
  step : Step;
  todayScores : option (gmap string Z);
  missedItems : option (list string);
  missReason : option string;
  tomorrowPlan : option TomorrowPlan
}.

(** [{ step }] *)
Definition state_at (s : Step) : NightlyLockState :=
  {| step := s; todayScores := None; missedItems := None;
     missReason := None; tomorrowPlan := None |}.

Definition with_step (s : Step) (st : NightlyLockState) : NightlyLockState :=
  {| step := s; todayScores := todayScores st; missedItems := missedItems st;
     missReason := missReason st; tomorrowPlan := tomorrowPlan st |}.

(** What the flow reads and writes: the module-level [Map] of sessions
    and the two tables. *)
Record Store := {
  nightlyLockState : gmap string NightlyLockState;
  daily_logs : list DailyLog;
  patterns : list Pattern
}.

Definition set_session (userId : string) (st : NightlyLockState) (w : Store) : Store :=
  {| nightlyLockState := <[userId := st]> (nightlyLockState w);
     daily_logs := daily_logs w; patterns := patterns w |}.

Definition delete_session (userId : string) (w : Store) : Store :=
  {| nightlyLockState := delete userId (nightlyLockState w);
     daily_logs := daily_logs w; patterns := patterns w |}.

Definition set_logs (tbl : list DailyLog) (w : Store) : Store :=
  {| nightlyLockState := nightlyLockState w; daily_logs := tbl;
     patterns := patterns w |}.

Definition set_patterns (tbl : list Pattern) (w : Store) : Store :=
  {| nightlyLockState := nightlyLockState w; daily_logs := daily_logs w;
     patterns := tbl |}.

(** FLOW_PROMPTS.nightly_lock_plan *)
Definition nightly_lock_plan : string :=
  "Now lock tomorrow:" +:+ Js.nl +:+ Js.nl +:+
  "1. Eating window?" +:+ Js.nl +:+
  "2. First meal time and what?" +:+ Js.nl +:+
  "3. Walk: when?" +:+ Js.nl +:+
  "4. Strength: yes/no?" +:+ Js.nl +:+
  "5. One danger moment you anticipate?" +:+ Js.nl +:+ Js.nl +:+
  "Be specific. " +:+ Js.dquote +:+ "Morning" +:+ Js.dquote +:+ " is not a time.".

(** FLOW_PROMPTS.nightly_lock_reason *)
Definition nightly_lock_reason (missed : list string) : string :=
  "You missed: " +:+ Js.join ", " missed +:+ Js.nl +:+ Js.nl +:+
  "One sentence: What happened?".

Definition startNightlyLock (w : Store) (user : User) (contract : Contract)
    : Store * option string :=
  let w := set_session (user_id user) (state_at step_scoring) w in
  let actionList :=
    Js.join Js.nl ((λ a, "- " +:+ action_name a) <$> binary_actions contract) in
  (w, Some ("Time to lock tomorrow." +:+ Js.nl +:+ Js.nl +:+
            "First, score today. Which of these did you complete?" +:+
            Js.nl +:+ Js.nl +:+ actionList +:+ Js.nl +:+ Js.nl +:+
            "Reply with what you hit (e.g., " +:+ Js.dquote +:+
            "calories, protein, walk" +:+ Js.dquote +:+ ") or " +:+
            Js.dquote +:+ "all" +:+ Js.dquote +:+ " / " +:+
            Js.dquote +:+ "none" +:+ Js.dquote +:+ ".")).

(** [items.includes(name)] *)
Definition listIncludes (items : list string) (name : string) : bool :=
  bool_decide (name ∈ items).

(** [lower.split(/[,\s]+/).filter(w => w.length > 2)] *)
Fixpoint splitWords (cur : string) (s : string) : list string :=
  match s with
  | EmptyString => [String.rev cur]
  | String c r =>
      if Js.isSpace c || Ascii.eqb c ","
      then String.rev cur :: splitWords EmptyString r
      else splitWords (String c cur) r
  end.

Definition longWords (lower : string) : list string :=
  List.filter (λ w, (2 <? Js.length w)%nat) (splitWords EmptyString lower).

(** The two passes of [handleScoring] over the actions: each pushes the
    name of an action to one of the two lists. *)
Definition sortActions (hit : BinaryAction → bool) (actions : list BinaryAction)
    (lists : list string * list string) : list string * list string :=
  foldl (λ '(completedItems, missedItems) a,
           if hit a then (completedItems ++ [action_name a], missedItems)
           else (completedItems, missedItems ++ [action_name a]))
        lists actions.

Definition mentioned (lower : string) (a : BinaryAction) : bool :=
  let actionLower := Js.toLowerCase (action_name a) in
  Js.includes lower actionLower
  || Js.includes lower (Js.replaceFirstChar "_" " " actionLower).

Definition overlaps (words : list string) (a : BinaryAction) : bool :=
  existsb (λ w, Js.includes (Js.toLowerCase (action_name a)) w
                || Js.includes w (Js.substring0 4 (Js.toLowerCase (action_name a))))
          words.

Definition classify (lower : string) (actions : list BinaryAction)
    : list string * list string :=
  if bool_decide (lower = "all") then (action_name <$> actions, [])
  else if bool_decide (lower = "none") then ([], action_name <$> actions)
  else
    let '(completedItems, missedItems) :=
      sortActions (mentioned lower) actions ([], []) in
    if bool_decide (length completedItems = 0%nat) then
      sortActions (overlaps (longWords lower)) actions
        (completedItems, missedItems)
    else (completedItems, missedItems).

(** The scoring loop: the scores object, which starts as [{}], and the
    running total. *)
Definition scoreActions (completedItems : list string)
    (actions : list BinaryAction) : gmap string Z * Z :=
  foldl (λ '(scores, totalScore) a,
           if listIncludes completedItems (action_name a)
           then (Js.setProp (action_name a) (points a) scores,
                 totalScore + points a)
           else (Js.setProp (action_name a) 0 scores, totalScore))
        (∅, 0) actions.

Definition handleScoring (clk : Clock) (w : Store) (user : User)
    (contract : Contract) (message : string) (state : NightlyLockState)
    : Store * option string :=
  let lower := Js.toLowerCase message in
  let actions := binary_actions contract in
  let '(completedItems, missedItems) := classify lower actions in
  let '(scores, totalScore) := scoreActions completedItems actions in
  let today := js_today clk in
  match upsertDailyLog clk (daily_logs w) (user_id user) today
          (Scorecard.score_columns scores totalScore) with
  | None => (w, None)
  | Some (tbl', _) =>
      let w := set_logs tbl' w in
      let state :=
        {| step := step state; todayScores := Some scores;
           missedItems := Some missedItems; missReason := missReason state;
           tomorrowPlan := tomorrowPlan state |} in
      if (0 <? length missedItems)%nat then
        (set_session (user_id user) (with_step step_miss_reason state) w,
         Some (nightly_lock_reason missedItems))
      else
        (set_session (user_id user) (with_step step_planning state) w,
         Some ("Perfect day. " +:+ Js.ofNumber totalScore +:+ "/10." +:+
               Js.nl +:+ Js.nl +:+ nightly_lock_plan))
  end.

Section Flow.
(** The two regular-expression parsers of the flow are not embedded:
    [timeMatch message] stands for
    [message.match(/(\d{1,2}[:\s]?\d{0,2}\s*(?:am|pm)?)/i)?.[1]]. *)
Variable parseTomorrowPlan : string → TomorrowPlan.
Variable timeMatch : string → option string.

(** [state] is the object held in the map, so the assignment to
    [state.missReason] shows in the map before the first [await]. *)
Definition handleMissReason (clk : Clock) (w : Store) (user : User)
    (message : string) (state : NightlyLockState) : Store * option string :=
  let state :=
    {| step := step state; todayScores := todayScores state;
       missedItems := missedItems state;
       missReason := Some (Js.trim message);
       tomorrowPlan := tomorrowPlan state |} in
  let w := set_session (user_id user) state w in
  match recordPattern clk (fresh_id clk) (patterns w) (user_id user)
          "miss_reason" (Js.trim message) with
  | None => (w, None)
  | Some (tbl1, _) =>
      let w := set_patterns tbl1 w in
      let recorded :=
        match timeMatch message with
        | Some time =>
            match recordPattern clk (fresh_id_2 clk) (patterns w)
                    (user_id user) "failure_time" time with
            | None => None
            | Some (tbl2, _) => Some (set_patterns tbl2 w)
            end
        | None => Some w
        end in
      match recorded with
      | None => (w, None)
      | Some w =>
          (set_session (user_id user) (with_step step_planning state) w,
           Some ("Noted: " +:+ Js.dquote +:+ Js.trim message +:+ Js.dquote +:+
                 Js.nl +:+ Js.nl +:+ nightly_lock_plan))
      end
  end.

Definition handlePlanning (w : Store) (user : User) (message : string)
    (state : NightlyLockState) : Store * option string :=
  let plan := parseTomorrowPlan message in
  let state :=
    {| step := step_confirm; todayScores := todayScores state;
       missedItems := missedItems state; missReason := missReason state;
       tomorrowPlan := Some plan |} in
  (set_session (user_id user) state w,
   Some ("Tomorrow's plan:" +:+ Js.nl +:+ Js.nl +:+
         "📍 Eating: " +:+ eating_window plan +:+ Js.nl +:+
         "🍽️ First meal: " +:+ first_meal plan +:+ Js.nl +:+
         "🚶 Walk: " +:+ walk_time plan +:+ Js.nl +:+
         "💪 Strength: " +:+ (if strength plan then "YES" else "NO") +:+ Js.nl +:+
         "⚠️ Danger: " +:+ danger_moment plan +:+ Js.nl +:+ Js.nl +:+
         "Reply " +:+ Js.dquote +:+ "LOCKED" +:+ Js.dquote +:+ " to confirm.")).

(** The object [{ tomorrow_locked: true, tomorrow_plan, miss_reason }];
    [state.missReason || null] turns the empty string into [null]. *)
Definition lock_columns (state : NightlyLockState) : DailyLogUpdate :=
  {| set_log_id := None; set_log_user := None; set_log_date := None;
     set_scores := None; set_total_score := None;
     set_tomorrow_locked := Some true;
     set_tomorrow_plan := Some (tomorrowPlan state);
     set_miss_reason :=
       Some (match missReason state with
             | Some reason => if Js.isEmpty reason then None else Some reason
             | None => None
             end);
     set_notes := None; set_log_created_at := None |}.

Definition handleConfirm (clk : Clock) (w : Store) (user : User)
    (message : string) (state : NightlyLockState) : Store * option string :=
  let confirmation := Js.toUpperCase (Js.trim message) in
  if bool_decide (confirmation = "LOCKED") then
    let today := js_today clk in
    match upsertDailyLog clk (daily_logs w) (user_id user) today
            (lock_columns state) with
    | None => (w, None)
    | Some (tbl', _) =>
        let w := delete_session (user_id user) (set_logs tbl' w) in
        let score := match todayScores state with
                     | Some scores => Scorecard.sumScores scores
                     | None => 0
                     end in
        (w, Some ("Locked. ✓" +:+ Js.nl +:+ Js.nl +:+
                  "Today: " +:+ Js.ofNumber score +:+ "/10" +:+ Js.nl +:+
                  "Tomorrow is already decided." +:+ Js.nl +:+ Js.nl +:+
                  "Sleep well. I'll remind you in the morning."))
    end
  else
    (set_session (user_id user) (with_step step_planning state) w,
     Some "What do you want to change? Give me the full plan again.").

Definition handleNightlyLock (clk : Clock) (w : Store) (user : User)
    (contract : Contract) (message : string) : Store * option string :=
  let state := default (state_at step_start)
                 (nightlyLockState w !! user_id user) in
  match step state with
  | step_start => startNightlyLock w user contract
  | step_scoring => handleScoring clk w user contract message state
  | step_miss_reason => handleMissReason clk w user message state
  | step_planning => handlePlanning w user message state
  | step_confirm => handleConfirm clk w user message state
  end.

End Flow.

Definition isInNightlyLock (sessions : gmap string NightlyLockState)
    (userId : string) : bool :=
  bool_decide (is_Some (sessions !! userId)).

Definition resetNightlyLock (sessions : gmap string NightlyLockState)
    (userId : string) : gmap string NightlyLockState :=
  delete userId sessions.

End NightlyLock.

(** ** flows/badDay.ts *)

Module BadDay.

Definition triggers : list string :=
  ["bad day"; "hard day"; "rough day"; "terrible day"; "can't today";
   "struggling"; "need a break"; "downshift"; "not feeling it";
   "overwhelmed"; "exhausted"; "burnt out"; "burnout"].

Definition detectBadDayRequest (message : string) : bool :=
  let lower := Js.toLowerCase message in
  existsb (λ t, Js.includes lower t) triggers.

End BadDay.

(** ** routes/webhook.ts *)

Module Webhook.
Import Db NightlyLock.

(** The handler [handleMessage] hands the message to. *)
Inductive Route :=
| to_photo | to_onboarding | to_no_contract | to_nightly_lock
| to_status | to_weekly_report | to_tokens | to_bad_day | to_reset
| to_rationalization | to_score_update | to_intent_reply.

Inductive Intent :=
| LOG_SCORE | BAD_DAY | QUESTION | LOCK_TOMORROW | CHECK_STATUS
| GENERAL | SKIP | PHOTO.

Definition isOnboarding (user : User) : bool := negb (onboarding_complete user).

Section Router.
Variable parseTomorrowPlan : string → TomorrowPlan.
Variable timeMatch : string → option string.
(** The tests of the branches behind the literal commands, and the
    language model's classification, are parameters. *)
Variable detectRationalization : string → bool.
Variable parsesAsScoreUpdate : string → Contract → bool.
Variable classifyIntent : string → Intent.

(** [handleMessage], observed on the handler chosen and on the
    nightly-lock store: the map of sessions is private to nightlyLock.ts
    and only [handleNightlyLock] and [resetNightlyLock] write it.
    [contract] is what [getActiveContract(user.id)] returned. *)
Definition handleMessage (clk : Clock) (w : Store) (user : User)
    (contract : option Contract) (message : string)
    (mediaUrl : option string) : Route * gmap string NightlyLockState :=
  let sessions := nightlyLockState w in
  if is_set mediaUrl then (to_photo, sessions)
  else if isOnboarding user then (to_onboarding, sessions)
  else match contract with
  | None => (to_no_contract, sessions)
  | Some contract =>
      let nightly :=
        nightlyLockState
          (handleNightlyLock parseTomorrowPlan timeMatch clk w user
             contract message).1 in
      if isInNightlyLock sessions (user_id user) then (to_nightly_lock, nightly)
      else
        let lower := Js.trim (Js.toLowerCase message) in
        if bool_decide (lower = "lock") || bool_decide (lower = "nightly")
           || Js.includes lower "lock tomorrow"
        then (to_nightly_lock, nightly)
        else if bool_decide (lower = "status") || bool_decide (lower = "score")
                || Js.includes lower "how am i"
        then (to_status, sessions)
        else if bool_decide (lower = "week") || bool_decide (lower = "weekly")
                || Js.includes lower "weekly report"
        then (to_weekly_report, sessions)
        else if bool_decide (lower = "tokens") || Js.includes lower "token"
        then (to_tokens, sessions)
        else if BadDay.detectBadDayRequest message then (to_bad_day, sessions)
        else if bool_decide (lower = "reset")
        then (to_reset, resetNightlyLock sessions (user_id user))
        else if detectRationalization message
        then (to_rationalization, sessions)
        else if parsesAsScoreUpdate message contract
        then (to_score_update, sessions)
        else match classifyIntent message with
             | LOCK_TOMORROW => (to_nightly_lock, nightly)
             | _ => (to_intent_reply, sessions)
             end
  end.

End Router.

End Webhook.

(** ** flows/onboarding.ts *)

Module Onboarding.
Import Db.

(** The per-user entry of the module-level [onboardingData] map. *)
Record OnboardingData := {
  data_goal : option string;
  binaryActions : option (list BinaryAction)
}.

(** What the flow reads and writes: table users and the map. *)
Record Store := {
  users : list User;
  onboardingData : gmap string OnboardingData
}.

Definition set_users (tbl : list User) (w : Store) : Store :=
{| users := tbl; onboardingData := onboardingData w |}.

Definition set_data (userId : string) (d : OnboardingData) (w : Store) : Store :=
{| users := users w; onboardingData := <[userId := d]> (onboardingData w) |}.

Definition DEFAULT_BINARY_ACTIONS : list BinaryAction :=
[ {| action_name := "calories"; threshold := Some "under target"; points := 2 |};
  {| action_name := "protein"; threshold := Some "hit target"; points := 2 |};
  {| action_name := "walk"; threshold := Some "10k steps"; points := 1 |};
  {| action_name := "strength"; threshold := Some "completed"; points := 1 |};
  {| action_name := "creatine"; threshold := Some "taken"; points := 1 |};
  {| action_name := "fasting"; threshold := Some "in window"; points := 1 |};
  {| action_name := "weigh_in"; threshold := Some "done"; points := 1 |};
  {| action_name := "photo"; threshold := Some "taken"; points := 1 |} ].

Definition greetings : list string :=
["hi"; "hello"; "hey"; "yo"; "sup"; "hola"; "start"; "begin"].

Definition isGreeting (message : string) : bool :=
bool_decide (message ∈ greetings) || (Js.length message <? 4)%nat.

(** The object [{ onboarding_step: step }]. *)
Definition step_update (next : string) : UserUpdate :=
{| set_name := None; set_wake_time := None; set_sleep_time := None;
   set_eating_window_start := None; set_eating_window_end := None;
   set_risk_times := None; set_shame_level := None;
   set_onboarding_complete := None; set_onboarding_step := Some next |}.

(** The object [{ name, onboarding_step: 'awaiting_goal' }]. *)
Definition name_update (name : string) : UserUpdate :=
{| set_name := Some name; set_wake_time := None; set_sleep_time := None;
   set_eating_window_start := None; set_eating_window_end := None;
   set_risk_times := None; set_shame_level := None;
   set_onboarding_complete := None; set_onboarding_step := Some "awaiting_goal" |}.


(** ONBOARDING_PROMPTS.goal_received *)
Definition goal_received (goal : string) : string :=
"Got it. Your goal is: " +:+ goal +:+ Js.nl +:+ Js.nl +:+
"Now I need to convert this into BINARY daily actions. Things that are either done or not done. No gray areas." +:+
Js.nl +:+ Js.nl +:+
"For " +:+ goal +:+
", what are the daily actions you'll track? List them with specific thresholds." +:+
Js.nl +:+ Js.nl +:+
"Example format:" +:+ Js.nl +:+
"- Calories under 2000" +:+ Js.nl +:+
"- Protein over 150g" +:+ Js.nl +:+
"- 10k steps" +:+ Js.nl +:+
"- Strength training".

(** ONBOARDING_PROMPTS.times_setup *)
Definition times_setup : string :=
"Good. Now I need your schedule:" +:+ Js.nl +:+ Js.nl +:+
"1. Wake time? (e.g., " +:+ Js.dquote +:+ "6:30am" +:+ Js.dquote +:+ ")" +:+ Js.nl +:+
"2. Sleep time? (e.g., " +:+ Js.dquote +:+ "10:30pm" +:+ Js.dquote +:+ ")" +:+ Js.nl +:+
"3. Eating window? (e.g., " +:+ Js.dquote +:+ "12pm-8pm" +:+ Js.dquote +:+ ")" +:+ Js.nl +:+
"4. What time(s) are you most likely to fail? (Your danger zones)" +:+
Js.nl +:+ Js.nl +:+
"Format: Wake: X, Sleep: X, Eating: X-X, Danger: X".

Definition name_prompt : string :=
"What's your name? Just your first name is fine.".

(** *** Binary-action parsing *)

(** The ASCII characters of the class [[-*•\d.)\s]]. *)
Definition isBulletChar (c : ascii) : bool :=
Ascii.eqb c "-" || Ascii.eqb c "*" || Js.isDigit c || Ascii.eqb c "."
|| Ascii.eqb c ")" || Js.isSpace c.

(** [line.replace(/^[-*•\d.)\s]+/, '')]: the leading characters of the
    class go, the bullet U+2022 with its three bytes. *)
Fixpoint stripBullets (line : string) : string :=
match line with
| EmptyString => EmptyString
| String c r =>
    if isBulletChar c then stripBullets r
    else match r with
         | String c1 (String c2 r') =>
             if Ascii.eqb c "226" && Ascii.eqb c1 "128" && Ascii.eqb c2 "162"
             then stripBullets r' else line
         | _ => line
         end
end.

(** [.] does not match a line terminator. *)
Definition isLineTerminator (c : ascii) : bool :=
Ascii.eqb c "010" || Ascii.eqb c "013".

(** The lazy group [(.+?)] once its first character is taken: it grows
    until white space follows. *)
Fixpoint lazyUntilSpace (s : string) : option string :=
match s with
| EmptyString => None
| String c r =>
    if Js.isSpace c then Some EmptyString
    else if isLineTerminator c then None
    else String c <$> lazyUntilSpace r
end.

(** [match[1]] of
    [cleaned.match(/^(.+?)\s+(under|over|at least|min|max|hit|done|completed)?\s*(\d+)?/i)]:
    the two optional groups always match, so the match exists exactly when
    [(.+?)\s+] does. *)
Definition firstWord (cleaned : string) : option string :=
match cleaned with
| EmptyString => None
| String c r => if isLineTerminator c then None
                else String c <$> lazyUntilSpace r
end.

Definition parseLine (cleaned : string) : BinaryAction :=
match firstWord cleaned with
| Some word =>
    {| action_name := Js.underscoreSpaces (Js.toLowerCase word);
       threshold := Some cleaned; points := 1 |}
| None =>
    {| action_name := Js.underscoreSpaces (Js.toLowerCase cleaned);
       threshold := Some "completed"; points := 1 |}
end.

(** The lines that reach [actions.push]: non-blank lines, stripped of the
    leading bullets and trimmed, that are not empty then. *)
Definition cleanedLines (message : string) : list string :=
let lines := List.filter (λ l, negb (Js.isEmpty (Js.trim l)))
               (Js.split Js.newline message) in
List.filter (λ cleaned, negb (Js.isEmpty cleaned))
  ((λ line, Js.trim (stripBullets line)) <$> lines).

Definition with_points (p : Z) (a : BinaryAction) : BinaryAction :=
{| action_name := action_name a; threshold := threshold a; points := p |}.

(** [if (actions.length >= 2) { actions[0].points = 2; actions[1].points = 2 }] *)
Definition assignPoints (actions : list BinaryAction) : list BinaryAction :=
match actions with
| a0 :: a1 :: rest => with_points 2 a0 :: with_points 2 a1 :: rest
| _ => actions
end.

Definition parseBinaryActions (message : string) : list BinaryAction :=
assignPoints (parseLine <$> cleanedLines message).


(** The points of [n] parsed actions as the specification words them: 1
    each, except that the first two get 2. *)
Definition spec_points (n : nat) : list Z :=
replicate (n `min` 2) 2 ++ replicate (n - 2) 1.

(** The points of [n] parsed actions as the code assigns them: the first
    two get 2 only when there are at least two. *)
Definition code_points (n : nat) : list Z :=
if (2 <=? n)%nat then 2 :: 2 :: replicate (n - 2) 1 else replicate n 1.

(** *** Handlers *)

Section Flow.
(** The handlers of the three last steps are parameters, observed on this
    store. *)
Variables handleTimesInput handleShameLevelInput handleContractConfirm
  : Store → User → string → Store * option string.

(** [firstName.charAt(0).toUpperCase() + firstName.slice(1).toLowerCase()] *)
Definition capitalize (firstName : string) : string :=
match firstName with
| EmptyString => EmptyString
| String c r => String (Js.upperChar c) (Js.toLowerCase r)
end.

Definition handleNameInput (w : Store) (user : User) (message : string)
    : Store * option string :=
let name := Js.trim message in
if isGreeting (Js.toLowerCase name) then (w, Some name_prompt)
else
  let firstName := default EmptyString (head (Js.split " " name)) in
  let capitalizedName := capitalize firstName in
  match updateUser (users w) (user_id user) (name_update capitalizedName) with
  | None => (w, None)
  | Some (tbl, _) =>
      (* ONBOARDING_PROMPTS has no property name_received: the call
         ONBOARDING_PROMPTS.name_received(capitalizedName) throws a
         TypeError once the row is written *)
      (set_users tbl w, None)
  end.

Definition handleGoalInput (w : Store) (user : User) (message : string)
    : Store * option string :=
let goal := Js.trim message in
match updateUser (users w) (user_id user) (step_update "awaiting_actions") with
| None => (w, None)
| Some (tbl, _) =>
    let w := set_users tbl w in
    (set_data (user_id user) {| data_goal := Some goal; binaryActions := None |} w,
     Some (goal_received goal))
end.

Definition handleActionsInput (w : Store) (user : User) (message : string)
    : Store * option string :=
let actions := parseBinaryActions message in
let data := default {| data_goal := None; binaryActions := None |}
              (onboardingData w !! user_id user) in
let data := {| data_goal := data_goal data;
               binaryActions :=
                 Some (if (0 <? length actions)%nat then actions
                       else DEFAULT_BINARY_ACTIONS) |} in
let w := set_data (user_id user) data w in
match updateUser (users w) (user_id user) (step_update "awaiting_times") with
| None => (w, None)
| Some (tbl, _) => (set_users tbl w, Some times_setup)
end.



End Flow.

End Onboarding.

(** ** Sample inputs *)

Module Samples.
Import Db.

Definition clock : Clock :=
  {| js_today := "2025-03-05"; current_date := "2025-03-05";
     week_start_now := "2025-03-03"; now := "2025-03-05 21:00:00";
     fresh_id := "id-9"; fresh_id_2 := "id-10" |}.

Definition user (level : Z) (lossAversion : bool) (step : string) : User :=
  {| user_id := "u1"; phone := "+15550100"; user_name := None;
     timezone := "America/Los_Angeles"; wake_time := None; sleep_time := None;
     eating_window_start := None; eating_window_end := None;
     risk_times := [];
     shame_level := level; loss_aversion_enabled := lossAversion;
     onboarding_complete := true; onboarding_step := step;
     user_created_at := "2025-03-01 09:00:00" |}.

(** A ledger with one token left this week. *)
Definition last_token : list TokenRecord :=
  [ {| token_id := "id-1"; token_user := "u1"; week_start := "2025-03-03";
       starting_tokens := 7; current_tokens := 1;
       loss_events := [ {| loss_date := "2025-03-04";
                           loss_reason := "Missed nightly lock";
                           loss_amount := 2 |} ];
       punishment_triggered := false |} ].

Definition day (date : string) (total : Z) (locked : bool) : DailyLog :=
  {| log_id := "log-" +:+ date; log_user := "u1"; log_date := date;
     scores := ∅; total_score := total;
     tomorrow_locked := locked; tomorrow_plan := None;
     miss_reason := None; notes := None;
     log_created_at := date |}.

(** Two failed days in a row, newest first. *)
Definition two_slips : list DailyLog :=
  [day "2025-03-05" 3 true; day "2025-03-04" 4 true].

(** Five failed days in a row, newest first. *)
Definition five_slips : list DailyLog :=
  [day "2025-03-05" 3 true; day "2025-03-04" 4 true; day "2025-03-03" 0 true;
   day "2025-03-02" 1 true; day "2025-03-01" 2 true].

(** A day scored 2 with no plan locked. *)
Definition bad_log : DailyLog :=
  {| log_id := "log-1"; log_user := "u1"; log_date := "2025-03-05";
     scores := {[ "calories" := 2 ]}; total_score := 2;
     tomorrow_locked := false; tomorrow_plan := None;
     miss_reason := None; notes := None;
     log_created_at := "2025-03-05 08:00:00" |}.

(** A contract of four actions worth 6 points. *)
Definition contract : Contract :=
  {| contract_id := "c1"; contract_user := "u1"; goal := "fat loss";
     binary_actions :=
       [ {| action_name := "calories"; threshold := Some "under 2000"; points := 2 |};
         {| action_name := "protein"; threshold := Some "over 150g"; points := 2 |};
         {| action_name := "walk"; threshold := Some "10k steps"; points := 1 |};
         {| action_name := "strength"; threshold := Some "completed"; points := 1 |} ];
     rules_text := None; active := true |}.

(** A contract with an action named after the accessor of
    Object.prototype. *)
Definition proto_contract : Contract :=
  {| contract_id := "c2"; contract_user := "u1"; goal := "fat loss";
     binary_actions :=
       [ {| action_name := "__proto__"; threshold := Some "completed";
            points := 2 |};
         {| action_name := "walk"; threshold := Some "10k steps"; points := 1 |} ];
     rules_text := None; active := true |}.

Definition did (name : string) : Scorecard.ScoreUpdate :=
  {| Scorecard.action := name; Scorecard.completed := true;
     Scorecard.value := None |}.

(** A contract without actions. *)
Definition empty_contract : Contract :=
  {| contract_id := "c0"; contract_user := "u1"; goal := "fitness";
     binary_actions := []; rules_text := None; active := true |}.

(** The user is in the scoring step of the nightly lock. *)
Definition in_scoring : NightlyLock.Store :=
  {| NightlyLock.nightlyLockState :=
       {[ "u1" := NightlyLock.state_at NightlyLock.step_scoring ]};
     NightlyLock.daily_logs := [bad_log];
     NightlyLock.patterns := [] |}.



(** A user who was asked for a name. *)
Definition asked_name : Onboarding.Store :=
{| Onboarding.users := [user 1 true "awaiting_name"];
   Onboarding.onboardingData := ∅ |}.


(** What [handleBadDay] writes. *)
Definition downshift_note : DailyLogUpdate :=
  {| set_log_id := None; set_log_user := None; set_log_date := None;
     set_scores := None; set_total_score := None;
     set_tomorrow_locked := None; set_tomorrow_plan := None;
     set_miss_reason := None;
     set_notes := Some (Some "DOWNSHIFT: bad day declared");
     set_log_created_at := None |}.

End Samples.

(** ** flows/photoShame.ts: photos *)

Module Photos.
Import Db.

Inductive PhotoType := baseline | daily.

#[global] Instance PhotoType_eq_dec : EqDecision PhotoType.
Proof. solve_decision. Defined.

Record Photo := {
  photo_id : string;
  photo_user : string;
  photo_type : PhotoType;
  url : string;
  photo_date : string;
  photo_created_at : string
}.

(** [INSERT INTO photos (user_id, type, url, date) VALUES (...) RETURNING *];
    the primary key is checked. *)
Definition savePhoto (clk : Clock) (tbl : list Photo) (userId : string)
    (type : PhotoType) (mediaUrl : string) : option (list Photo * Photo) :=
  let date := js_today clk in
  let row := {| photo_id := fresh_id clk; photo_user := userId;
                photo_type := type; url := mediaUrl; photo_date := date;
                photo_created_at := now clk |} in
  if decide (fresh_id clk ∉ (photo_id <$> tbl)) then Some (tbl ++ [row], row)
  else None.

(** [ORDER BY created_at DESC LIMIT 1]: a row with the latest timestamp;
    among rows of equal timestamp, which SQL leaves open, the first of the
    table. *)
Fixpoint latest (rows : list Photo) : option Photo :=
  match rows with
  | [] => None
  | r :: rest =>
      match latest rest with
      | Some r' => if String.ltb (photo_created_at r) (photo_created_at r')
                   then Some r' else Some r
      | None => Some r
      end
  end.

Definition getBaselinePhoto (tbl : list Photo) (userId : string) : option Photo :=
  latest (filter (λ r, photo_user r = userId ∧ photo_type r = baseline) tbl).

Definition handlePhotoMessage (clk : Clock) (tbl : list Photo) (user : User)
    (mediaUrl : string) : option (list Photo * string) :=
  match getBaselinePhoto tbl (user_id user) with
  | None =>
      match savePhoto clk tbl (user_id user) baseline mediaUrl with
      | None => None
      | Some (tbl', _) =>
          Some (tbl',
                "Baseline photo saved." +:+ Js.nl +:+ Js.nl +:+
                "This is your anchor. When you slip, you'll see this. When you succeed, you'll compare to this." +:+
                Js.nl +:+ Js.nl +:+
                "Take daily photos at the same time, same angle, same conditions.")
      end
  | Some _ =>
      match savePhoto clk tbl (user_id user) daily mediaUrl with
      | None => None
      | Some (tbl', _) =>
          Some (tbl',
                "Daily photo logged." +:+ Js.nl +:+ Js.nl +:+
                "Keep going. Consistency compounds.")
      end
  end.

End Photos.

(** ** JavaScript numbers in strings *)

Module JsNum.

(** The value of a decimal digit. *)
Definition digitValue (c : ascii) : Z := Z.of_nat (nat_of_ascii c) - 48.

(** The digits at the head of a string: [s.match(/^\d*/)[0]]. *)
Fixpoint leadingDigits (s : string) : string :=
  match s with
  | EmptyString => EmptyString
  | String c r => if Js.isDigit c then String c (leadingDigits r) else EmptyString
  end.

(** The number a string of digits denotes. *)
Fixpoint digitsValue (acc : Z) (s : string) : Z :=
  match s with
  | EmptyString => acc
  | String c r => digitsValue (10 * acc + digitValue c) r
  end.

(** [parseInt(s, 10)]: white space, an optional sign, then the digits up to
    the first other character; [None] stands for NaN. *)
Definition parseInt (s : string) : option Z :=
  let s := Js.trimStart s in
  let '(negative, rest) :=
    match s with
    | String "-" r => (true, r)
    | String "+" r => (false, r)
    | _ => (false, s)
    end in
  let digits := leadingDigits rest in
  if Js.isEmpty digits then None
  else Some (if negative then - digitsValue 0 digits else digitsValue 0 digits).

(** [s.padStart(2, '0')] *)
Definition padStart2 (s : string) : string :=
  match s with
  | EmptyString => "00"
  | String c EmptyString => String "0" (String c EmptyString)
  | _ => s
  end.

(** [s.replace(/\s+/g, '')] *)
Fixpoint removeSpaces (s : string) : string :=
  match s with
  | EmptyString => EmptyString
  | String c r => if Js.isSpace c then removeSpaces r else String c (removeSpaces r)
  end.

(** [s.replace(/am|pm/g, '')] *)
Fixpoint removeAmPm (s : string) : string :=
  match s with
  | EmptyString => EmptyString
  | String c r =>
      match r with
      | String "m" r' =>
          if Ascii.eqb c "a" || Ascii.eqb c "p" then removeAmPm r'
          else String c (removeAmPm r)
      | _ => String c (removeAmPm r)
      end
  end.

(** The first [n] characters, when they are [n] digits. *)
Definition digitsAt (n : nat) (s : string) : option string :=
  let d := Js.take n s in
  if bool_decide (String.length d = n)
     && bool_decide (String.length (leadingDigits d) = n)
  then Some d else None.

(** [s.substring(n)] *)
Fixpoint drop (n : nat) (s : string) : string :=
  match n, s with
  | O, _ => s
  | S _, EmptyString => EmptyString
  | S n', String _ r => drop n' r
  end.

End JsNum.

(** ** flows/badDay.ts: the downshift protocol *)

Module BadDayFlow.
Import Db.

(** [threshold.match(/(\d{3,4})/)?.[1]]: at the first place where three
    digits stand in a row, those and a fourth digit if there is one. *)
Fixpoint firstDigitRun (s : string) : option string :=
  match JsNum.digitsAt 4 s with
  | Some d => Some d
  | None =>
      match JsNum.digitsAt 3 s with
      | Some d => Some d
      | None => match s with
                | EmptyString => None
                | String _ r => firstDigitRun r
                end
      end
  end.

Definition extractCalorieTarget (contract : Contract) : Z :=
  let calorieAction :=
    List.find (λ a, Js.includes (Js.toLowerCase (action_name a)) "calorie")
      (binary_actions contract) in
  match calorieAction ≫= threshold with
  | Some text =>
      match firstDigitRun text with
      | Some digits => JsNum.digitsValue 0 digits
      | None => 2000
      end
  | None => 2000
  end.

(** [reason || fallback] *)
Definition orDefault (reason : option string) (fallback : string) : string :=
  match reason with
  | Some text => if Js.isEmpty text then fallback else text
  | None => fallback
  end.

(** The object [{ notes }]. *)
Definition note_columns (text : string) : DailyLogUpdate :=
  {| set_log_id := None; set_log_user := None; set_log_date := None;
     set_scores := None; set_total_score := None;
     set_tomorrow_locked := None; set_tomorrow_plan := None;
     set_miss_reason := None; set_notes := Some (Some text);
     set_log_created_at := None |}.

(** [Math.round(baseCalories * 1.25)]: the product is exact in a double for
    the integers met here, and [Math.round] rounds a half upwards. *)
Definition downshiftCalories (baseCalories : Z) : Z := (5 * baseCalories + 2) / 4.

(** The two tables [handleBadDay] writes; the writes made before a
    rejection stay. *)
Definition handleBadDay (clk : Clock) (pats : list Pattern) (logs : list DailyLog)
    (user : User) (contract : Contract) (reason : option string)
    : (list Pattern * list DailyLog) * option string :=
  let today := js_today clk in
  match recordPattern clk (fresh_id_2 clk) pats (user_id user) "bad_day"
          (orDefault reason "declared bad day") with
  | None => ((pats, logs), None)
  | Some (pats', _) =>
      match upsertDailyLog clk logs (user_id user) today
              (note_columns ("DOWNSHIFT: " +:+ orDefault reason "bad day declared"))
      with
      | None => ((pats', logs), None)
      | Some (logs', _) =>
          let baseCalories := extractCalorieTarget contract in
          let newCalories := downshiftCalories baseCalories in
          ((pats', logs'),
           Some ("Bad day acknowledged." +:+ Js.nl +:+ Js.nl +:+
                 "Downshift protocol active:" +:+ Js.nl +:+ Js.nl +:+
                 "✓ Calories: " +:+ Js.ofNumber newCalories +:+ " (up from " +:+
                 Js.ofNumber baseCalories +:+ ")" +:+ Js.nl +:+
                 "✓ Protein: STILL MANDATORY" +:+ Js.nl +:+
                 "✓ Walk: Reduced to 5k minimum" +:+ Js.nl +:+
                 "✓ Strength: Optional today" +:+ Js.nl +:+
                 "✓ No shame escalation" +:+ Js.nl +:+ Js.nl +:+
                 "This is not failure. This is strategic retreat." +:+
                 Js.nl +:+ Js.nl +:+
                 "What's the ONE thing you'll still accomplish today?"))
      end
  end.

(** [notes?.includes('DOWNSHIFT') || false] *)
Definition isDownshiftDay (notes : option string) : bool :=
  match notes with
  | Some text => Js.includes text "DOWNSHIFT"
  | None => false
  end.

Definition handleDownshiftCompletion (clk : Clock) (pats : list Pattern)
    (logs : list DailyLog) (user : User) (oneThingDone : string)
    : (list Pattern * list DailyLog) * option string :=
  let today := js_today clk in
  match recordPattern clk (fresh_id_2 clk) pats (user_id user)
          "downshift_completion" oneThingDone with
  | None => ((pats, logs), None)
  | Some (pats', _) =>
      match upsertDailyLog clk logs (user_id user) today
              (note_columns ("DOWNSHIFT completed: " +:+ oneThingDone)) with
      | None => ((pats', logs), None)
      | Some (logs', _) =>
          ((pats', logs'),
           Some ("Good. You did: " +:+ Js.dquote +:+ oneThingDone +:+ Js.dquote +:+
                 Js.nl +:+ Js.nl +:+
                 "On bad days, doing ONE thing is a win." +:+ Js.nl +:+ Js.nl +:+
                 "Tomorrow we reset. Tonight, lock your plan as usual."))
      end
  end.

End BadDayFlow.

(** ** flows/morning.ts *)

Module Morning.
Import Db.

(** [SELECT ... WHERE user_id = $1 AND date = CURRENT_DATE - 1]; [yesterday]
    is the value of [CURRENT_DATE - 1]. *)
Definition getYesterdayLog (tbl : list DailyLog) (userId yesterday : string)
    : option DailyLog :=
  select_log tbl userId yesterday.

Definition not_locked_message : string :=
  "Good morning." +:+ Js.nl +:+ Js.nl +:+
  "You didn't lock yesterday. That's a pattern worth noticing." +:+
  Js.nl +:+ Js.nl +:+
  "What's the plan for today? Be specific.".

Definition reminder (plan : TomorrowPlan) : string :=
  "Good morning." +:+ Js.nl +:+ Js.nl +:+
  "You already decided:" +:+ Js.nl +:+ Js.nl +:+
  "📍 Eating: " +:+ eating_window plan +:+ Js.nl +:+
  "🍽️ First meal: " +:+ first_meal plan +:+ Js.nl +:+
  "🚶 Walk: " +:+ walk_time plan +:+ Js.nl +:+
  "💪 Strength: " +:+ (if strength plan then "YES" else "NO") +:+ Js.nl +:+
  "⚠️ Watch for: " +:+ danger_moment plan +:+ Js.nl +:+ Js.nl +:+
  "You are someone who does what they say." +:+ Js.nl +:+ Js.nl +:+
  "Execute.".

Definition generateMorningMessage (tbl : list DailyLog) (user : User)
    (yesterday : string) : string :=
  match getYesterdayLog tbl (user_id user) yesterday with
  | None => not_locked_message
  | Some yesterdayLog =>
      if negb (tomorrow_locked yesterdayLog) then not_locked_message
      else match tomorrow_plan yesterdayLog with
           | None => not_locked_message
           | Some plan => reminder plan
           end
  end.

End Morning.

(** ** Further sample inputs *)

Module MoreSamples.
Import Db.

(** The user is asked to confirm the plan of tomorrow. *)
Definition in_confirm : NightlyLock.Store :=
  {| NightlyLock.nightlyLockState :=
       {[ "u1" := NightlyLock.state_at NightlyLock.step_confirm ]};
     NightlyLock.daily_logs := [Samples.bad_log];
     NightlyLock.patterns := [] |}.

(** The user is asked for the plan of tomorrow, after a miss. *)
Definition in_planning : NightlyLock.Store :=
  {| NightlyLock.nightlyLockState :=
       {[ "u1" := {| NightlyLock.step := NightlyLock.step_planning;
                     NightlyLock.todayScores := Some {[ "calories" := 2 ]};
                     NightlyLock.missedItems := Some ["protein"];
                     NightlyLock.missReason := Some "worked late";
                     NightlyLock.tomorrowPlan := None |} ]};
     NightlyLock.daily_logs := [Samples.bad_log];
     NightlyLock.patterns := [] |}.

(** Stand-ins for the two parsers of the nightly lock that are parameters:
    the plan of defaults for every message, and no time of day found. *)
Definition default_plan (_ : string) : TomorrowPlan :=
  {| eating_window := "12pm-8pm"; first_meal := "12pm"; walk_time := "morning";
     strength := false; danger_moment := "evening" |}.

Definition no_time (_ : string) : option string := None.

End MoreSamples.

(** ** flows/scorecard.ts: reading a score from free text *)

Module ScoreParsing.
Import Db Scorecard.

Definition negativePatterns : list string :=
  ["missed"; "skip"; "didn't"; "failed"; "no"].

(** The test of the loop over the actions: the message contains the name,
    the name with its first underscore as a space, or a word of the name
    longer than 3 characters. *)
Definition refersTo (lower : string) (a : BinaryAction) : bool :=
  let actionLower := Js.toLowerCase (action_name a) in
  let actionWords := Js.split "_" actionLower in
  Js.includes lower actionLower
  || Js.includes lower (Js.replaceFirstChar "_" " " actionLower)
  || existsb (λ w, (3 <? Js.length w)%nat && Js.includes lower w) actionWords.

(** [\s*(?:u1|u2|...)] at the head of a string. *)
Definition unitAt (units : list string) (s : string) : bool :=
  existsb (λ u, Js.startsWith u (Js.trimStart s)) units.

(** [(\d{min,max})\s*(?:units)] at the head of a string: the digit counts
    are tried from the largest. *)
Fixpoint numberAt (counts : list nat) (units : list string) (s : string)
    : option string :=
  match counts with
  | [] => None
  | k :: counts' =>
      match JsNum.digitsAt k s with
      | Some d => if unitAt units (JsNum.drop k s) then Some d
                  else numberAt counts' units s
      | None => numberAt counts' units s
      end
  end.

(** [s.match(/(\d{min,max})\s*(?:units)/)?.[1]]: the leftmost match. *)
Fixpoint findNumber (counts : list nat) (units : list string) (s : string)
    : option string :=
  match numberAt counts units s with
  | Some d => Some d
  | None => match s with
            | EmptyString => None
            | String _ r => findNumber counts units r
            end
  end.

Definition parseScoreUpdate (message : string) (contract : Contract)
    : option ScoreUpdate :=
  let lower := Js.toLowerCase message in
  let completed := negb (existsb (λ p, Js.includes lower p) negativePatterns) in
  match List.find (refersTo lower) (binary_actions contract) with
  | Some a =>
      Some {| action := action_name a; completed := completed; value := None |}
  | None =>
      match findNumber [4; 3]%nat ["cal"; "kcal"; "calories"] lower with
      | Some d =>
          Some {| action := "calories"; completed := true;
                  value := Some (JsNum.digitsValue 0 d) |}
      | None =>
          match findNumber [3; 2]%nat ["g"; "gram"; "protein"] lower with
          | Some d =>
              Some {| action := "protein"; completed := true;
                      value := Some (JsNum.digitsValue 0 d) |}
          | None =>
              match findNumber [5; 4]%nat ["steps"; "k"] lower with
              | Some d =>
                  Some {| action := "walk";
                          completed := 10000 <=? JsNum.digitsValue 0 d;
                          value := Some (JsNum.digitsValue 0 d) |}
              | None => None
              end
          end
      end
  end.

End ScoreParsing.

(** ** flows/onboarding.ts: times of day *)

Module Times.

(** [`${h}`] for the result of [parseInt]. *)
Definition hourText (h : option Z) : string :=
  match h with
  | Some n => Js.ofNumber n
  | None => "NaN"
  end.

Definition normalizeTime (timeStr : string) : string :=
  let cleaned := JsNum.removeSpaces (Js.toLowerCase (Js.trim timeStr)) in
  let isPM := Js.includes cleaned "pm" in
  let isAM := Js.includes cleaned "am" in
  let cleaned := JsNum.removeAmPm cleaned in
  (* let [hours, minutes = '00'] = cleaned.split(':') *)
  let parts := Js.split ":" cleaned in
  let hours := default EmptyString (head parts) in
  let minutes := default "00" (parts !! 1%nat) in
  let h := JsNum.parseInt hours in
  let h := match h with
           | Some n => if isPM && (n <? 12) then Some (n + 12) else h
           | None => h
           end in
  let h := if isAM && bool_decide (h = Some 12) then Some 0 else h in
  JsNum.padStart2 (hourText h) +:+ ":" +:+ JsNum.padStart2 minutes.

(** A time of day as a user writes it: hour, colon, two-digit minute and a
    suffix. *)
Definition written (h m : Z) (suffix : string) : string :=
  Js.ofNumber h +:+ ":" +:+ JsNum.padStart2 (Js.ofNumber m) +:+ suffix.

(** The 24-hour text HH:MM. *)
Definition clockText (h m : Z) : string :=
  JsNum.padStart2 (Js.ofNumber h) +:+ ":" +:+ JsNum.padStart2 (Js.ofNumber m).

(** The four readings of one time of day, compared with the 24-hour text. *)
Definition twelve_hour_ok (h m : Z) : bool :=
  String.eqb (normalizeTime (written h m "pm"))
             (clockText (if h =? 12 then 12 else h + 12) m)
  && String.eqb (normalizeTime (written h m " PM"))
                (clockText (if h =? 12 then 12 else h + 12) m)
  && String.eqb (normalizeTime (written h m "am"))
                (clockText (if h =? 12 then 0 else h) m)
  && String.eqb (normalizeTime (written h m "")) (clockText h m).

End Times.

(** ** flows/onboarding.ts: the shame level and the confirmation *)

Module OnboardingEnd.
Import Db Onboarding.

(** [INSERT INTO contracts (user_id, goal, binary_actions, rules_text,
    expires_at) VALUES (...) RETURNING *]: the primary key and the reference
    to table users are checked; active takes its default. The two
    timestamps are not among the fields of [Contract]. *)
Definition createContract (clk : Clock) (usersTbl : list User)
    (tbl : list Contract) (userId goal : string)
    (binaryActions : list BinaryAction) (rulesText : string)
    : option (list Contract * Contract) :=
  let row := {| contract_id := fresh_id clk; contract_user := userId;
                goal := goal; binary_actions := binaryActions;
                rules_text := Some rulesText; active := true |} in
  if decide (userId ∈ (user_id <$> usersTbl)
             ∧ fresh_id clk ∉ (contract_id <$> tbl))
  then Some (tbl ++ [row], row)
  else None.

(** ONBOARDING_PROMPTS.contract_review *)
Definition contract_review (contract : string) : string :=
  "Here's your behavioral contract:" +:+ Js.nl +:+ Js.nl +:+
  contract +:+ Js.nl +:+ Js.nl +:+
  "This is LOCKED for one week. No renegotiation." +:+ Js.nl +:+ Js.nl +:+
  "Reply " +:+ Js.dquote +:+ "LOCKED" +:+ Js.dquote +:+
  " to confirm, or suggest changes now.".

(** ONBOARDING_PROMPTS.complete *)
Definition complete : string :=
  "Contract locked." +:+ Js.nl +:+ Js.nl +:+
  "Tomorrow we begin." +:+ Js.nl +:+ Js.nl +:+
  "Every night, I'll ask you to LOCK tomorrow's plan. This is the most important moment." +:+
  Js.nl +:+ Js.nl +:+
  "Every morning, I'll remind you what you already committed to." +:+
  Js.nl +:+ Js.nl +:+
  "If you slip, I'll notice. If you pattern, I'll call it out." +:+
  Js.nl +:+ Js.nl +:+
  "Bad days are allowed. Quitting is not." +:+ Js.nl +:+ Js.nl +:+
  "Let's go.".

Definition revise : string :=
  "What would you like to change? Reply with the changes, then I'll regenerate the contract.".

(** The object [{ onboarding_step: 'awaiting_contract_confirm', shame_level }]. *)
Definition shame_update (level : Z) : UserUpdate :=
  {| set_name := None; set_wake_time := None; set_sleep_time := None;
     set_eating_window_start := None; set_eating_window_end := None;
     set_risk_times := None; set_shame_level := Some level;
     set_onboarding_complete := None;
     set_onboarding_step := Some "awaiting_contract_confirm" |}.

(** The object [{ onboarding_complete: true, onboarding_step: 'complete' }]. *)
Definition complete_update : UserUpdate :=
  {| set_name := None; set_wake_time := None; set_sleep_time := None;
     set_eating_window_start := None; set_eating_window_end := None;
     set_risk_times := None; set_shame_level := None;
     set_onboarding_complete := Some true;
     set_onboarding_step := Some "complete" |}.

(** [onboardingData.get(user.id) || {}] *)
Definition data_of (w : Store) (userId : string) : OnboardingData :=
  default {| data_goal := None; binaryActions := None |}
    (onboardingData w !! userId).

(** [onboardingData.delete(userId)] *)
Definition delete_data (userId : string) (w : Store) : Store :=
  {| users := users w; onboardingData := delete userId (onboardingData w) |}.

(** [[1, 2, 3].includes(level) ? level : 1], NaN being no element. *)
Definition chosenLevel (level : option Z) : Z :=
  match level with
  | Some n => if bool_decide (n ∈ [1; 2; 3]) then n else 1
  | None => 1
  end.

Section Flow.
(** The two handlers take [generateContractText], which can throw
    ([None]), as a parameter; it is embedded below. *)
Variable generateContractText : User → OnboardingData → Z → option string.

Definition handleShameLevelInput (w : Store) (user : User) (message : string)
    : Store * option string :=
  let level := JsNum.parseInt (Js.trim message) in
  let shameLevel := chosenLevel level in
  match updateUser (users w) (user_id user) (shame_update shameLevel) with
  | None => (w, None)
  | Some (tbl, _) =>
      let w := set_users tbl w in
      let data := data_of w (user_id user) in
      match generateContractText user data shameLevel with
      | None => (w, None)
      | Some contractText => (w, Some (contract_review contractText))
      end
  end.

(** The contracts table is written beside the store of the flow. *)
Definition handleContractConfirm (clk : Clock) (w : Store)
    (contracts : list Contract) (user : User) (message : string)
    : (Store * list Contract) * option string :=
  let confirmation := Js.toUpperCase (Js.trim message) in
  if bool_decide (confirmation = "LOCKED") then
    let data := data_of w (user_id user) in
    match generateContractText user data (shame_level user) with
    | None => ((w, contracts), None)
    | Some contractText =>
        match createContract clk (users w) contracts (user_id user)
                (BadDayFlow.orDefault (data_goal data) "fitness")
                (default DEFAULT_BINARY_ACTIONS (binaryActions data))
                contractText with
        | None => ((w, contracts), None)
        | Some (contracts', _) =>
            match updateUser (users w) (user_id user) complete_update with
            | None => ((w, contracts'), None)
            | Some (tbl, _) =>
                ((delete_data (user_id user) (set_users tbl w), contracts'),
                 Some complete)
            end
        end
    end
  else ((w, contracts), Some revise).

End Flow.

(** [`- ${a.name}: ${a.threshold} (${a.points} pts)`] *)
Definition actionLine (a : BinaryAction) : string :=
  "- " +:+ action_name a +:+ ": " +:+ default "undefined" (threshold a) +:+
  " (" +:+ Js.ofNumber (points a) +:+ " pts)".

Section ContractText.
(** [JSON.parse(text).join(', ')] on a text that is not empty is not
    embedded; it is a parameter, [None] when it throws. *)
Variable joinParsed : string → option string.

(** [JSON.parse(user.risk_times?.toString() || '["9pm"]').join(', ')]: an
    array as text is its elements joined by commas, and without danger
    times the list of the one text 9pm is parsed. *)
Definition dangerTimes (user : User) : option string :=
  let text := Js.join "," (risk_times user) in
  if Js.isEmpty text then Some "9pm" else joinParsed text.

Definition generateContractText (user : User) (data : OnboardingData)
    (shameLevel : Z) : option string :=
  let actions := default DEFAULT_BINARY_ACTIONS (binaryActions data) in
  let actionList := Js.join Js.nl (actionLine <$> actions) in
  match dangerTimes user with
  | None => None
  | Some danger =>
      Some ("BEHAVIORAL CONTRACT" +:+ Js.nl +:+ Js.nl +:+
            "GOAL: " +:+
            BadDayFlow.orDefault (data_goal data) "Fitness & Fat Loss" +:+
            Js.nl +:+ Js.nl +:+
            "DAILY BINARY ACTIONS (Total: 10 points possible):" +:+ Js.nl +:+
            actionList +:+ Js.nl +:+ Js.nl +:+
            "SCHEDULE:" +:+ Js.nl +:+
            "- Wake: " +:+ BadDayFlow.orDefault (wake_time user) "7:00am" +:+
            Js.nl +:+
            "- Sleep: " +:+ BadDayFlow.orDefault (sleep_time user) "10:00pm" +:+
            Js.nl +:+
            "- Eating Window: " +:+
            BadDayFlow.orDefault (eating_window_start user) "12pm" +:+ " - " +:+
            BadDayFlow.orDefault (eating_window_end user) "8pm" +:+ Js.nl +:+
            "- Danger Times: " +:+ danger +:+ Js.nl +:+ Js.nl +:+
            "ACCOUNTABILITY:" +:+ Js.nl +:+
            "- Shame Level: " +:+ Js.ofNumber shameLevel +:+ "/3" +:+ Js.nl +:+
            "- Loss Aversion: " +:+
            (if loss_aversion_enabled user then "ENABLED (7 tokens/week)"
             else "Disabled") +:+ Js.nl +:+ Js.nl +:+
            "RULES:" +:+ Js.nl +:+
            "1. Nightly lock is MANDATORY" +:+ Js.nl +:+
            "2. No renegotiation mid-week" +:+ Js.nl +:+
            "3. Bad days allowed via downshift protocol" +:+ Js.nl +:+
            "4. Quitting is not allowed" +:+ Js.nl +:+ Js.nl +:+
            "Duration: 7 days from confirmation")
  end.

End ContractText.

(** No entry of the map holds an empty list of actions. *)
Definition data_ok (w : Store) : Prop :=
  ∀ userId d, onboardingData w !! userId = Some d → binaryActions d ≠ Some [].

End OnboardingEnd.

(** ** services/scheduler.ts: reading a stored time of day *)

Module Schedule.

Definition parseTime (timeStr : string) : option Z * option Z :=
  let cleaned := Js.toLowerCase (JsNum.removeSpaces timeStr) in
  (* const [hoursStr, minutesStr = '0'] = ....split(':') *)
  let parts := Js.split ":" (JsNum.removeAmPm cleaned) in
  let hoursStr := default EmptyString (head parts) in
  let minutesStr := default "0" (parts !! 1%nat) in
  let hours := JsNum.parseInt hoursStr in
  let minutes := JsNum.parseInt minutesStr in
  let hours := match hours with
               | Some n => if Js.includes cleaned "pm" && (n <? 12)
                           then Some (n + 12) else hours
               | None => hours
               end in
  let hours := if Js.includes cleaned "am" && bool_decide (hours = Some 12)
               then Some 0 else hours in
  (hours, minutes).

(** [(hours - 2 + 24) % 24], the hour of the nightly reminder. *)
Definition nightlyHour (hours : Z) : Z := Z.rem (hours - 2 + 24) 24.

(** The hour a written time of day denotes on the 24-hour clock. *)
Definition hour24 (h : Z) (suffix : string) : Z :=
  if String.eqb suffix "pm" then (if h =? 12 then 12 else h + 12)
  else if String.eqb suffix "am" then (if h =? 12 then 0 else h)
  else h.

(** A written time, normalised by onboarding and read by the scheduler,
    as the text itself and as a TIME column returns it, with seconds. *)
Definition round_trip_ok (suffix : string) (h m : Z) : bool :=
  let stored := Times.normalizeTime (Times.written h m suffix) in
  bool_decide (parseTime stored = (Some (hour24 h suffix), Some m))
  && bool_decide (parseTime (stored +:+ ":00") = (Some (hour24 h suffix), Some m)).

End Schedule.

Module OnboardingSamples.
Import Db Onboarding.

(** A user who was shown the contract. *)
Definition newcomer : User :=
  {| user_id := "u1"; phone := "+15550100"; user_name := Some "Dana";
     timezone := "America/Los_Angeles"; wake_time := None; sleep_time := None;
     eating_window_start := None; eating_window_end := None;
     risk_times := [];
     shame_level := 2; loss_aversion_enabled := true;
     onboarding_complete := false;
     onboarding_step := "awaiting_contract_confirm";
     user_created_at := "2025-03-01 09:00:00" |}.

Definition confirming : Store :=
  {| users := [newcomer];
     onboardingData :=
       {[ "u1" := {| data_goal := Some "lose 5 kg";
                     binaryActions :=
                       Some [ {| action_name := "walk";
                                 threshold := Some "completed";
                                 points := 10 |} ] |} ]} |}.

(** A stand-in for the parameter of [generateContractText]: a parser that
    throws on every text. *)
Definition throws (_ : string) : option string := None.

End OnboardingSamples.

(** * Properties *)

(** ** Objects and plain texts *)

Section JsObjects.

Lemma setProp_insert (k : string) (v : Z) (o : gmap string Z) :
  k ≠ "__proto__" → Js.setProp k v o = <[k := v]> o.
Proof.
  intros Hk. unfold Js.setProp.
  destruct (decide _) as [[? _]|_]; [done | reflexivity].
Qed.

Lemma setProp_proto (v : Z) (o : gmap string Z) :
  o !! "__proto__" = None → Js.setProp "__proto__" v o = o.
Proof.
  intros Ho. unfold Js.setProp.
  destruct (decide _) as [_|Hno]; [reflexivity|]. by destruct Hno.
Qed.

Lemma setProp_again (k : string) (v : Z) (o : gmap string Z) :
  Js.setProp k v (Js.setProp k v o) = Js.setProp k v o.
Proof.
  unfold Js.setProp at 2 3. destruct (decide _) as [[-> Ho]|Hno].
  - by apply setProp_proto.
  - unfold Js.setProp. destruct (decide _) as [[_ Hnone]|_].
    + by rewrite lookup_insert_eq in Hnone.
    + apply insert_insert_eq.
Qed.

Lemma lookup_setProp_ne (k k' : string) (v : Z) (o : gmap string Z) :
  k' ≠ k → Js.setProp k v o !! k' = o !! k'.
Proof.
  intros Hne. unfold Js.setProp.
  destruct (decide _); [reflexivity|]. by apply lookup_insert_ne.
Qed.

Lemma lookup_setProp_eq (k : string) (v : Z) (o : gmap string Z) :
  k ≠ "__proto__" → Js.setProp k v o !! k = Some v.
Proof. intros Hk. rewrite setProp_insert by done. apply lookup_insert_eq. Qed.

(** An object that starts as [{}] never gets an own property __proto__
    from an assignment of a number. *)
Lemma lookup_setProp_proto (k : string) (v : Z) (o : gmap string Z) :
  o !! "__proto__" = None → Js.setProp k v o !! "__proto__" = None.
Proof.
  intros Ho. destruct (decide (k = "__proto__")) as [->|Hne].
  - by rewrite setProp_proto.
  - by rewrite lookup_setProp_ne.
Qed.

End JsObjects.

(** ** Tables with a key *)

Section Keys.
Context {Row Key : Type} (key : Row → Key).

(** Two rows of a table with the same value in a unique column are the
    same row. *)
Lemma key_inj (tbl : list Row) (r r' : Row) :
  NoDup (key <$> tbl) → r ∈ tbl → r' ∈ tbl → key r = key r' → r = r'.
Proof.
  induction tbl as [|x tbl IH]; intros Hnd Hr Hr' Heq.
  - by apply elem_of_nil in Hr.
  - rewrite fmap_cons in Hnd. apply NoDup_cons in Hnd as [Hx Hnd].
    apply elem_of_cons in Hr as [->|Hr]; apply elem_of_cons in Hr' as [->|Hr'].
    + done.
    + exfalso. apply Hx. rewrite Heq. by apply list_elem_of_fmap_2.
    + exfalso. apply Hx. rewrite <- Heq. by apply list_elem_of_fmap_2.
    + by apply IH.
Qed.

Lemma fmap_fixed (f : Row → Row) (tbl : list Row) :
  (∀ r, r ∈ tbl → f r = r) → f <$> tbl = tbl.
Proof.
  induction tbl as [|x tbl IH]; intros Hf; [done|].
  rewrite fmap_cons, Hf by (apply elem_of_cons; by left).
  rewrite IH; [done|]. intros r Hr. apply Hf, elem_of_cons. by right.
Qed.

End Keys.

(** ** Token ledger *)

Section TokenLedger.
Import Db.

Lemma tokens_ok_nil : tokens_ok [].
Proof. split; [constructor | constructor]. Qed.

Lemma token_id_inj (tbl : list TokenRecord) (r r' : TokenRecord) :
  NoDup (token_id <$> tbl) → r ∈ tbl → r' ∈ tbl →
  token_id r = token_id r' → r = r'.
Proof. apply key_inj. Qed.

Lemma getCurrentWeekTokens_Some clk (tbl : list TokenRecord) userId tokens :
  getCurrentWeekTokens clk tbl userId = Some tokens →
  tokens ∈ tbl ∧ token_key tokens = (userId, week_start_now clk).
Proof.
  unfold getCurrentWeekTokens. intros H.
  apply head_Some_elem_of in H. by apply list_elem_of_filter in H as [? ?].
Qed.

Lemma getCurrentWeekTokens_None clk (tbl : list TokenRecord) userId :
  getCurrentWeekTokens clk tbl userId = None →
  (userId, week_start_now clk) ∉ (token_key <$> tbl).
Proof.
  unfold getCurrentWeekTokens. intros H Hin.
  apply list_elem_of_fmap in Hin as (r & Hk & Hr).
  apply head_None in H.
  assert (r ∈ filter (λ r, token_key r = (userId, week_start_now clk)) tbl) as Hf
    by (apply list_elem_of_filter; done).
  rewrite H in Hf. by apply elem_of_nil in Hf.
Qed.

Lemma fresh_tokens_ok clk userId : token_row_ok (fresh_tokens clk userId).
Proof. split; simpl; [lia | split; intros H; discriminate H]. Qed.

(** Reading the week's row, creating it when it is missing, keeps the
    invariant and returns a row of the table. *)
Lemma getOrCreateWeekTokens_ok clk (tbl tbl1 : list TokenRecord) userId tokens :
  tokens_ok tbl →
  getOrCreateWeekTokens clk tbl userId = Some (tbl1, tokens) →
  tokens_ok tbl1 ∧ tokens ∈ tbl1.
Proof.
  intros [Hnd Hall]. unfold getOrCreateWeekTokens.
  destruct (getCurrentWeekTokens clk tbl userId) as [t|] eqn:Hget.
  - intros [= <- <-]. split; [by split|].
    by apply getCurrentWeekTokens_Some in Hget as [? _].
  - case_decide as Hallow; [|discriminate].
    intros [= <- <-]. destruct Hallow as [Hid _]. split; [split|].
    + rewrite fmap_app. apply NoDup_app. split; [done|]. split.
      * intros x Hx Hx'. simpl in Hx'. apply list_elem_of_singleton in Hx'.
        subst x. by apply Hid.
      * apply NoDup_singleton.
    + apply Forall_app. split; [done|].
      apply Forall_singleton, fresh_tokens_ok.
    + apply elem_of_app. right. by apply list_elem_of_singleton.
Qed.

(** The UPDATE of [deductToken] on a table whose primary key holds. *)
Lemma update_tokens_row (tbl : list TokenRecord) tokens
    (upd : TokenRecord → TokenRecord) :
  NoDup (token_id <$> tbl) → tokens ∈ tbl →
  ∃ rest, upd <$> filter (λ r, token_id r = token_id tokens) tbl
          = upd tokens :: rest.
Proof.
  intros Hnd Hin.
  destruct (filter (λ r, token_id r = token_id tokens) tbl) as [|r rest] eqn:Hf.
  - assert (tokens ∈ filter (λ r, token_id r = token_id tokens) tbl) as H
      by (apply list_elem_of_filter; done).
    rewrite Hf in H. by apply elem_of_nil in H.
  - assert (r ∈ filter (λ r, token_id r = token_id tokens) tbl) as H
      by (rewrite Hf; apply elem_of_cons; by left).
    apply list_elem_of_filter in H as [Hid Hr].
    assert (r = tokens) as -> by (by apply (token_id_inj tbl)).
    by exists (upd <$> rest).
Qed.

(** The UPDATE keeps the invariant of the table when the row it writes
    satisfies the invariant of a row. *)
Lemma updated_tokens_ok (tbl : list TokenRecord) tokens newAmount lossEvents punished :
  tokens_ok tbl → tokens ∈ tbl →
  token_row_ok (set_tokens newAmount lossEvents punished tokens) →
  tokens_ok ((λ r, if decide (token_id r = token_id tokens)
                   then set_tokens newAmount lossEvents punished r else r)
               <$> tbl).
Proof.
  intros [Hnd Hall] Hin Hrow. split.
  - rewrite <- list_fmap_compose.
    erewrite list_fmap_ext; [exact Hnd|].
    intros i r _. simpl. by case_decide.
  - apply Forall_fmap, Forall_forall. intros r Hrin. simpl.
    pose proof (proj1 (Forall_forall _ _) Hall _ Hrin) as Hr.
    case_decide as Hid; [|done].
    by rewrite (token_id_inj tbl r tokens Hnd Hrin Hin Hid).
Qed.

(** C1. In a ledger that satisfies its invariant (every ledger the program
    builds does, see [ledger_ok] below), [deductToken] with a
    positive amount succeeds (a generated id being new), clamps the week's
    balance to [max 0 (current - amount)], appends exactly one LossEvent to
    the list it read, and returns a row with
    [0 <= current_tokens <= starting_tokens] and
    [punishment_triggered] true exactly when [current_tokens = 0]; the
    invariant holds again in the new table. *)
Theorem deductToken_invariant clk (tbl : list TokenRecord) userId reason amount :
  tokens_ok tbl → 0 < amount →
  (getCurrentWeekTokens clk tbl userId = None →
   fresh_id clk ∉ (token_id <$> tbl)) →
  ∃ tbl1 tokens tbl' result,
    getOrCreateWeekTokens clk tbl userId = Some (tbl1, tokens) ∧
    deductToken clk tbl userId reason amount = Some (tbl', result) ∧
    current_tokens result = Z.max 0 (current_tokens tokens - amount) ∧
    loss_events result =
      loss_events tokens ++
      [{| loss_date := js_today clk; loss_reason := reason;
          loss_amount := amount |}] ∧
    0 <= current_tokens result <= starting_tokens result ∧
    (punishment_triggered result = true ↔ current_tokens result = 0) ∧
    result ∈ tbl' ∧ tokens_ok tbl'.
Proof.
  intros Hok Hpos Hfresh.
  assert (∃ tbl1 tokens,
    getOrCreateWeekTokens clk tbl userId = Some (tbl1, tokens)) as (tbl1 & tokens & Hget).
  { unfold getOrCreateWeekTokens.
    destruct (getCurrentWeekTokens clk tbl userId) as [t|] eqn:Hcur; [by eauto|].
    rewrite decide_True; [by eauto|]. split; simpl.
    - by apply Hfresh.
    - by apply getCurrentWeekTokens_None. }
  destruct (getOrCreateWeekTokens_ok _ _ _ _ _ Hok Hget) as [[Hnd Hall] Hin].
  pose proof (proj1 (Forall_forall _ _) Hall _ Hin) as [Hbnd _].
  set (newAmount := Z.max 0 (current_tokens tokens - amount)).
  set (ev := {| loss_date := js_today clk; loss_reason := reason;
                loss_amount := amount |}).
  set (upd := set_tokens newAmount (loss_events tokens ++ [ev])
                (bool_decide (newAmount = 0))).
  destruct (update_tokens_row tbl1 tokens upd Hnd Hin) as [rest Hupd].
  exists tbl1, tokens,
    ((λ r, if decide (token_id r = token_id tokens) then upd r else r) <$> tbl1),
    (upd tokens).
  assert (token_row_ok (upd tokens)) as Hrow.
  { split; simpl; [subst newAmount; lia|]. apply bool_decide_eq_true. }
  split; [done|]. split.
  { unfold deductToken. rewrite Hget. fold newAmount ev upd. by rewrite Hupd. }
  split; [done|]. split; [done|].
  split; [apply Hrow|]. split; [apply Hrow|]. split.
  - apply list_elem_of_fmap. exists tokens. by rewrite decide_True.
  - by apply updated_tokens_ok.
Qed.

(** Every ledger the program can build satisfies the invariant. *)
Lemma ledger_ok (tbl : list TokenRecord) : ledger tbl → tokens_ok tbl.
Proof.
  induction 1 as [|clk tbl userId tbl' tokens _ IH Hget
                  |clk tbl userId reason amount tbl' result _ IH Hpos Hded].
  - apply tokens_ok_nil.
  - by apply (getOrCreateWeekTokens_ok clk tbl tbl' userId tokens).
  - unfold deductToken in Hded.
    destruct (getOrCreateWeekTokens clk tbl userId) as [[tbl1 tokens]|] eqn:Hget;
      [|discriminate].
    destruct (getOrCreateWeekTokens_ok _ _ _ _ _ IH Hget) as [Hok1 Hin].
    destruct (_ <$> filter _ tbl1); [discriminate|].
    injection Hded as <- _.
    apply updated_tokens_ok; [done..|].
    pose proof (proj1 (Forall_forall _ _) (proj2 Hok1) _ Hin) as [Hbnd _].
    split; simpl; [lia | apply bool_decide_eq_true].
Qed.

Lemma deductToken_invariant_witness :
  ∃ tbl1 tokens tbl' result,
    getOrCreateWeekTokens Samples.clock Samples.last_token "u1"
      = Some (tbl1, tokens) ∧
    deductToken Samples.clock Samples.last_token "u1" "Score 2/10" 2
      = Some (tbl', result) ∧
    current_tokens result = Z.max 0 (current_tokens tokens - 2) ∧
    loss_events result =
      loss_events tokens ++
      [{| loss_date := js_today Samples.clock; loss_reason := "Score 2/10";
          loss_amount := 2 |}] ∧
    0 <= current_tokens result <= starting_tokens result ∧
    (punishment_triggered result = true ↔ current_tokens result = 0) ∧
    result ∈ tbl' ∧ tokens_ok tbl'.
Proof.
  apply (deductToken_invariant Samples.clock Samples.last_token
           "u1" "Score 2/10" 2).
  - split.
    + apply NoDup_singleton.
    + apply Forall_singleton. split; simpl; [lia|].
      split; intros H; discriminate H.
  - lia.
  - vm_compute. intros H. discriminate H.
Defined.

(** C4. With loss aversion disabled, [processFailure] and
    [checkDailyFailures] leave table tokens as it is and reply with the
    empty string and with no message. *)
Theorem processFailure_disabled_noop clk (tbl : list TokenRecord) user
    reason severity todayLog totalPossible :
  loss_aversion_enabled user = false →
  LossAversion.processFailure clk tbl user reason severity
    = Some (tbl, EmptyString) ∧
  LossAversion.checkDailyFailures clk tbl user todayLog totalPossible
    = Some (tbl, []).
Proof.
  intros Hoff.
  unfold LossAversion.processFailure, LossAversion.checkDailyFailures.
  by rewrite Hoff.
Qed.

Lemma processFailure_disabled_noop_witness :
  loss_aversion_enabled (Samples.user 1 false "complete") = false ∧
  LossAversion.processFailure Samples.clock Samples.last_token
    (Samples.user 1 false "complete") "Missed nightly lock" LossAversion.major
    = Some (Samples.last_token, EmptyString) ∧
  LossAversion.checkDailyFailures Samples.clock Samples.last_token
    (Samples.user 1 false "complete") Samples.bad_log 10
    = Some (Samples.last_token, []).
Proof.
  split; [reflexivity|].
  apply (processFailure_disabled_noop Samples.clock Samples.last_token
           (Samples.user 1 false "complete")).
  reflexivity.
Defined.

(** With loss aversion enabled the same failure does cost tokens. *)
Example processFailure_enabled_deducts :
  ∃ tbl' reply,
    LossAversion.processFailure Samples.clock Samples.last_token
      (Samples.user 1 true "complete") "Missed nightly lock" LossAversion.major
      = Some (tbl', reply) ∧
    current_tokens <$> tbl' = [0] ∧ punishment_triggered <$> tbl' = [true] ∧
    reply = LossAversion.zero_tokens_message.
Proof. eexists _, _. split; [vm_compute; reflexivity|]. by vm_compute. Qed.

End TokenLedger.

(** ** Shame escalation *)

Section ShameEscalation.
Import Db PhotoShame.

Lemma repeatExcuse_filter (patterns : list Pattern) :
  repeatExcuse patterns ↔
  0 < Z.of_nat (length (filter (λ p, pattern_type p = "miss_reason"
                                     ∧ 2 <= frequency p) patterns)).
Proof.
  unfold repeatExcuse. split.
  - intros (p & Hin & Hp).
    assert (p ∈ filter (λ p, pattern_type p = "miss_reason"
                             ∧ 2 <= frequency p) patterns) as H
      by (apply list_elem_of_filter; done).
    destruct (filter _ patterns); [by apply elem_of_nil in H | simpl; lia].
  - intros Hlen.
    destruct (filter _ patterns) as [|p rest] eqn:Hf; [simpl in Hlen; lia|].
    assert (p ∈ filter (λ p, pattern_type p = "miss_reason"
                             ∧ 2 <= frequency p) patterns) as H
      by (rewrite Hf; apply elem_of_cons; by left).
    apply list_elem_of_filter in H as [Hp Hin]. by exists p.
Qed.

(** C2, as the code decides it. [determineShameEscalation] returns none for
    [shame_level = 0] and otherwise the first tier whose condition holds,
    the tiers being tried in the order 1, 2, 3; none if no condition holds. *)
Theorem determineShameEscalation_first_match user (recentLogs : list DailyLog)
    (patterns : list Pattern) :
  tier_1_2_3 user recentLogs patterns
    (tier (determineShameEscalation user recentLogs patterns)).
Proof.
  unfold tier_1_2_3, determineShameEscalation.
  destruct (Z.eqb_spec (shame_level user) 0) as [H0|H0].
  { by rewrite decide_True. }
  rewrite decide_False by done.
  pose proof (repeatExcuse_filter patterns) as Hrep.
  unfold tier1_cond, tier2_cond, tier3_cond, failedDays.
  set (fd := Z.of_nat (length (filter (λ l, total_score l < 5) recentLogs))).
  set (cf := countConsecutiveFailures recentLogs).
  set (re := Z.of_nat (length (filter (λ p, pattern_type p = "miss_reason"
                                       ∧ 2 <= frequency p) patterns))) in *.
  assert ((1 <=? shame_level user) && (1 <=? fd) && (fd <=? 2) = true
          ↔ 1 <= shame_level user ∧ 1 <= fd <= 2) as H1.
  { rewrite !andb_true_iff, !Z.leb_le. tauto. }
  assert ((2 <=? shame_level user) && ((2 <=? cf) || (0 <? re)) = true
          ↔ 2 <= shame_level user ∧ (2 <= cf ∨ repeatExcuse patterns)) as H2.
  { rewrite andb_true_iff, orb_true_iff, !Z.leb_le, Z.ltb_lt. tauto. }
  assert ((3 <=? shame_level user) && (4 <=? fd) = true
          ↔ 3 <= shame_level user ∧ 4 <= fd) as H3.
  { rewrite andb_true_iff, !Z.leb_le. tauto. }
  destruct ((1 <=? shame_level user) && (1 <=? fd) && (fd <=? 2)).
  { left. split; [by apply H1 | reflexivity]. }
  assert (¬ (1 <= shame_level user ∧ 1 <= fd <= 2)) as N1
    by (intros H; by apply H1 in H).
  destruct ((2 <=? shame_level user) && ((2 <=? cf) || (0 <? re))).
  { right; left. split; [done|]. split; [by apply H2 | reflexivity]. }
  assert (¬ (2 <= shame_level user ∧ (2 <= cf ∨ repeatExcuse patterns))) as N2
    by (intros H; by apply H2 in H).
  destruct ((3 <=? shame_level user) && (4 <=? fd)).
  { right; right; left. do 2 (split; [done|]).
    split; [by apply H3 | reflexivity]. }
  assert (¬ (3 <= shame_level user ∧ 4 <= fd)) as N3
    by (intros H; by apply H3 in H).
  right; right; right. done.
Qed.

(** C2, as the specification words it, fails: at intensity 3 with two
    failed days in a row and no patterns, tier 3 does not apply and tier 2
    does, yet the code answers tier 1, whose test comes first. *)
Lemma shame_priority_counterexample :
  tier (determineShameEscalation (Samples.user 3 true "complete")
          Samples.two_slips []) = 1 ∧
  spec_tier_3_2_1 (Samples.user 3 true "complete") Samples.two_slips [] 2 ∧
  ¬ spec_tier_3_2_1 (Samples.user 3 true "complete") Samples.two_slips []
      (tier (determineShameEscalation (Samples.user 3 true "complete")
               Samples.two_slips [])).
Proof.
  assert (failedDays Samples.two_slips = 2) as Hfd by reflexivity.
  assert (countConsecutiveFailures Samples.two_slips = 2) as Hcf by reflexivity.
  assert (tier (determineShameEscalation (Samples.user 3 true "complete")
                  Samples.two_slips []) = 1) as Ht by reflexivity.
  rewrite Ht. unfold spec_tier_3_2_1, tier3_cond, tier2_cond, tier1_cond.
  rewrite Hfd, Hcf. simpl shame_level.
  rewrite decide_False by lia.
  split; [reflexivity|]. split.
  - right; left. split; [lia|]. split; [|reflexivity]. split; [lia|]. left; lia.
  - intros [[_ H]|[[_ [_ H]]|[[_ [N2 _]]|[_ [_ [_ H]]]]]]; lia.
Qed.

(** The other overlap: with five failed days in a row the code answers
    tier 2 although the condition of tier 3 holds. *)
Example shame_tier2_before_tier3 :
  tier (determineShameEscalation (Samples.user 3 true "complete")
          Samples.five_slips []) = 2 ∧
  tier3_cond (Samples.user 3 true "complete") Samples.five_slips.
Proof.
  split; [reflexivity|]. unfold tier3_cond.
  assert (failedDays Samples.five_slips = 5) as -> by reflexivity.
  simpl. lia.
Qed.

End ShameEscalation.

(** ** Daily logs *)

Section DailyLogs.
Import Db.

Lemma select_log_Some (tbl : list DailyLog) userId date old :
  select_log tbl userId date = Some old →
  old ∈ tbl ∧ log_key old = (userId, date) ∧
  ∃ rest, filter (λ r, log_key r = (userId, date)) tbl = old :: rest.
Proof.
  unfold select_log. intros H.
  destruct (filter (λ r, log_key r = (userId, date)) tbl) as [|r rest] eqn:Hf;
    [discriminate|].
  injection H as ->.
  assert (old ∈ filter (λ r, log_key r = (userId, date)) tbl) as Hin
    by (rewrite Hf; apply elem_of_cons; by left).
  apply list_elem_of_filter in Hin as [Hk Hin]. eauto.
Qed.

Lemma select_log_None (tbl : list DailyLog) userId date :
  select_log tbl userId date = None → (userId, date) ∉ (log_key <$> tbl).
Proof.
  unfold select_log. intros H Hin.
  apply list_elem_of_fmap in Hin as (r & Hk & Hr).
  apply head_None in H.
  assert (r ∈ filter (λ r, log_key r = (userId, date)) tbl) as Hf
    by (apply list_elem_of_filter; done).
  rewrite H in Hf. by apply elem_of_nil in Hf.
Qed.

Lemma apply_log_update_kept updates old :
  fields_kept updates old (apply_log_update updates old).
Proof.
  unfold fields_kept, apply_log_update. simpl.
  repeat split; intros ->; reflexivity.
Qed.

(** An update that names no key column leaves the keys of the table. *)
Lemma update_keeps_keys (tbl : list DailyLog) updates (P : DailyLog → Prop)
    `{∀ r, Decision (P r)} :
  set_log_id updates = None → set_log_user updates = None →
  set_log_date updates = None →
  logs_ok tbl →
  logs_ok ((λ r, if decide (P r) then apply_log_update updates r else r) <$> tbl).
Proof.
  intros Hid Hu Hd [Hids Hkeys]. unfold logs_ok.
  rewrite <- !list_fmap_compose. split.
  - erewrite list_fmap_ext; [exact Hids|].
    intros i r _. simpl. case_decide; [|done].
    unfold apply_log_update. simpl. by rewrite Hid.
  - erewrite list_fmap_ext; [exact Hkeys|].
    intros i r _. simpl. case_decide; [|done].
    unfold log_key, apply_log_update. simpl. by rewrite Hu, Hd.
Qed.

Lemma upsertDailyLog_existing clk (tbl : list DailyLog) userId date updates old :
  logs_ok tbl → keeps_key updates → log_update_empty updates = false →
  select_log tbl userId date = Some old →
  upsertDailyLog clk tbl userId date updates =
    Some ((λ r, if decide (log_key r = (userId, date))
                then apply_log_update updates r else r) <$> tbl,
          apply_log_update updates old).
Proof.
  intros Hok (Hid & Hu & Hd) Hne Hsel. unfold upsertDailyLog.
  rewrite Hsel, Hne.
  rewrite decide_True by (by apply update_keeps_keys).
  apply select_log_Some in Hsel as (_ & _ & rest & ->). reflexivity.
Qed.

Lemma upsertDailyLog_new clk (tbl : list DailyLog) userId date updates :
  logs_ok tbl → keeps_key updates →
  fresh_id clk ∉ (log_id <$> tbl) →
  select_log tbl userId date = None →
  upsertDailyLog clk tbl userId date updates =
    Some (tbl ++ [apply_log_update updates (default_log clk userId date)],
          apply_log_update updates (default_log clk userId date)).
Proof.
  intros [Hids Hkeys] (Hid & Hu & Hd) Hfresh Hsel. unfold upsertDailyLog.
  rewrite Hsel. rewrite decide_True by done.
  rewrite decide_True; [done|].
  unfold logs_ok. rewrite !fmap_app. simpl. split.
  - apply NoDup_app. split; [done|]. split; [|apply NoDup_singleton].
    intros x Hx Hx'. apply list_elem_of_singleton in Hx'. subst x.
    unfold apply_log_update in Hx. simpl in Hx. rewrite Hid in Hx. by apply Hfresh.
  - apply NoDup_app. split; [done|]. split; [|apply NoDup_singleton].
    intros x Hx Hx'. apply list_elem_of_singleton in Hx'. subst x.
    unfold log_key, apply_log_update in Hx. simpl in Hx. rewrite Hu, Hd in Hx.
    by apply (select_log_None tbl userId date).
Qed.

Lemma upsertDailyLog_succeeds clk (tbl : list DailyLog) userId date updates :
  logs_ok tbl → keeps_key updates →
  (select_log tbl userId date = None → fresh_id clk ∉ (log_id <$> tbl)) →
  (is_Some (select_log tbl userId date) → log_update_empty updates = false) →
  is_Some (upsertDailyLog clk tbl userId date updates).
Proof.
  intros Hok Hkeep Hfresh Hne.
  destruct (select_log tbl userId date) as [old|] eqn:Hsel.
  - erewrite upsertDailyLog_existing; eauto.
  - erewrite upsertDailyLog_new; eauto.
Qed.

(** C9. Whenever [upsertDailyLog] returns, the row it returns is in the
    new table, every column that the update does not name has in it the
    value of the (user, date) row that existed before, the rows of other
    (user, date) keys are as before, and the new table has at most one row
    per (user, date). It does return for an update that names no key
    column, given a new id for an insert and at least one column for an
    update of an existing row. *)
Theorem upsertDailyLog_frame clk (tbl : list DailyLog) userId date updates :
  logs_ok tbl →
  (∀ tbl' row,
     upsertDailyLog clk tbl userId date updates = Some (tbl', row) →
     row ∈ tbl' ∧
     (∀ old, select_log tbl userId date = Some old →
             fields_kept updates old row ∧ length tbl' = length tbl) ∧
     (∀ r, r ∈ tbl → log_key r ≠ (userId, date) → r ∈ tbl') ∧
     NoDup (log_key <$> tbl')) ∧
  (keeps_key updates →
   (select_log tbl userId date = None → fresh_id clk ∉ (log_id <$> tbl)) →
   (is_Some (select_log tbl userId date) → log_update_empty updates = false) →
   is_Some (upsertDailyLog clk tbl userId date updates)).
Proof.
  intros Hok. split.
  - intros tbl' row. unfold upsertDailyLog.
    destruct (select_log tbl userId date) as [old|] eqn:Hsel.
    + destruct (log_update_empty updates); [discriminate|].
      case_decide as Hok'; [|discriminate].
      apply select_log_Some in Hsel as (Hin & Hkey & rest & ->). simpl.
      intros [= <- <-]. split; [|split; [|split]].
      * apply list_elem_of_fmap. exists old. by rewrite decide_True.
      * intros ? [= <-]. split; [apply apply_log_update_kept|].
        by rewrite length_fmap.
      * intros r Hr Hne. apply list_elem_of_fmap. exists r.
        by rewrite decide_False.
      * apply Hok'.
    + case_decide; [|discriminate]. case_decide as Hok'; [|discriminate].
      intros [= <- <-]. split; [|split; [|split]].
      * apply elem_of_app. right. by apply list_elem_of_singleton.
      * intros ? [=].
      * intros r Hr _. apply elem_of_app. by left.
      * apply Hok'.
  - by apply upsertDailyLog_succeeds.
Qed.

Lemma upsertDailyLog_frame_witness :
  logs_ok [Samples.bad_log] ∧
  (∀ tbl' row,
     upsertDailyLog Samples.clock [Samples.bad_log] "u1" "2025-03-05"
       Samples.downshift_note = Some (tbl', row) →
     row ∈ tbl' ∧
     (∀ old, select_log [Samples.bad_log] "u1" "2025-03-05" = Some old →
             fields_kept Samples.downshift_note old row
             ∧ length tbl' = length [Samples.bad_log]) ∧
     (∀ r, r ∈ [Samples.bad_log] → log_key r ≠ ("u1", "2025-03-05") → r ∈ tbl') ∧
     NoDup (log_key <$> tbl')) ∧
  (keeps_key Samples.downshift_note →
   (select_log [Samples.bad_log] "u1" "2025-03-05" = None →
    fresh_id Samples.clock ∉ (log_id <$> [Samples.bad_log])) →
   (is_Some (select_log [Samples.bad_log] "u1" "2025-03-05") →
    log_update_empty Samples.downshift_note = false) →
   is_Some (upsertDailyLog Samples.clock [Samples.bad_log] "u1" "2025-03-05"
              Samples.downshift_note)).
Proof.
  assert (logs_ok [Samples.bad_log]) as Hok
    by (split; apply NoDup_singleton).
  split; [exact Hok|].
  exact (upsertDailyLog_frame Samples.clock [Samples.bad_log] "u1"
           "2025-03-05" Samples.downshift_note Hok).
Defined.

(** The note is written and the score of the day stays. *)
Example upsertDailyLog_note :
  ∃ row, upsertDailyLog Samples.clock [Samples.bad_log] "u1" "2025-03-05"
           Samples.downshift_note = Some ([row], row)
         ∧ notes row = Some "DOWNSHIFT: bad day declared"
         ∧ total_score row = 2 ∧ scores row = scores Samples.bad_log.
Proof.
  exists (apply_log_update Samples.downshift_note Samples.bad_log). split.
  - rewrite (upsertDailyLog_existing _ _ _ _ _ Samples.bad_log);
      [reflexivity | split; apply NoDup_singleton | done..].
  - done.
Qed.

(** *** Reading back what an upsert wrote *)

Lemma filter_updated (tbl : list DailyLog) updates k k' :
  keeps_key updates →
  filter (λ r, log_key r = k')
    ((λ r, if decide (log_key r = k) then apply_log_update updates r else r)
       <$> tbl)
  = (λ r, if decide (log_key r = k) then apply_log_update updates r else r)
      <$> filter (λ r, log_key r = k') tbl.
Proof.
  intros (Hid & Hu & Hd).
  assert (∀ r, log_key (if decide (log_key r = k)
                        then apply_log_update updates r else r) = log_key r) as Hk.
  { intros r. case_decide; [|done].
    unfold log_key, apply_log_update. simpl. by rewrite Hu, Hd. }
  induction tbl as [|r tbl IH]; [done|].
  rewrite fmap_cons, !filter_cons, Hk.
  case_decide; [|done]. by rewrite fmap_cons, IH.
Qed.

Lemma apply_log_update_twice updates r :
  apply_log_update updates (apply_log_update updates r)
  = apply_log_update updates r.
Proof.
  unfold apply_log_update. simpl.
  destruct updates as [[] [] [] [] [] [] [] [] [] []]; reflexivity.
Qed.

(** Writing the same columns to the same (user, date) a second time
    changes nothing. *)
Lemma upsertDailyLog_again clk (tbl tbl1 : list DailyLog) userId date updates row :
  logs_ok tbl → keeps_key updates → log_update_empty updates = false →
  upsertDailyLog clk tbl userId date updates = Some (tbl1, row) →
  logs_ok tbl1 ∧ select_log tbl1 userId date = Some row ∧
  apply_log_update updates row = row ∧
  upsertDailyLog clk tbl1 userId date updates = Some (tbl1, row).
Proof.
  intros Hok Hkeep Hne Hup.
  assert (logs_ok tbl1 ∧ select_log tbl1 userId date = Some row
          ∧ apply_log_update updates row = row) as (Hok1 & Hsel1 & Hrow).
  { unfold upsertDailyLog in Hup.
    destruct (select_log tbl userId date) as [old|] eqn:Hsel.
    - rewrite Hne in Hup. case_decide as Hok'; [|discriminate].
      apply select_log_Some in Hsel as (_ & Hkey & rest & Hf).
      rewrite Hf in Hup. simpl in Hup. injection Hup as <- <-.
      split; [done|]. split; [|apply apply_log_update_twice].
      unfold select_log. rewrite filter_updated, Hf by done. simpl.
      by rewrite decide_True.
    - case_decide; [|discriminate]. case_decide as Hok'; [|discriminate].
      injection Hup as <- <-.
      split; [done|]. split; [|apply apply_log_update_twice].
      unfold select_log in *. rewrite filter_app.
      apply head_None in Hsel. rewrite Hsel. simpl.
      rewrite filter_cons, decide_True; [done|].
      destruct Hkeep as (_ & Hu & Hd).
      unfold log_key, apply_log_update. simpl. by rewrite Hu, Hd. }
  split; [done|]. split; [done|]. split; [done|].
  rewrite (upsertDailyLog_existing _ _ _ _ _ row) by done.
  rewrite Hrow. f_equal. f_equal.
  apply select_log_Some in Hsel1 as (Hin & Hkey & _).
  apply fmap_fixed. intros r Hr. case_decide as Hk; [|done].
  destruct Hok1 as [_ Hkeys].
  assert (r = row) as -> by (apply (key_inj log_key tbl1); congruence).
  done.
Qed.

(** An upsert leaves what is read under another (user, date). *)
Lemma upsertDailyLog_other clk (tbl tbl1 : list DailyLog) userId date updates
    row userId' date' :
  keeps_key updates →
  upsertDailyLog clk tbl userId date updates = Some (tbl1, row) →
  (userId', date') ≠ (userId, date) →
  select_log tbl1 userId' date' = select_log tbl userId' date'.
Proof.
  intros Hkeep Hup Hne. unfold upsertDailyLog in Hup. unfold select_log at 1 2.
  destruct (select_log tbl userId date) as [old|] eqn:Hsel.
  - destruct (log_update_empty updates); [discriminate|].
    case_decide; [|discriminate].
    destruct (apply_log_update updates <$> _); [discriminate|].
    injection Hup as <- <-. rewrite filter_updated by done.
    f_equal. apply fmap_fixed. intros r Hr.
    apply list_elem_of_filter in Hr as [Hk _].
    rewrite decide_False; [done|]. congruence.
  - case_decide; [|discriminate]. case_decide; [|discriminate].
    injection Hup as <- <-. rewrite filter_app, filter_cons.
    rewrite decide_False; [by rewrite filter_nil, app_nil_r|].
    destruct Hkeep as (_ & Hu & Hd).
    unfold log_key, apply_log_update. simpl. rewrite Hu, Hd. simpl. congruence.
Qed.

End DailyLogs.

(** ** Scorecard *)

Section ScorecardProperties.
Import Db Scorecard.

Lemma findAction_None contract name :
  findAction contract name = None ↔
  ∀ a, a ∈ binary_actions contract →
       Js.toLowerCase (action_name a) ≠ Js.toLowerCase name.
Proof.
  unfold findAction. induction (binary_actions contract) as [|x l IH]; simpl.
  - split; [|done]. intros _ a Ha. by apply elem_of_nil in Ha.
  - case_bool_decide as Hx.
    + split; [discriminate|]. intros H. exfalso.
      apply (H x); [apply elem_of_cons; by left | done].
    + rewrite IH. split.
      * intros H a Ha. apply elem_of_cons in Ha as [->|Ha]; [done | by apply H].
      * intros H a Ha. apply H, elem_of_cons. by right.
Qed.

Lemma score_columns_keeps_key scores total :
  keeps_key (score_columns scores total)
  ∧ log_update_empty (score_columns scores total) = false.
Proof. done. Qed.

(** C5. For an update that names an action of the contract (cases
    ignored), completed or not, a second [updateScore] with the same update
    on the same day returns what the first returned and leaves table
    daily_logs, hence the stored scores and total, as the first left it. *)
Theorem updateScore_idempotent clk (tbl : list DailyLog) user contract update act :
  logs_ok tbl →
  act ∈ binary_actions contract →
  Js.toLowerCase (action update) = Js.toLowerCase (action_name act) →
  (select_log tbl (user_id user) (js_today clk) = None →
   fresh_id clk ∉ (log_id <$> tbl)) →
  ∃ tbl1 result,
    updateScore clk tbl user contract update = Some (tbl1, result) ∧
    updateScore clk tbl1 user contract update = Some (tbl1, result).
Proof.
  intros Hok Hact Hname Hfresh. unfold updateScore.
  destruct (findAction contract (action update)) as [a|] eqn:Hfind; last first.
  { exfalso. apply (proj1 (findAction_None _ _) Hfind act Hact). by rewrite Hname. }
  set (scores0 := from_option scores ∅ (getTodayLog clk tbl (user_id user))).
  set (earned := if completed update then points a else 0).
  set (U := score_columns (Js.setProp (action_name a) earned scores0)
              (sumScores (Js.setProp (action_name a) earned scores0))).
  destruct (score_columns_keeps_key (Js.setProp (action_name a) earned scores0)
              (sumScores (Js.setProp (action_name a) earned scores0))) as [Hkeep Hne].
  fold U in Hkeep, Hne.
  assert (is_Some (upsertDailyLog clk tbl (user_id user) (js_today clk) U))
    as [[tbl1 row] Hup].
  { apply upsertDailyLog_succeeds; [done..|]. intros _. exact Hne. }
  rewrite Hup.
  destruct (upsertDailyLog_again _ _ _ _ _ _ _ Hok Hkeep Hne Hup)
    as (Hok1 & Hsel1 & Hrow & Hup1).
  eexists _, _. split; [reflexivity|].
  assert (Js.setProp (action_name a) earned
            (from_option scores ∅ (getTodayLog clk tbl1 (user_id user)))
          = Js.setProp (action_name a) earned scores0) as ->.
  { unfold getTodayLog.
    destruct (decide (current_date clk = js_today clk)) as [Heq|Hneq].
    - rewrite Heq, Hsel1. simpl. rewrite <- Hrow. simpl.
      apply setProp_again.
    - rewrite (upsertDailyLog_other _ _ _ _ _ _ _ _ _ Hkeep Hup) by congruence.
      done. }
  fold U. by rewrite Hup1.
Qed.

Lemma updateScore_idempotent_witness :
  logs_ok [Samples.bad_log] ∧
  (∃ tbl1 result,
     Scorecard.updateScore Samples.clock [Samples.bad_log]
       (Samples.user 1 true "complete") Samples.contract (Samples.did "protein")
       = Some (tbl1, result) ∧
     Scorecard.updateScore Samples.clock tbl1
       (Samples.user 1 true "complete") Samples.contract (Samples.did "protein")
       = Some (tbl1, result)).
Proof.
  assert (logs_ok [Samples.bad_log]) as Hok by (split; apply NoDup_singleton).
  split; [exact Hok|].
  apply (updateScore_idempotent Samples.clock [Samples.bad_log]
           (Samples.user 1 true "complete") Samples.contract
           (Samples.did "protein")
           {| action_name := "protein"; threshold := Some "over 150g";
              points := 2 |}).
  - exact Hok.
  - apply elem_of_cons. right. apply elem_of_cons. by left.
  - reflexivity.
  - vm_compute. intros H. discriminate H.
Defined.

(** The day of [Samples.bad_log] after "protein" is reported done. *)
Example updateScore_protein :
  ∃ tbl1 result,
    updateScore Samples.clock [Samples.bad_log]
      (Samples.user 1 true "complete") Samples.contract (Samples.did "Protein")
      = Some (tbl1, result) ∧
    total_score <$> tbl1 = [4] ∧ newScore result = 4 ∧ totalPossible result = 6 ∧
    (scores <$> tbl1) = [ {[ "calories" := 2; "protein" := 2 ]} ].
Proof. eexists _, _. split; [vm_compute; reflexivity|]. by vm_compute. Qed.

(** C6. When no action of the contract has the name of the update, cases
    ignored, [updateScore] returns normally with the table as it was, a
    score and a total of 0, and a message that names the unknown action. *)
Theorem updateScore_unknown_action clk (tbl : list DailyLog) user contract update :
  (∀ a, a ∈ binary_actions contract →
        Js.toLowerCase (action_name a) ≠ Js.toLowerCase (action update)) →
  updateScore clk tbl user contract update =
    Some (tbl, {| newScore := 0; totalPossible := 0;
                  message := "Unknown action: " +:+ action update |}).
Proof.
  intros Hnone. apply findAction_None in Hnone.
  unfold updateScore. by rewrite Hnone.
Qed.

Lemma updateScore_unknown_action_witness :
  (∀ a, a ∈ binary_actions Samples.contract →
        Js.toLowerCase (action_name a)
        ≠ Js.toLowerCase (action (Samples.did "Yoga"))) ∧
  updateScore Samples.clock [Samples.bad_log] (Samples.user 1 true "complete")
    Samples.contract (Samples.did "Yoga") =
    Some ([Samples.bad_log],
          {| newScore := 0; totalPossible := 0;
             message := "Unknown action: " +:+ action (Samples.did "Yoga") |}).
Proof.
  assert (∀ a, a ∈ binary_actions Samples.contract →
               Js.toLowerCase (action_name a)
               ≠ Js.toLowerCase (action (Samples.did "Yoga"))) as Hnone.
  { apply findAction_None. reflexivity. }
  split; [exact Hnone|].
  exact (updateScore_unknown_action Samples.clock [Samples.bad_log]
           (Samples.user 1 true "complete") Samples.contract
           (Samples.did "Yoga") Hnone).
Defined.

End ScorecardProperties.

(** ** Nightly lock *)

Section NightlyLockScoring.
Import Db NightlyLock.

Lemma scoreActions_completed (completedItems : list string)
    (actions : list BinaryAction) (scores : gmap string Z) (total : Z) :
  (∀ a, a ∈ actions → action_name a ∈ completedItems) →
  foldl (λ '(scores, totalScore) a,
           if listIncludes completedItems (action_name a)
           then (Js.setProp (action_name a) (points a) scores,
                 totalScore + points a)
           else (Js.setProp (action_name a) 0 scores, totalScore))
        (scores, total) actions
  = (foldl (λ m a, Js.setProp (action_name a) (points a) m) scores actions,
     foldl (λ a b, a + points b) total actions).
Proof.
  revert scores total.
  induction actions as [|x l IH]; intros scores total Hall; [done|].
  simpl.
  assert (listIncludes completedItems (action_name x) = true) as ->
    by (apply bool_decide_eq_true_2, Hall, elem_of_cons; by left).
  apply IH. intros a Ha. apply Hall, elem_of_cons. by right.
Qed.

Lemma scoreActions_missed (actions : list BinaryAction)
    (scores : gmap string Z) (total : Z) :
  foldl (λ '(scores, totalScore) a,
           if listIncludes [] (action_name a)
           then (Js.setProp (action_name a) (points a) scores,
                 totalScore + points a)
           else (Js.setProp (action_name a) 0 scores, totalScore))
        (scores, total) actions
  = (foldl (λ m a, Js.setProp (action_name a) 0 m) scores actions, total).
Proof.
  revert scores.
  induction actions as [|x l IH]; intros scores; [done|].
  simpl. apply IH.
Qed.

Lemma lookup_foldl_insert_other (f : BinaryAction → Z)
    (actions : list BinaryAction) (scores : gmap string Z) (name : string) :
  name ∉ (action_name <$> actions) →
  foldl (λ m a, Js.setProp (action_name a) (f a) m) scores actions !! name
  = scores !! name.
Proof.
  revert scores. induction actions as [|x l IH]; intros scores Hnot; [done|].
  simpl. rewrite fmap_cons in Hnot. apply not_elem_of_cons in Hnot as [Hx Hl].
  rewrite IH by done. by apply lookup_setProp_ne.
Qed.

Lemma lookup_foldl_insert (f : BinaryAction → Z)
    (actions : list BinaryAction) (scores : gmap string Z) (a : BinaryAction) :
  NoDup (action_name <$> actions) → a ∈ actions →
  action_name a ≠ "__proto__" →
  foldl (λ m a, Js.setProp (action_name a) (f a) m) scores actions
    !! action_name a
  = Some (f a).
Proof.
  revert scores. induction actions as [|x l IH]; intros scores Hnd Ha Hname.
  - by apply elem_of_nil in Ha.
  - rewrite fmap_cons in Hnd. apply NoDup_cons in Hnd as [Hx Hnd].
    simpl. apply elem_of_cons in Ha as [->|Ha].
    + rewrite lookup_foldl_insert_other by done. by apply lookup_setProp_eq.
    + by apply IH.
Qed.

Lemma lookup_foldl_zero (actions : list BinaryAction)
    (scores : gmap string Z) (name : string) :
  name ∈ (action_name <$> actions) → name ≠ "__proto__" →
  foldl (λ m a, Js.setProp (action_name a) 0 m) scores actions !! name
  = Some 0.
Proof.
  revert scores. induction actions as [|x l IH]; intros scores Ha Hname.
  - by apply elem_of_nil in Ha.
  - simpl. destruct (decide (name ∈ (action_name <$> l))) as [Hin|Hnot].
    + by apply IH.
    + rewrite (lookup_foldl_insert_other (λ _, 0)) by done.
      rewrite fmap_cons in Ha. apply elem_of_cons in Ha as [->|Ha]; [|done].
      by apply lookup_setProp_eq.
Qed.

(** The scores object of the loop has no own property __proto__. *)
Lemma lookup_foldl_proto (f : BinaryAction → Z)
    (actions : list BinaryAction) (scores : gmap string Z) :
  scores !! "__proto__" = None →
  foldl (λ m a, Js.setProp (action_name a) (f a) m) scores actions
    !! "__proto__" = None.
Proof.
  revert scores. induction actions as [|x l IH]; intros scores Hs; [done|].
  simpl. by apply IH, lookup_setProp_proto.
Qed.

(** What [handleScoring] does once the message is sorted into the two
    lists: the day's row holds the scores and the total, and the session
    moves to miss_reason exactly when some item is missed. *)
Lemma handleScoring_run clk (w : Store) user contract message state
    completedItems missed scores total :
  logs_ok (daily_logs w) →
  (select_log (daily_logs w) (user_id user) (js_today clk) = None →
   fresh_id clk ∉ (log_id <$> daily_logs w)) →
  classify (Js.toLowerCase message) (binary_actions contract)
    = (completedItems, missed) →
  scoreActions completedItems (binary_actions contract) = (scores, total) →
  ∃ w' reply row session,
    handleScoring clk w user contract message state = (w', Some reply) ∧
    select_log (daily_logs w') (user_id user) (js_today clk) = Some row ∧
    Db.scores row = scores ∧ total_score row = total ∧
    nightlyLockState w' !! user_id user = Some session ∧
    missedItems session = Some missed ∧
    step session = (if (0 <? length missed)%nat then step_miss_reason
                    else step_planning).
Proof.
  intros Hok Hfresh Hcl Hsc. unfold handleScoring. rewrite Hcl, Hsc.
  assert (keeps_key (Scorecard.score_columns scores total)
          ∧ log_update_empty (Scorecard.score_columns scores total) = false)
    as [Hkeep Hne] by done.
  assert (is_Some (upsertDailyLog clk (daily_logs w) (user_id user)
                     (js_today clk) (Scorecard.score_columns scores total)))
    as [[tbl1 row] Hup].
  { apply upsertDailyLog_succeeds; [done..|]. intros _. exact Hne. }
  rewrite Hup.
  destruct (upsertDailyLog_again _ _ _ _ _ _ _ Hok Hkeep Hne Hup)
    as (Hok1 & Hsel1 & Hrow & _).
  destruct (0 <? length missed)%nat;
    eexists _, _, row, _;
    (split; [reflexivity|]); (split; [exact Hsel1|]);
    (split; [by rewrite <- Hrow|]); (split; [by rewrite <- Hrow|]);
    (split; [apply lookup_insert_eq|]); done.
Qed.

(** C7. In the scoring step the message "all" stores a total equal to the
    sum of the points of the contract and every action (the names being
    distinct) with its full points, misses nothing, and moves the session
    to planning; the message "none" stores a total of 0 and a score of 0
    for every action, lists every action as missed, and, the contract
    having an action as every contract of onboarding has, moves the
    session to miss_reason. The scores are the own properties of the
    object that is stored: an action named __proto__ gets none. *)
Theorem handleScoring_all_none clk (w : Store) user contract message state :
  logs_ok (daily_logs w) →
  (select_log (daily_logs w) (user_id user) (js_today clk) = None →
   fresh_id clk ∉ (log_id <$> daily_logs w)) →
  (Js.toLowerCase message = "all" →
   ∃ w' reply row session,
     handleScoring clk w user contract message state = (w', Some reply) ∧
     select_log (daily_logs w') (user_id user) (js_today clk) = Some row ∧
     total_score row = Scorecard.sumPoints (binary_actions contract) ∧
     (NoDup (action_name <$> binary_actions contract) →
      ∀ a, a ∈ binary_actions contract → action_name a ≠ "__proto__" →
           scores row !! action_name a = Some (points a)) ∧
     scores row !! "__proto__" = None ∧
     nightlyLockState w' !! user_id user = Some session ∧
     missedItems session = Some [] ∧
     step session = step_planning) ∧
  (Js.toLowerCase message = "none" →
   binary_actions contract ≠ [] →
   ∃ w' reply row session,
     handleScoring clk w user contract message state = (w', Some reply) ∧
     select_log (daily_logs w') (user_id user) (js_today clk) = Some row ∧
     total_score row = 0 ∧
     (∀ a, a ∈ binary_actions contract → action_name a ≠ "__proto__" →
           scores row !! action_name a = Some 0) ∧
     scores row !! "__proto__" = None ∧
     nightlyLockState w' !! user_id user = Some session ∧
     missedItems session = Some (action_name <$> binary_actions contract) ∧
     step session = step_miss_reason).
Proof.
  intros Hok Hfresh. split.
  - intros Hmsg.
    edestruct (handleScoring_run clk w user contract message state
                 (action_name <$> binary_actions contract) [])
      as (w' & reply & row & session & Hrun & Hsel & Hsc & Htot & Hses & Hmiss & Hstep);
      [done | done | by rewrite Hmsg | apply scoreActions_completed |].
    { intros a Ha. by apply list_elem_of_fmap_2. }
    exists w', reply, row, session.
    split; [done|]. split; [done|]. split; [by rewrite Htot|].
    split; [|split; [|done]].
    + intros Hnd a Ha Hname. rewrite Hsc.
      by apply (lookup_foldl_insert points).
    + rewrite Hsc. by apply (lookup_foldl_proto points).
  - intros Hmsg Hne.
    edestruct (handleScoring_run clk w user contract message state
                 [] (action_name <$> binary_actions contract))
      as (w' & reply & row & session & Hrun & Hsel & Hsc & Htot & Hses & Hmiss & Hstep);
      [done | done | by rewrite Hmsg | apply scoreActions_missed |].
    exists w', reply, row, session.
    split; [done|]. split; [done|]. split; [done|].
    split; [|split; [|split; [done|split; [done|]]]].
    + intros a Ha Hname. rewrite Hsc. apply lookup_foldl_zero; [|done].
      by apply list_elem_of_fmap_2.
    + rewrite Hsc. by apply (lookup_foldl_proto (λ _, 0)).
    + rewrite Hstep. by destruct (binary_actions contract).
Qed.

Lemma handleScoring_all_none_witness :
  logs_ok (daily_logs Samples.in_scoring) ∧
  (∃ w' reply row session,
     handleScoring Samples.clock Samples.in_scoring
       (Samples.user 1 true "complete") Samples.contract "None"
       (state_at step_scoring) = (w', Some reply) ∧
     select_log (daily_logs w') "u1" "2025-03-05" = Some row ∧
     total_score row = 0 ∧
     nightlyLockState w' !! "u1" = Some session ∧
     missedItems session = Some ["calories"; "protein"; "walk"; "strength"] ∧
     step session = step_miss_reason).
Proof.
  assert (logs_ok (daily_logs Samples.in_scoring)) as Hok
    by (split; apply NoDup_singleton).
  split; [exact Hok|].
  destruct (handleScoring_all_none Samples.clock Samples.in_scoring
              (Samples.user 1 true "complete") Samples.contract "None"
              (state_at step_scoring)) as [_ Hnone].
  - exact Hok.
  - vm_compute. intros H. discriminate H.
  - destruct (Hnone eq_refl)
      as (w' & reply & row & session & Hrun & Hsel & Htot & _ & _ & Hses
          & Hmiss & Hstep); [discriminate|].
    exists w', reply, row, session.
    split; [exact Hrun|]. split; [exact Hsel|]. split; [exact Htot|].
    split; [exact Hses|]. split; [exact Hmiss | exact Hstep].
Defined.

Example handleScoring_all_total :
  ∃ w' reply,
    handleScoring Samples.clock Samples.in_scoring
      (Samples.user 1 true "complete") Samples.contract "all"
      (state_at step_scoring) = (w', Some reply) ∧
    total_score <$> daily_logs w' = [6] ∧
    step <$> nightlyLockState w' !! "u1" = Some step_planning.
Proof. eexists _, _. split; [vm_compute; reflexivity|]. by vm_compute. Qed.

Example handleScoring_none_total :
  ∃ w' reply,
    handleScoring Samples.clock Samples.in_scoring
      (Samples.user 1 true "complete") Samples.contract "none"
      (state_at step_scoring) = (w', Some reply) ∧
    total_score <$> daily_logs w' = [0] ∧
    step <$> nightlyLockState w' !! "u1" = Some step_miss_reason.
Proof. eexists _, _. split; [vm_compute; reflexivity|]. by vm_compute. Qed.

End NightlyLockScoring.

(** ** Message router *)

Section RouterProperties.
Import Db NightlyLock Webhook.

Variable parseTomorrowPlan : string → TomorrowPlan.
Variable timeMatch : string → option string.
Variable detectRationalization : string → bool.
Variable parsesAsScoreUpdate : string → Contract → bool.
Variable classifyIntent : string → Intent.

(** C8 on a concrete run: a user in the scoring step of the nightly lock
    sends "reset"; the router hands the message to the nightly-lock flow,
    which scores it as a day with nothing completed, and the session is
    still there, now waiting for the miss reason. *)
Theorem reset_during_session_keeps_session :
  ∃ sessions,
    handleMessage parseTomorrowPlan timeMatch detectRationalization
      parsesAsScoreUpdate classifyIntent
      Samples.clock Samples.in_scoring (Samples.user 1 true "complete")
      (Some Samples.contract) "reset" None = (to_nightly_lock, sessions) ∧
    isInNightlyLock sessions "u1" = true ∧
    step <$> sessions !! "u1" = Some step_miss_reason.
Proof. eexists. split; [vm_compute; reflexivity|]. by vm_compute. Qed.

(** The reset branch is taken only when the user has no session, so the
    deletion it performs never removes anything. *)
Lemma reset_branch_without_session clk (w : Store) user contract message
    mediaUrl sessions :
  handleMessage parseTomorrowPlan timeMatch detectRationalization
    parsesAsScoreUpdate classifyIntent
    clk w user contract message mediaUrl = (to_reset, sessions) →
  nightlyLockState w !! user_id user = None ∧ sessions = nightlyLockState w.
Proof.
  unfold handleMessage, isInNightlyLock, resetNightlyLock.
  destruct (is_set mediaUrl); [discriminate|].
  destruct (isOnboarding user); [discriminate|].
  destruct contract as [contract|]; [|discriminate].
  case_bool_decide as Hin; [discriminate|].
  repeat (match goal with
          | |- context [if ?b then _ else _] => destruct b; try discriminate
          end).
  - intros [= <-]. assert (nightlyLockState w !! user_id user = None) as Hnone.
    { destruct (nightlyLockState w !! user_id user) eqn:E; [|done].
      exfalso. apply Hin. by eexists. }
    split; [done|]. by apply delete_id.
  - destruct (classifyIntent message); discriminate.
Qed.

(** Every step of the nightly-lock flow but a confirmed LOCKED leaves the
    user with a session. *)
Lemma handleNightlyLock_keeps_session clk (w : Store) user contract message :
  Js.toUpperCase (Js.trim message) ≠ "LOCKED" →
  is_Some (nightlyLockState
             (handleNightlyLock parseTomorrowPlan timeMatch clk w user contract
                message).1 !! user_id user).
Proof.
  intros Hnot. unfold handleNightlyLock.
  destruct (nightlyLockState w !! user_id user) as [state|] eqn:Hstate; simpl.
  - destruct (step state).
    + simpl. rewrite lookup_insert_eq. by eexists.
    + unfold handleScoring.
      destruct (classify _ _) as [completedItems missed].
      destruct (scoreActions _ _) as [scores total].
      destruct (upsertDailyLog _ _ _ _ _) as [[tbl' ?]|]; simpl.
      * destruct (0 <? length missed)%nat; simpl;
          rewrite lookup_insert_eq; by eexists.
      * rewrite Hstate. by eexists.
    + unfold handleMissReason. simpl.
      destruct (recordPattern _ _ _ _ _ _) as [[tbl1 ?]|]; simpl;
        [|rewrite lookup_insert_eq; by eexists].
      destruct (timeMatch message) as [time|]; simpl.
      * destruct (recordPattern _ _ _ _ _ _) as [[tbl2 ?]|]; simpl;
          rewrite lookup_insert_eq; by eexists.
      * rewrite lookup_insert_eq. by eexists.
    + simpl. rewrite lookup_insert_eq. by eexists.
    + unfold handleConfirm. rewrite bool_decide_eq_false_2 by done.
      simpl. rewrite lookup_insert_eq. by eexists.
  - rewrite lookup_insert_eq. by eexists.
Qed.

(** In every state in which the user has a session, the user still has one
    after the router has handled "reset". *)
Lemma reset_never_clears_session clk (w : Store) user contract mediaUrl :
  is_Some (nightlyLockState w !! user_id user) →
  is_Some ((handleMessage parseTomorrowPlan timeMatch detectRationalization
              parsesAsScoreUpdate classifyIntent
              clk w user contract "reset" mediaUrl).2 !! user_id user).
Proof.
  intros Hsession. unfold handleMessage.
  destruct (is_set mediaUrl); [done|].
  destruct (isOnboarding user); [done|].
  destruct contract as [contract|]; [|done].
  unfold isInNightlyLock. rewrite bool_decide_eq_true_2 by done. simpl.
  apply handleNightlyLock_keeps_session. by vm_compute.
Qed.

End RouterProperties.

(** ** Onboarding *)

Section OnboardingProperties.
Import Db Onboarding.












(** With two actions or more the code and the specification agree. *)
Lemma code_points_spec (n : nat) : (2 <= n)%nat → code_points n = spec_points n.
Proof.
  intros Hn. unfold code_points, spec_points.
  destruct (Nat.leb_spec 2 n) as [_|?]; [|lia].
  by replace (n `min` 2)%nat with 2%nat by lia.
Qed.




(** Bullets, numbering and thresholds; a line of one bullet gives no
    action. *)
Example parseBinaryActions_bullets :
  parseBinaryActions
    ("- Calories under 2000" +:+ Js.nl +:+ "2) Protein over 150g" +:+ Js.nl +:+
     " " +:+ Js.nl +:+ "* 10k steps")
  = [ {| action_name := "calories"; threshold := Some "Calories under 2000";
         points := 2 |};
      {| action_name := "protein"; threshold := Some "Protein over 150g";
         points := 2 |};
      {| action_name := "k"; threshold := Some "k steps"; points := 1 |} ] ∧
  parseBinaryActions (Js.bullet +:+ Js.nl +:+ "calories")
  = [ {| action_name := "calories"; threshold := Some "completed";
         points := 1 |} ] ∧
  parseBinaryActions ("1. - Strength training")
  = [ {| action_name := "strength"; threshold := Some "Strength training";
         points := 1 |} ].
Proof. repeat split; reflexivity. Qed.











(** The length is counted in UTF-16 units: a name of three characters, one
    of them of two bytes, gets the prompt again. *)
Example handleNameInput_counts_units :
  Js.length "Zoë" = 3%nat ∧
  handleNameInput Samples.asked_name
    (Samples.user 1 true "awaiting_name") "Zoë"
    = (Samples.asked_name, Some name_prompt).
Proof. split; reflexivity. Qed.

End OnboardingProperties.

(** * Further properties *)

(** ** Token ledger: reading back, monotonicity, weeks *)

Section LedgerMore.
Import Db.

(** The first row of a key is still the first row of that key after a map
    that keeps the keys. *)
Lemma head_filter_fmap_key {Row Key : Type} `{EqDecision Key}
    (key : Row → Key) (f : Row → Row) (k : Key) (tbl : list Row) :
  (∀ r, key (f r) = key r) →
  head (filter (λ r, key r = k) (f <$> tbl))
  = f <$> head (filter (λ r, key r = k) tbl).
Proof.
  intros Hkey. induction tbl as [|x tbl IH]; [done|].
  rewrite fmap_cons, !filter_cons, Hkey. by case_decide.
Qed.

(** What [deductToken] returns is what the next read of the week finds. *)
Lemma deductToken_read_back clk (tbl tbl' : list TokenRecord) userId reason
    amount result :
  tokens_ok tbl →
  deductToken clk tbl userId reason amount = Some (tbl', result) →
  ∃ tbl1 tokens,
    getOrCreateWeekTokens clk tbl userId = Some (tbl1, tokens) ∧
    tokens ∈ tbl1 ∧ tokens_ok tbl1 ∧
    token_key tokens = (userId, week_start_now clk) ∧
    result = set_tokens (Z.max 0 (current_tokens tokens - amount))
               (loss_events tokens ++
                [{| loss_date := js_today clk; loss_reason := reason;
                    loss_amount := amount |}])
               (bool_decide (Z.max 0 (current_tokens tokens - amount) = 0))
               tokens ∧
    tbl' = (λ r, if decide (token_id r = token_id tokens)
                 then set_tokens (Z.max 0 (current_tokens tokens - amount))
                        (loss_events tokens ++
                         [{| loss_date := js_today clk; loss_reason := reason;
                             loss_amount := amount |}])
                        (bool_decide (Z.max 0 (current_tokens tokens - amount) = 0))
                        r
                 else r) <$> tbl1 ∧
    getCurrentWeekTokens clk tbl' userId = Some result.
Proof.
  intros Hok Hded. unfold deductToken in Hded.
  destruct (getOrCreateWeekTokens clk tbl userId) as [[tbl1 tokens]|] eqn:Hget;
    [|discriminate].
  destruct (getOrCreateWeekTokens_ok _ _ _ _ _ Hok Hget) as [Hok1 Hin].
  assert (getCurrentWeekTokens clk tbl1 userId = Some tokens) as Hcur.
  { unfold getOrCreateWeekTokens in Hget.
    destruct (getCurrentWeekTokens clk tbl userId) as [t|] eqn:Hc.
    - by injection Hget as <- <-.
    - case_decide; [|discriminate]. injection Hget as <- <-.
      unfold getCurrentWeekTokens in *. apply head_None in Hc.
      rewrite filter_app, Hc. simpl. by rewrite filter_cons, decide_True. }
  destruct (update_tokens_row tbl1 tokens
              (set_tokens (Z.max 0 (current_tokens tokens - amount))
                 (loss_events tokens ++
                  [{| loss_date := js_today clk; loss_reason := reason;
                      loss_amount := amount |}])
                 (bool_decide (Z.max 0 (current_tokens tokens - amount) = 0)))
              (proj1 Hok1) Hin) as [rest Hupd].
  rewrite Hupd in Hded. injection Hded as <- <-.
  exists tbl1, tokens. split; [done|]. split; [done|]. split; [done|].
  split; [by apply getCurrentWeekTokens_Some in Hcur as [_ ?]|].
  split; [done|]. split; [done|].
  unfold getCurrentWeekTokens in *.
  rewrite (head_filter_fmap_key token_key).
  - rewrite Hcur. simpl. by rewrite decide_True.
  - intros r. simpl.
    destruct (decide (token_id r = token_id tokens)); reflexivity.
Qed.

(** X1. A deduction of a non-negative amount never raises the balance of
    the week, keeps [starting_tokens], and leaves the rows of every other
    (user, week) as they were. *)
Theorem deductToken_monotone clk (tbl : list TokenRecord) userId reason amount :
  tokens_ok tbl → 0 <= amount →
  (getCurrentWeekTokens clk tbl userId = None →
   fresh_id clk ∉ (token_id <$> tbl)) →
  ∃ tbl1 tokens tbl' result,
    getOrCreateWeekTokens clk tbl userId = Some (tbl1, tokens) ∧
    deductToken clk tbl userId reason amount = Some (tbl', result) ∧
    current_tokens result <= current_tokens tokens ∧
    starting_tokens result = starting_tokens tokens ∧
    token_key result = (userId, week_start_now clk) ∧
    (∀ r, r ∈ tbl → token_key r ≠ (userId, week_start_now clk) → r ∈ tbl').
Proof.
  intros Hok Hpos Hfresh.
  assert (∃ tbl1 tokens,
    getOrCreateWeekTokens clk tbl userId = Some (tbl1, tokens))
    as (tbl1 & tokens & Hget).
  { unfold getOrCreateWeekTokens.
    destruct (getCurrentWeekTokens clk tbl userId) as [t|] eqn:Hcur; [by eauto|].
    rewrite decide_True; [by eauto|]. split; simpl.
    - by apply Hfresh.
    - by apply getCurrentWeekTokens_None. }
  destruct (getOrCreateWeekTokens_ok _ _ _ _ _ Hok Hget) as [Hok1 Hin].
  assert (is_Some (deductToken clk tbl userId reason amount)) as [[tbl' result] Hded].
  { unfold deductToken. rewrite Hget.
    destruct (update_tokens_row tbl1 tokens
                (set_tokens (Z.max 0 (current_tokens tokens - amount))
                   (loss_events tokens ++
                    [{| loss_date := js_today clk; loss_reason := reason;
                        loss_amount := amount |}])
                   (bool_decide (Z.max 0 (current_tokens tokens - amount) = 0)))
                (proj1 Hok1) Hin) as [rest ->]. by eexists. }
  destruct (deductToken_read_back _ _ _ _ _ _ _ Hok Hded)
    as (tbl1' & tokens' & Hget' & _ & _ & Hkey & Hres & Htbl & _).
  rewrite Hget in Hget'. injection Hget' as <- <-.
  exists tbl1, tokens, tbl', result. split; [done|]. split; [done|].
  pose proof (proj1 (Forall_forall _ _) (proj2 Hok1) _ Hin) as [Hbnd _].
  subst result. simpl. split; [lia|]. split; [done|]. split; [done|].
  intros r Hr Hne. subst tbl'. apply list_elem_of_fmap. exists r.
  assert (r ∈ tbl1) as Hr1.
  { unfold getOrCreateWeekTokens in Hget.
    destruct (getCurrentWeekTokens clk tbl userId).
    - by injection Hget as <- _.
    - case_decide; [|discriminate]. injection Hget as <- _.
      apply elem_of_app. by left. }
  split; [|done]. rewrite decide_False; [done|].
  intros Hid. apply Hne.
  by rewrite (token_id_inj tbl1 r tokens (proj1 Hok1) Hr1 Hin Hid).
Qed.

Lemma deductToken_monotone_witness :
  ∃ tbl1 tokens tbl' result,
    getOrCreateWeekTokens Samples.clock Samples.last_token "u1"
      = Some (tbl1, tokens) ∧
    deductToken Samples.clock Samples.last_token "u1" "Missed nightly lock" 2
      = Some (tbl', result) ∧
    current_tokens result <= current_tokens tokens ∧
    starting_tokens result = starting_tokens tokens ∧
    token_key result = ("u1", week_start_now Samples.clock) ∧
    (∀ r, r ∈ Samples.last_token →
          token_key r ≠ ("u1", week_start_now Samples.clock) → r ∈ tbl').
Proof.
  apply (deductToken_monotone Samples.clock Samples.last_token "u1"
           "Missed nightly lock" 2).
  - split; [apply NoDup_singleton|].
    apply Forall_singleton. split; simpl; [lia|].
    split; intros H; discriminate H.
  - lia.
  - vm_compute. intros H. discriminate H.
Defined.

End LedgerMore.

Section LedgerWeeks.
Import Db LossAversion.

Lemma deductToken_succeeds clk (tbl : list TokenRecord) userId reason amount :
  tokens_ok tbl →
  (getCurrentWeekTokens clk tbl userId = None →
   fresh_id clk ∉ (token_id <$> tbl)) →
  is_Some (deductToken clk tbl userId reason amount).
Proof.
  intros Hok Hfresh.
  assert (∃ tbl1 tokens,
    getOrCreateWeekTokens clk tbl userId = Some (tbl1, tokens))
    as (tbl1 & tokens & Hget).
  { unfold getOrCreateWeekTokens.
    destruct (getCurrentWeekTokens clk tbl userId) as [t|] eqn:Hcur; [by eauto|].
    rewrite decide_True; [by eauto|]. split; simpl.
    - by apply Hfresh.
    - by apply getCurrentWeekTokens_None. }
  destruct (getOrCreateWeekTokens_ok _ _ _ _ _ Hok Hget) as [Hok1 Hin].
  unfold deductToken. rewrite Hget.
  destruct (update_tokens_row tbl1 tokens
              (set_tokens (Z.max 0 (current_tokens tokens - amount))
                 (loss_events tokens ++
                  [{| loss_date := js_today clk; loss_reason := reason;
                      loss_amount := amount |}])
                 (bool_decide (Z.max 0 (current_tokens tokens - amount) = 0)))
              (proj1 Hok1) Hin) as [rest ->]. by eexists.
Qed.

(** X2. Reading the week's record a second time in the same week returns
    the same record and changes nothing; and in a week that has no record
    yet the record is a new one with 7 tokens, no loss event and no
    punishment, whatever the records of other weeks hold. *)
Theorem getOrCreateWeekTokens_again clk clk' (tbl tbl1 : list TokenRecord)
    userId tokens :
  week_start_now clk' = week_start_now clk →
  getOrCreateWeekTokens clk tbl userId = Some (tbl1, tokens) →
  getOrCreateWeekTokens clk' tbl1 userId = Some (tbl1, tokens) ∧
  (getCurrentWeekTokens clk tbl userId = None →
   tbl1 = tbl ++ [tokens] ∧ current_tokens tokens = 7 ∧
   starting_tokens tokens = 7 ∧ loss_events tokens = [] ∧
   punishment_triggered tokens = false).
Proof.
  intros Hweek Hget. unfold getOrCreateWeekTokens in *.
  unfold getCurrentWeekTokens in *. rewrite Hweek.
  destruct (head (filter _ tbl)) as [t|] eqn:Hcur.
  - injection Hget as <- <-. rewrite Hcur. by split.
  - case_decide; [|discriminate]. injection Hget as <- <-.
    apply head_None in Hcur. rewrite filter_app, Hcur. simpl.
    rewrite filter_cons, decide_True by done. by split.
Qed.

Lemma getOrCreateWeekTokens_again_witness :
  week_start_now Samples.clock = week_start_now Samples.clock ∧
  getOrCreateWeekTokens Samples.clock [] "u1"
    = Some ([fresh_tokens Samples.clock "u1"], fresh_tokens Samples.clock "u1") ∧
  getOrCreateWeekTokens Samples.clock [fresh_tokens Samples.clock "u1"] "u1"
    = Some ([fresh_tokens Samples.clock "u1"], fresh_tokens Samples.clock "u1") ∧
  (getCurrentWeekTokens Samples.clock [] "u1" = None →
   [fresh_tokens Samples.clock "u1"] = [] ++ [fresh_tokens Samples.clock "u1"] ∧
   current_tokens (fresh_tokens Samples.clock "u1") = 7 ∧
   starting_tokens (fresh_tokens Samples.clock "u1") = 7 ∧
   loss_events (fresh_tokens Samples.clock "u1") = [] ∧
   punishment_triggered (fresh_tokens Samples.clock "u1") = false).
Proof.
  assert (getOrCreateWeekTokens Samples.clock [] "u1"
          = Some ([fresh_tokens Samples.clock "u1"],
                  fresh_tokens Samples.clock "u1")) as Hget by reflexivity.
  split; [reflexivity|]. split; [exact Hget|].
  exact (getOrCreateWeekTokens_again Samples.clock Samples.clock [] _ "u1" _
           eq_refl Hget).
Defined.

(** With loss aversion on, a failure is one deduction and its reply is
    never empty. *)
Lemma processFailure_enabled clk (tbl tbl' : list TokenRecord) user reason
    severity reply :
  loss_aversion_enabled user = true →
  processFailure clk tbl user reason severity = Some (tbl', reply) →
  Js.isEmpty reply = false ∧
  ∃ result,
    deductToken clk tbl (user_id user) reason
      (match severity with major => 2 | minor => 1 end) = Some (tbl', result).
Proof.
  intros Hon. unfold processFailure. rewrite Hon. simpl.
  destruct (deductToken _ _ _ _ _) as [[tbl1 tokens]|]; [|discriminate].
  destruct (punishment_triggered tokens).
  - intros [= <- <-]. split; [reflexivity | by eexists].
  - intros [= <- <-]. split; [|by eexists].
    by destruct (current_tokens tokens <=? 2).
Qed.

Lemma push_nonempty (messages : list string) (msg : string) :
  Js.isEmpty msg = false → push_if_nonempty messages msg = messages ++ [msg].
Proof. unfold push_if_nonempty. by intros ->. Qed.

(** X3. With loss aversion on, the daily check costs 1 token for a score
    below half of the possible points plus 2 tokens for a night that was not
    locked, never taking the balance below 0; it returns one message and
    adds one loss event per failure, and without a failure it writes
    nothing. *)
Theorem checkDailyFailures_enabled clk (tbl : list TokenRecord) user todayLog
    totalPossible :
  tokens_ok tbl → loss_aversion_enabled user = true →
  (getCurrentWeekTokens clk tbl (user_id user) = None →
   fresh_id clk ∉ (token_id <$> tbl)) →
  ∃ tbl' messages,
    checkDailyFailures clk tbl user todayLog totalPossible
      = Some (tbl', messages) ∧
    length messages
      = ((if (2 * total_score todayLog <? totalPossible)%Z then 1 else 0)
         + (if tomorrow_locked todayLog then 0 else 1))%nat ∧
    (totalPossible <= 2 * total_score todayLog →
     tomorrow_locked todayLog = true → tbl' = tbl) ∧
    (2 * total_score todayLog < totalPossible ∨ tomorrow_locked todayLog = false →
     ∃ tbl1 tokens after,
       getOrCreateWeekTokens clk tbl (user_id user) = Some (tbl1, tokens) ∧
       getCurrentWeekTokens clk tbl' (user_id user) = Some after ∧
       current_tokens after
         = Z.max 0 (current_tokens tokens
                    - ((if 2 * total_score todayLog <? totalPossible then 1 else 0)
                       + (if tomorrow_locked todayLog then 0 else 2))) ∧
       length (loss_events after)
         = (length (loss_events tokens)
            + ((if (2 * total_score todayLog <? totalPossible)%Z then 1 else 0)
               + (if tomorrow_locked todayLog then 0 else 1)))%nat).
Proof.
  intros Hok Hon Hfresh.
  assert (∀ tbl0 reason severity,
    tokens_ok tbl0 →
    (getCurrentWeekTokens clk tbl0 (user_id user) = None →
     fresh_id clk ∉ (token_id <$> tbl0)) →
    ∃ tbl1 tokens tbl2 reply after,
      getOrCreateWeekTokens clk tbl0 (user_id user) = Some (tbl1, tokens) ∧
      processFailure clk tbl0 user reason severity = Some (tbl2, reply) ∧
      Js.isEmpty reply = false ∧ tokens_ok tbl2 ∧
      getCurrentWeekTokens clk tbl2 (user_id user) = Some after ∧
      current_tokens after
        = Z.max 0 (current_tokens tokens
                   - match severity with major => 2 | minor => 1 end) ∧
      length (loss_events after) = S (length (loss_events tokens)) ∧
      0 <= current_tokens tokens) as Hstep.
  { intros tbl0 reason severity Hok0 Hfresh0.
    destruct (deductToken_succeeds clk tbl0 (user_id user) reason
                (match severity with major => 2 | minor => 1 end) Hok0 Hfresh0)
      as [[tbl2 result] Hded].
    destruct (deductToken_read_back _ _ _ _ _ _ _ Hok0 Hded)
      as (tbl1 & tokens & Hget & Hin & Hok1 & _ & Hres & Htbl & Hback).
    pose proof (proj1 (Forall_forall _ _) (proj2 Hok1) _ Hin) as [Hbnd _].
    assert (∃ reply, processFailure clk tbl0 user reason severity
                     = Some (tbl2, reply) ∧ Js.isEmpty reply = false)
      as (reply & Hpf & Hreply).
    { unfold processFailure. rewrite Hon. simpl. rewrite Hded.
      destruct (punishment_triggered result); eexists;
        (split; [reflexivity|]); [reflexivity|].
      by destruct (current_tokens result <=? 2). }
    exists tbl1, tokens, tbl2, reply, result.
    split; [done|]. split; [exact Hpf|]. split; [done|]. split.
    { subst tbl2. apply updated_tokens_ok; [done..|]. rewrite <- Hres.
      subst result. split; simpl; [|apply bool_decide_eq_true].
      destruct severity; lia. }
    split; [done|]. subst result. simpl. rewrite length_app. simpl.
    split; [done|]. split; [lia|]. lia. }
  unfold checkDailyFailures. rewrite Hon. simpl.
  destruct (Z.ltb_spec (2 * total_score todayLog) totalPossible) as [Hlow|Hhigh].
  - destruct (Hstep tbl ("Score " +:+ Js.ofNumber (total_score todayLog) +:+ "/" +:+
                         Js.ofNumber totalPossible) minor Hok Hfresh)
      as (tbl1 & tokens & tbl2 & reply & after & Hget & Hpf & Hne & Hok2 & Hcur
          & Hamt & Hlen & Hnn).
    rewrite Hpf, (push_nonempty _ reply Hne).
    destruct (tomorrow_locked todayLog) eqn:Hlocked; simpl.
    + eexists _, _. split; [reflexivity|]. split; [done|].
      split; [intros; lia|]. intros _.
      exists tbl1, tokens, after. split; [done|]. split; [done|].
      split; [by rewrite Hamt|]. lia.
    + destruct (Hstep tbl2 "Missed nightly lock" major Hok2)
        as (tbl3 & tokens2 & tbl4 & reply2 & after2 & Hget2 & Hpf2 & Hne2 & _
            & Hcur2 & Hamt2 & Hlen2 & _).
      { rewrite Hcur. discriminate. }
      rewrite Hpf2, (push_nonempty _ reply2 Hne2).
      assert (tokens2 = after) as ->.
      { unfold getOrCreateWeekTokens in Hget2. rewrite Hcur in Hget2.
        by injection Hget2 as _ <-. }
      eexists _, _. split; [reflexivity|]. split; [done|].
      split; [intros; lia|]. intros _.
      exists tbl1, tokens, after2. split; [done|]. split; [done|].
      split; [rewrite Hamt2, Hamt; lia|]. lia.
  - destruct (tomorrow_locked todayLog) eqn:Hlocked; simpl.
    + eexists _, _. split; [reflexivity|]. split; [done|].
      split; [done|]. intros [?|?]; [lia|discriminate].
    + destruct (Hstep tbl "Missed nightly lock" major Hok Hfresh)
        as (tbl1 & tokens & tbl2 & reply & after & Hget & Hpf & Hne & Hok2 & Hcur
            & Hamt & Hlen & Hnn).
      rewrite Hpf, (push_nonempty _ reply Hne).
      eexists _, _. split; [reflexivity|]. split; [done|].
      split; [intros; discriminate|]. intros _.
      exists tbl1, tokens, after. split; [done|]. split; [done|].
      split; [by rewrite Hamt|]. lia.
Qed.

Lemma checkDailyFailures_enabled_witness :
  ∃ tbl' messages,
    checkDailyFailures Samples.clock Samples.last_token
      (Samples.user 1 true "complete") Samples.bad_log 10
      = Some (tbl', messages) ∧
    length messages
      = ((if (2 * total_score Samples.bad_log <? 10)%Z then 1 else 0)
         + (if tomorrow_locked Samples.bad_log then 0 else 1))%nat ∧
    (10 <= 2 * total_score Samples.bad_log →
     tomorrow_locked Samples.bad_log = true → tbl' = Samples.last_token) ∧
    (2 * total_score Samples.bad_log < 10 ∨ tomorrow_locked Samples.bad_log = false →
     ∃ tbl1 tokens after,
       getOrCreateWeekTokens Samples.clock Samples.last_token
         (user_id (Samples.user 1 true "complete")) = Some (tbl1, tokens) ∧
       getCurrentWeekTokens Samples.clock tbl'
         (user_id (Samples.user 1 true "complete")) = Some after ∧
       current_tokens after
         = Z.max 0 (current_tokens tokens
                    - ((if 2 * total_score Samples.bad_log <? 10 then 1 else 0)
                       + (if tomorrow_locked Samples.bad_log then 0 else 2))) ∧
       length (loss_events after)
         = (length (loss_events tokens)
            + ((if (2 * total_score Samples.bad_log <? 10)%Z then 1 else 0)
               + (if tomorrow_locked Samples.bad_log then 0 else 1)))%nat).
Proof.
  apply (checkDailyFailures_enabled Samples.clock Samples.last_token
           (Samples.user 1 true "complete") Samples.bad_log 10).
  - split; [apply NoDup_singleton|].
    apply Forall_singleton. split; simpl; [lia|].
    split; intros H; discriminate H.
  - reflexivity.
  - vm_compute. intros H. discriminate H.
Defined.

End LedgerWeeks.

(** ** Shame escalation: bounds *)

Section ShameBounds.
Import Db PhotoShame.

Lemma failedDays_cons (log : DailyLog) (logs : list DailyLog) :
  failedDays (log :: logs)
  = (if total_score log <? 5 then 1 else 0) + failedDays logs.
Proof.
  unfold failedDays. rewrite filter_cons.
  destruct (Z.ltb_spec (total_score log) 5).
  - rewrite decide_True by done. simpl length. lia.
  - rewrite decide_False by lia. lia.
Qed.

Lemma failedDays_bounds (logs : list DailyLog) :
  0 <= failedDays logs <= Z.of_nat (length logs).
Proof.
  induction logs as [|log logs IH]; [done|].
  rewrite failedDays_cons. simpl length.
  destruct (total_score log <? 5); lia.
Qed.

Lemma consecutive_le_failed (logs : list DailyLog) :
  0 <= countConsecutiveFailures logs <= failedDays logs.
Proof.
  induction logs as [|log logs IH]; [done|].
  rewrite failedDays_cons. simpl.
  pose proof (failedDays_bounds logs).
  destruct (total_score log <? 5); lia.
Qed.

(** X4. The streak counted by [countConsecutiveFailures] is the longest
    run of days below 5 at the head of the list: those days are all below 5,
    the day after them (if any) is not, and the streak is at most the number
    of failed days, which is at most the number of days. *)
Theorem countConsecutiveFailures_streak (logs : list DailyLog) :
  0 <= countConsecutiveFailures logs <= failedDays logs ∧
  failedDays logs <= Z.of_nat (length logs) ∧
  Forall (λ l, total_score l < 5)
    (take (Z.to_nat (countConsecutiveFailures logs)) logs) ∧
  (∀ l, logs !! Z.to_nat (countConsecutiveFailures logs) = Some l →
        5 <= total_score l).
Proof.
  split; [apply consecutive_le_failed|]. split; [apply failedDays_bounds|].
  induction logs as [|log logs [IH1 IH2]]; [by split|].
  pose proof (consecutive_le_failed logs) as [Hnn _]. simpl.
  destruct (Z.ltb_spec (total_score log) 5) as [Hlow|Hhigh].
  - replace (Z.to_nat (1 + countConsecutiveFailures logs))
      with (S (Z.to_nat (countConsecutiveFailures logs))) by lia.
    split; [by constructor | exact IH2].
  - split; [constructor|]. intros l [= <-]. exact Hhigh.
Qed.

(** X5. An escalation is never stronger than the level the user chose, its
    level is 1, 2 or 3, it always shows the baseline photo, and there is none
    unless some day of the window is below 5 or some miss reason was given at
    least twice. *)
Theorem determineShameEscalation_capped user (recentLogs : list DailyLog)
    (patterns : list Pattern) escalation :
  determineShameEscalation user recentLogs patterns = Some escalation →
  1 <= level escalation <= 3 ∧
  level escalation <= shame_level user ∧
  showBaseline escalation = true ∧
  (1 <= failedDays recentLogs ∨ repeatExcuse patterns).
Proof.
  unfold determineShameEscalation.
  destruct (shame_level user =? 0); [discriminate|].
  pose proof (repeatExcuse_filter patterns) as Hrep.
  pose proof (consecutive_le_failed recentLogs) as Hcons.
  unfold failedDays in *.
  set (fd := Z.of_nat (length (filter (λ l, total_score l < 5) recentLogs))) in *.
  set (cf := countConsecutiveFailures recentLogs) in *.
  set (re := Z.of_nat (length (filter (λ p, pattern_type p = "miss_reason"
                                       ∧ 2 <= frequency p) patterns))) in *.
  destruct ((1 <=? shame_level user) && (1 <=? fd) && (fd <=? 2)) eqn:H1.
  { intros [= <-]. simpl.
    apply andb_true_iff in H1 as [H1 _]. apply andb_true_iff in H1 as [H1 H1'].
    apply Z.leb_le in H1, H1'. split; [lia|]. split; [lia|]. split; [done|].
    left; lia. }
  destruct ((2 <=? shame_level user) && ((2 <=? cf) || (0 <? re))) eqn:H2.
  { intros [= <-]. simpl.
    apply andb_true_iff in H2 as [H2 H2']. apply Z.leb_le in H2.
    split; [lia|]. split; [lia|]. split; [done|].
    apply orb_true_iff in H2' as [H2'|H2'].
    - apply Z.leb_le in H2'. left; lia.
    - apply Z.ltb_lt in H2'. right. by apply Hrep. }
  destruct ((3 <=? shame_level user) && (4 <=? fd)) eqn:H3; [|discriminate].
  intros [= <-]. simpl.
  apply andb_true_iff in H3 as [H3 H3']. apply Z.leb_le in H3, H3'.
  split; [lia|]. split; [lia|]. split; [done|]. left; lia.
Qed.

Lemma determineShameEscalation_capped_witness :
  ∃ escalation,
    determineShameEscalation (Samples.user 3 true "complete")
      Samples.five_slips [] = Some escalation ∧
    1 <= level escalation <= 3 ∧
    level escalation <= shame_level (Samples.user 3 true "complete") ∧
    showBaseline escalation = true ∧
    (1 <= failedDays Samples.five_slips ∨ repeatExcuse []).
Proof.
  eexists. split; [reflexivity|].
  apply (determineShameEscalation_capped (Samples.user 3 true "complete")
           Samples.five_slips []).
  reflexivity.
Defined.

End ShameBounds.

(** ** Photos *)

Section PhotoProperties.
Import Db Photos.

Lemma latest_None (rows : list Photo) : latest rows = None ↔ rows = [].
Proof.
  destruct rows as [|r rest]; [done|]. simpl.
  destruct (latest rest) as [r'|]; [|done].
  by destruct (String.ltb _ _).
Qed.

(** X6. The first photo a user sends is stored as the baseline; once the
    user has a baseline, every photo is stored as a daily photo and the
    baseline rows stay as they are. Each message stores exactly one photo
    and leaves the photos of the other users. *)
Theorem handlePhotoMessage_baseline_once clk (tbl : list Photo) user mediaUrl :
  fresh_id clk ∉ (photo_id <$> tbl) →
  ∃ tbl' reply photo,
    handlePhotoMessage clk tbl user mediaUrl = Some (tbl', reply) ∧
    tbl' = tbl ++ [photo] ∧
    photo_user photo = user_id user ∧ url photo = mediaUrl ∧
    (photo_type photo = baseline ↔
     filter (λ r, photo_user r = user_id user ∧ photo_type r = baseline) tbl
       = []) ∧
    (filter (λ r, photo_user r = user_id user ∧ photo_type r = baseline) tbl
       ≠ [] →
     filter (λ r, photo_user r = user_id user ∧ photo_type r = baseline) tbl'
     = filter (λ r, photo_user r = user_id user ∧ photo_type r = baseline) tbl).
Proof.
  intros Hfresh. unfold handlePhotoMessage, getBaselinePhoto, savePhoto.
  destruct (latest _) as [b|] eqn:Hlatest; rewrite decide_True by done.
  - assert (filter (λ r, photo_user r = user_id user ∧ photo_type r = baseline)
              tbl ≠ []) as Hne.
    { intros Hnil. apply latest_None in Hnil. congruence. }
    eexists _, _, _. split; [reflexivity|]. split; [reflexivity|].
    simpl. split; [done|]. split; [done|]. split; [by split|].
    intros _. rewrite filter_app, filter_cons.
    rewrite decide_False; [by rewrite filter_nil, app_nil_r|].
    simpl. by intros [_ ?].
  - apply latest_None in Hlatest.
    eexists _, _, _. split; [reflexivity|]. split; [reflexivity|].
    simpl. split; [done|]. split; [done|]. split; [by split|]. done.
Qed.

Lemma handlePhotoMessage_baseline_once_witness :
  (fresh_id Samples.clock ∉ (photo_id <$> ([] : list Photo))) ∧
  ∃ tbl' reply photo,
    handlePhotoMessage Samples.clock [] (Samples.user 1 true "complete")
      "https://example.org/1.jpg" = Some (tbl', reply) ∧
    tbl' = [] ++ [photo] ∧
    photo_user photo = user_id (Samples.user 1 true "complete") ∧
    url photo = "https://example.org/1.jpg" ∧
    (photo_type photo = baseline ↔
     filter (λ r, photo_user r = user_id (Samples.user 1 true "complete")
                  ∧ photo_type r = baseline) [] = []) ∧
    (filter (λ r, photo_user r = user_id (Samples.user 1 true "complete")
                  ∧ photo_type r = baseline) [] ≠ [] →
     filter (λ r, photo_user r = user_id (Samples.user 1 true "complete")
                  ∧ photo_type r = baseline) tbl'
     = filter (λ r, photo_user r = user_id (Samples.user 1 true "complete")
                    ∧ photo_type r = baseline) []).
Proof.
  assert (fresh_id Samples.clock ∉ (photo_id <$> ([] : list Photo))) as Hfresh
    by apply not_elem_of_nil.
  split; [exact Hfresh|].
  exact (handlePhotoMessage_baseline_once Samples.clock []
           (Samples.user 1 true "complete") "https://example.org/1.jpg" Hfresh).
Defined.

End PhotoProperties.

(** ** Pattern memory *)

Section PatternMemory.
Import Db.

Lemma filter_fmap_key {Row Key : Type} `{EqDecision Key}
    (key : Row → Key) (f : Row → Row) (k : Key) (tbl : list Row) :
  (∀ r, key (f r) = key r) →
  filter (λ r, key r = k) (f <$> tbl) = f <$> filter (λ r, key r = k) tbl.
Proof.
  intros Hkey. induction tbl as [|x tbl IH]; [done|].
  rewrite fmap_cons, !filter_cons, Hkey.
  case_decide; [|done]. by rewrite fmap_cons, IH.
Qed.

(** X7. [recordPattern] counts exact repetitions: the row it returns has the
    given (user, type, content), and its frequency is 1 for a first
    occurrence and one more than before for a repetition; it is the row the
    next lookup finds; no second row of that content is created; the rows of
    other contents stay. *)
Theorem recordPattern_counts clk newId (tbl : list Pattern) userId patternType text :
  NoDup (pattern_id <$> tbl) → newId ∉ (pattern_id <$> tbl) →
  ∃ tbl' row,
    recordPattern clk newId tbl userId patternType text = Some (tbl', row) ∧
    pattern_key row = (userId, patternType, text) ∧
    frequency row
      = match head (filter (λ r, pattern_key r = (userId, patternType, text)) tbl)
        with
        | Some old => frequency old + 1
        | None => 1
        end ∧
    head (filter (λ r, pattern_key r = (userId, patternType, text)) tbl')
      = Some row ∧
    length (filter (λ r, pattern_key r = (userId, patternType, text)) tbl')
      = (length (filter (λ r, pattern_key r = (userId, patternType, text)) tbl)
         `max` 1)%nat ∧
    NoDup (pattern_id <$> tbl') ∧
    (∀ r, r ∈ tbl → pattern_key r ≠ (userId, patternType, text) → r ∈ tbl').
Proof.
  intros Hnd Hfresh. unfold recordPattern.
  destruct (head (filter _ tbl)) as [existing|] eqn:Hhead.
  - assert (existing ∈ tbl ∧ pattern_key existing = (userId, patternType, text))
      as [Hin Hkey].
    { apply head_Some_elem_of in Hhead.
      by apply list_elem_of_filter in Hhead as [? ?]. }
    set (bump := λ r, {| pattern_id := pattern_id r; pattern_user := pattern_user r;
                         pattern_type := pattern_type r; content := content r;
                         frequency := frequency r + 1; last_seen := now clk |}).
    set (f := λ r, if decide (pattern_id r = pattern_id existing)
                   then bump r else r).
    assert (∀ r, pattern_key (f r) = pattern_key r) as Hfkey
      by (intros r; unfold f; by case_decide).
    assert (∃ rest, filter (λ r, pattern_id r = pattern_id existing) tbl
                    = existing :: rest) as [rest Hf].
    { destruct (filter (λ r, pattern_id r = pattern_id existing) tbl)
        as [|r rest] eqn:Hf.
      - assert (existing ∈ filter (λ r, pattern_id r = pattern_id existing) tbl)
          as H by (apply list_elem_of_filter; done).
        rewrite Hf in H. by apply elem_of_nil in H.
      - assert (r ∈ filter (λ r, pattern_id r = pattern_id existing) tbl) as H
          by (rewrite Hf; apply elem_of_cons; by left).
        apply list_elem_of_filter in H as [Hid Hr].
        rewrite (key_inj pattern_id tbl r existing Hnd Hr Hin Hid). by eexists. }
    rewrite Hf. simpl. exists (f <$> tbl), (bump existing).
    split; [done|]. split; [done|]. split; [done|].
    split; [|split; [|split]].
    + rewrite (head_filter_fmap_key pattern_key) by done.
      rewrite Hhead. simpl. unfold f. by rewrite decide_True.
    + rewrite (filter_fmap_key pattern_key) by done. rewrite length_fmap.
      destruct (filter _ tbl); [discriminate | simpl; lia].
    + rewrite <- list_fmap_compose. erewrite list_fmap_ext; [exact Hnd|].
      intros i r _. simpl. unfold f. by case_decide.
    + intros r Hr Hne. apply list_elem_of_fmap. exists r. split; [|done].
      unfold f. rewrite decide_False; [done|]. intros Hid.
      apply Hne. by rewrite (key_inj pattern_id tbl r existing Hnd Hr Hin Hid).
  - rewrite decide_True by done. eexists _, _. split; [reflexivity|].
    apply head_None in Hhead.
    split; [done|]. split; [done|]. rewrite filter_app, Hhead. simpl.
    rewrite filter_cons, decide_True by done. simpl.
    split; [done|]. split; [done|]. split.
    + rewrite fmap_app. apply NoDup_app. split; [done|].
      split; [|apply NoDup_singleton].
      intros x Hx Hx'. apply list_elem_of_singleton in Hx'. by subst x.
    + intros r Hr _. apply elem_of_app. by left.
Qed.

Lemma recordPattern_counts_witness :
  NoDup (pattern_id <$> ([] : list Pattern)) ∧
  ∃ tbl' row,
    recordPattern Samples.clock "p1" [] "u1" "miss_reason" "worked late"
      = Some (tbl', row) ∧
    pattern_key row = ("u1", "miss_reason", "worked late") ∧
    frequency row
      = match head (filter (λ r, pattern_key r
                                 = ("u1", "miss_reason", "worked late")) [])
        with
        | Some old => frequency old + 1
        | None => 1
        end ∧
    head (filter (λ r, pattern_key r = ("u1", "miss_reason", "worked late")) tbl')
      = Some row ∧
    length (filter (λ r, pattern_key r = ("u1", "miss_reason", "worked late")) tbl')
      = (length (filter (λ r, pattern_key r
                              = ("u1", "miss_reason", "worked late")) [])
         `max` 1)%nat ∧
    NoDup (pattern_id <$> tbl') ∧
    (∀ r, r ∈ ([] : list Pattern) →
          pattern_key r ≠ ("u1", "miss_reason", "worked late") → r ∈ tbl').
Proof.
  split; [apply NoDup_nil_2|].
  apply (recordPattern_counts Samples.clock "p1" [] "u1" "miss_reason"
           "worked late").
  - apply NoDup_nil_2.
  - apply not_elem_of_nil.
Defined.

End PatternMemory.

(** ** Bad days *)

Section BadDayProperties.
Import Db BadDayFlow.

Lemma recordPattern_succeeds clk newId (tbl : list Pattern) userId patternType text :
  NoDup (pattern_id <$> tbl) → newId ∉ (pattern_id <$> tbl) →
  ∃ tbl' row,
    recordPattern clk newId tbl userId patternType text = Some (tbl', row) ∧
    row ∈ tbl' ∧ pattern_key row = (userId, patternType, text) ∧
    1 <= frequency row - match head (filter (λ r, pattern_key r
                                                  = (userId, patternType, text)) tbl)
                         with Some old => frequency old | None => 0 end.
Proof.
  intros Hnd Hfresh. unfold recordPattern.
  destruct (head (filter _ tbl)) as [existing|] eqn:Hhead.
  - assert (existing ∈ tbl ∧ pattern_key existing = (userId, patternType, text))
      as [Hin Hkey].
    { apply head_Some_elem_of in Hhead.
      by apply list_elem_of_filter in Hhead as [? ?]. }
    destruct (filter (λ r, pattern_id r = pattern_id existing) tbl)
      as [|r rest] eqn:Hf.
    { assert (existing ∈ filter (λ r, pattern_id r = pattern_id existing) tbl)
        as H by (apply list_elem_of_filter; done).
      rewrite Hf in H. by apply elem_of_nil in H. }
    assert (r ∈ filter (λ r, pattern_id r = pattern_id existing) tbl) as H
      by (rewrite Hf; apply elem_of_cons; by left).
    apply list_elem_of_filter in H as [Hid Hr].
    rewrite (key_inj pattern_id tbl r existing Hnd Hr Hin Hid) in *.
    simpl. eexists _, _. split; [reflexivity|]. split; [|split; [done|simpl; lia]].
    apply list_elem_of_fmap. exists existing. by rewrite decide_True.
  - rewrite decide_True by done. eexists _, _. split; [reflexivity|].
    split; [|split; [done|simpl; lia]].
    apply elem_of_app. right. by apply list_elem_of_singleton.
Qed.

(** Writing a note: the day's row carries the note and keeps its scores,
    its total, its lock and its plan. *)
Lemma note_written clk (logs : list DailyLog) userId date text :
  logs_ok logs →
  (select_log logs userId date = None → fresh_id clk ∉ (log_id <$> logs)) →
  ∃ logs' row,
    upsertDailyLog clk logs userId date (note_columns text) = Some (logs', row) ∧
    select_log logs' userId date = Some row ∧
    notes row = Some text ∧
    (∀ old, select_log logs userId date = Some old →
            scores row = scores old ∧ total_score row = total_score old ∧
            tomorrow_locked row = tomorrow_locked old ∧
            tomorrow_plan row = tomorrow_plan old ∧
            miss_reason row = miss_reason old).
Proof.
  intros Hok Hfresh.
  assert (keeps_key (note_columns text)
          ∧ log_update_empty (note_columns text) = false) as [Hkeep Hne] by done.
  destruct (upsertDailyLog_succeeds clk logs userId date (note_columns text)
              Hok Hkeep Hfresh (λ _, Hne)) as [[logs' row] Hup].
  destruct (upsertDailyLog_again _ _ _ _ _ _ _ Hok Hkeep Hne Hup)
    as (_ & Hsel & Hrow & _).
  exists logs', row. split; [done|]. split; [done|].
  split; [by rewrite <- Hrow|].
  intros old Hold.
  rewrite (upsertDailyLog_existing _ _ _ _ _ old Hok Hkeep Hne Hold) in Hup.
  by injection Hup as _ <-.
Qed.

Lemma downshift_note_detected (text : string) :
  isDownshiftDay (Some ("DOWNSHIFT" +:+ text)) = true.
Proof. reflexivity. Qed.

(** X8. After a declared bad day, and again after the completion of a
    downshift day, the notes of today's log are recognised by
    [isDownshiftDay]; the scores, the total, the lock and the plan of an
    existing row of today stay, and the reason is in the pattern memory
    under bad_day. *)
Theorem handleBadDay_marks_downshift clk (pats : list Pattern)
    (logs : list DailyLog) user contract reason :
  logs_ok logs → NoDup (pattern_id <$> pats) →
  fresh_id_2 clk ∉ (pattern_id <$> pats) →
  (select_log logs (user_id user) (js_today clk) = None →
   fresh_id clk ∉ (log_id <$> logs)) →
  ∃ pats' logs' reply row pattern,
    handleBadDay clk pats logs user contract reason
      = ((pats', logs'), Some reply) ∧
    select_log logs' (user_id user) (js_today clk) = Some row ∧
    isDownshiftDay (notes row) = true ∧
    (∀ old, select_log logs (user_id user) (js_today clk) = Some old →
            scores row = scores old ∧ total_score row = total_score old ∧
            tomorrow_locked row = tomorrow_locked old ∧
            tomorrow_plan row = tomorrow_plan old ∧
            miss_reason row = miss_reason old) ∧
    pattern ∈ pats' ∧
    pattern_key pattern
      = (user_id user, "bad_day", orDefault reason "declared bad day") ∧
    (∀ clk' pats2 done,
       NoDup (pattern_id <$> pats2) → fresh_id_2 clk' ∉ (pattern_id <$> pats2) →
       js_today clk' = js_today clk →
       ∃ pats3 logs3 reply3 row3,
         handleDownshiftCompletion clk' pats2 logs' user done
           = ((pats3, logs3), Some reply3) ∧
         select_log logs3 (user_id user) (js_today clk) = Some row3 ∧
         isDownshiftDay (notes row3) = true ∧
         total_score row3 = total_score row).
Proof.
  intros Hok Hnd Hfresh2 Hfresh. unfold handleBadDay.
  destruct (recordPattern_succeeds clk (fresh_id_2 clk) pats (user_id user)
              "bad_day" (orDefault reason "declared bad day") Hnd Hfresh2)
    as (pats' & pattern & -> & Hin & Hkey & _).
  destruct (note_written clk logs (user_id user) (js_today clk)
              ("DOWNSHIFT: " +:+ orDefault reason "bad day declared") Hok Hfresh)
    as (logs' & row & Hup & Hsel & Hnotes & Hframe).
  rewrite Hup. exists pats', logs'. eexists _, row, pattern.
  split; [reflexivity|]. split; [done|].
  split; [rewrite Hnotes; apply (downshift_note_detected (": " +:+ _))|].
  split; [done|]. split; [done|]. split; [done|].
  intros clk' pats2 done Hnd2 Hfresh2' Htoday.
  unfold handleDownshiftCompletion. rewrite Htoday.
  destruct (recordPattern_succeeds clk' (fresh_id_2 clk') pats2 (user_id user)
              "downshift_completion" done Hnd2 Hfresh2')
    as (pats3 & p3 & -> & _).
  assert (logs_ok logs') as Hok'.
  { assert (keeps_key (note_columns ("DOWNSHIFT: " +:+
                                     orDefault reason "bad day declared"))
            ∧ log_update_empty (note_columns ("DOWNSHIFT: " +:+
                                   orDefault reason "bad day declared")) = false)
      as [Hkeep Hne] by done.
    by destruct (upsertDailyLog_again _ _ _ _ _ _ _ Hok Hkeep Hne Hup) as [? _]. }
  destruct (note_written clk' logs' (user_id user) (js_today clk)
              ("DOWNSHIFT completed: " +:+ done) Hok')
    as (logs3 & row3 & Hup3 & Hsel3 & Hnotes3 & Hframe3).
  { rewrite Hsel. discriminate. }
  rewrite Hup3. exists pats3, logs3. eexists _, row3.
  split; [reflexivity|]. split; [done|].
  split; [rewrite Hnotes3; apply (downshift_note_detected (" completed: " +:+ _))|].
  by destruct (Hframe3 row Hsel) as (_ & ? & _).
Qed.

End BadDayProperties.

Section CalorieTarget.
Import Db BadDayFlow.

Lemma handleBadDay_marks_downshift_witness :
  ∃ pats' logs' reply row,
    handleBadDay Samples.clock [] [Samples.bad_log]
      (Samples.user 1 true "complete") Samples.contract (Some "rough day")
      = ((pats', logs'), Some reply) ∧
    select_log logs' "u1" "2025-03-05" = Some row ∧
    isDownshiftDay (notes row) = true.
Proof.
  destruct (handleBadDay_marks_downshift Samples.clock [] [Samples.bad_log]
              (Samples.user 1 true "complete") Samples.contract
              (Some "rough day"))
    as (pats' & logs' & reply & row & pattern & Hrun & Hsel & Hmark & _).
  - split; apply NoDup_singleton.
  - apply NoDup_nil_2.
  - apply not_elem_of_nil.
  - vm_compute. intros H. discriminate H.
  - exists pats', logs', reply, row. split; [exact Hrun|].
    split; [exact Hsel | exact Hmark].
Defined.

Lemma digitValue_bounds (c : ascii) :
  Js.isDigit c = true → 0 <= JsNum.digitValue c <= 9.
Proof.
  unfold Js.isDigit, JsNum.digitValue. intros H.
  apply andb_true_iff in H as [H1 H2].
  apply Nat.leb_le in H1, H2. lia.
Qed.

Lemma digitsValue_bounds (d : string) (acc : Z) :
  String.length (JsNum.leadingDigits d) = String.length d → 0 <= acc →
  10 ^ Z.of_nat (String.length d) * acc <= JsNum.digitsValue acc d
  <= 10 ^ Z.of_nat (String.length d) * (acc + 1) - 1.
Proof.
  revert acc. induction d as [|c d IH]; intros acc Hall Hacc.
  - simpl. lia.
  - simpl in Hall. destruct (Js.isDigit c) eqn:Hc; [|discriminate].
    simpl in Hall. injection Hall as Hall.
    pose proof (digitValue_bounds c Hc) as Hd.
    specialize (IH (10 * acc + JsNum.digitValue c) Hall ltac:(lia)).
    cbn [JsNum.digitsValue String.length].
    rewrite Nat2Z.inj_succ, Z.pow_succ_r by lia.
    assert (0 < 10 ^ Z.of_nat (String.length d)) by (apply Z.pow_pos_nonneg; lia).
    nia.
Qed.

Lemma digitsAt_Some (n : nat) (s d : string) :
  JsNum.digitsAt n s = Some d →
  String.length d = n ∧ String.length (JsNum.leadingDigits d) = String.length d.
Proof.
  unfold JsNum.digitsAt. intros H.
  destruct (bool_decide _ && bool_decide _) eqn:Hb; [|discriminate].
  injection H as <-. apply andb_true_iff in Hb as [H1 H2].
  apply bool_decide_eq_true in H1, H2. split; [done | congruence].
Qed.

Lemma firstDigitRun_bounds (s d : string) :
  firstDigitRun s = Some d → 0 <= JsNum.digitsValue 0 d <= 9999.
Proof.
  induction s as [|c s IH]; simpl.
  - destruct (JsNum.digitsAt 4 EmptyString) eqn:H4; [discriminate|].
    by destruct (JsNum.digitsAt 3 EmptyString).
  - destruct (JsNum.digitsAt 4 (String c s)) as [d4|] eqn:H4.
    { intros [= <-]. apply digitsAt_Some in H4 as [Hlen Hall].
      pose proof (digitsValue_bounds d4 0 Hall ltac:(lia)) as Hb.
      rewrite Hlen in Hb. simpl in Hb. lia. }
    destruct (JsNum.digitsAt 3 (String c s)) as [d3|] eqn:H3; [|exact IH].
    intros [= <-]. apply digitsAt_Some in H3 as [Hlen Hall].
    pose proof (digitsValue_bounds d3 0 Hall ltac:(lia)) as Hb.
    rewrite Hlen in Hb. simpl in Hb. lia.
Qed.

(** X9. The calorie target read from a contract is between 0 and 9999, and
    it is 2000 when no action has calorie in its name; the downshift target,
    a quarter more rounded to the nearest integer, is never below it. *)
Theorem extractCalorieTarget_bounds (contract : Contract) :
  0 <= extractCalorieTarget contract <= 9999 ∧
  ((∀ a, a ∈ binary_actions contract →
         Js.includes (Js.toLowerCase (action_name a)) "calorie" = false) →
   extractCalorieTarget contract = 2000) ∧
  extractCalorieTarget contract <= downshiftCalories (extractCalorieTarget contract)
  ∧ 4 * downshiftCalories (extractCalorieTarget contract)
    <= 5 * extractCalorieTarget contract + 2.
Proof.
  assert (0 <= extractCalorieTarget contract <= 9999) as Hb.
  { unfold extractCalorieTarget.
    destruct (List.find _ _ ≫= threshold) as [text|]; [|lia].
    destruct (firstDigitRun text) as [d|] eqn:Hd; [|lia].
    by apply firstDigitRun_bounds in Hd. }
  split; [exact Hb|]. split.
  - intros Hnone. unfold extractCalorieTarget.
    destruct (List.find _ _) as [a|] eqn:Hfind; [|done].
    apply find_some in Hfind as [Hin Htrue].
    apply list_elem_of_In in Hin. rewrite (Hnone a Hin) in Htrue. discriminate.
  - unfold downshiftCalories.
    pose proof (Z.div_mod (5 * extractCalorieTarget contract + 2) 4 ltac:(lia)).
    pose proof (Z.mod_pos_bound (5 * extractCalorieTarget contract + 2) 4 ltac:(lia)).
    lia.
Qed.

(** Only the first four digits of a threshold are read. *)
Example extractCalorieTarget_long_number :
  extractCalorieTarget
    {| contract_id := "c2"; contract_user := "u1"; goal := "bulk";
       binary_actions :=
         [ {| action_name := "Calories"; threshold := Some "over 12000 kJ";
              points := 2 |} ];
       rules_text := None; active := true |} = 1200.
Proof. reflexivity. Qed.

End CalorieTarget.

(** ** Nightly lock: the whole flow *)

Section NightlyFlow.
Import Db NightlyLock.

Variable parseTomorrowPlan : string → TomorrowPlan.
Variable timeMatch : string → option string.

(** X10. A nightly-lock session ends in one way only: when a call of
    [handleNightlyLock] leaves the user without a session, the session was
    at the confirm step and the message was LOCKED (cases and surrounding
    white space ignored). *)
Theorem nightly_session_ends_only_locked clk (w : Store) user contract message :
  nightlyLockState
    (handleNightlyLock parseTomorrowPlan timeMatch clk w user contract message).1
    !! user_id user = None →
  ∃ state,
    nightlyLockState w !! user_id user = Some state ∧
    step state = step_confirm ∧
    Js.toUpperCase (Js.trim message) = "LOCKED".
Proof.
  unfold handleNightlyLock.
  destruct (nightlyLockState w !! user_id user) as [state|] eqn:Hstate; simpl;
    [|by rewrite lookup_insert_eq].
  destruct (step state) eqn:Hstep.
  - simpl. by rewrite lookup_insert_eq.
  - unfold handleScoring.
    destruct (classify _ _) as [completedItems missed].
    destruct (scoreActions _ _) as [scores total].
    destruct (upsertDailyLog _ _ _ _ _) as [[tbl' ?]|]; simpl.
    + destruct (0 <? length missed)%nat; simpl; by rewrite lookup_insert_eq.
    + by rewrite Hstate.
  - unfold handleMissReason. simpl.
    destruct (recordPattern _ _ _ _ _ _) as [[tbl1 ?]|]; simpl;
      [|by rewrite lookup_insert_eq].
    destruct (timeMatch message) as [time|]; simpl.
    + destruct (recordPattern _ _ _ _ _ _) as [[tbl2 ?]|]; simpl;
        by rewrite lookup_insert_eq.
    + by rewrite lookup_insert_eq.
  - simpl. by rewrite lookup_insert_eq.
  - unfold handleConfirm. case_bool_decide as Hlocked.
    + intros _. by exists state.
    + simpl. by rewrite lookup_insert_eq.
Qed.

(** The confirmed lock, step by step. *)
Lemma handleConfirm_locked clk (w : Store) user message state :
  logs_ok (daily_logs w) →
  (select_log (daily_logs w) (user_id user) (js_today clk) = None →
   fresh_id clk ∉ (log_id <$> daily_logs w)) →
  Js.toUpperCase (Js.trim message) = "LOCKED" →
  ∃ w' reply row,
    handleConfirm clk w user message state = (w', Some reply) ∧
    nightlyLockState w' = delete (user_id user) (nightlyLockState w) ∧
    patterns w' = patterns w ∧
    select_log (daily_logs w') (user_id user) (js_today clk) = Some row ∧
    tomorrow_locked row = true ∧
    tomorrow_plan row = tomorrowPlan state ∧
    miss_reason row
      = Some (match missReason state with
              | Some reason => if Js.isEmpty reason then "null" else reason
              | None => "null"
              end) ∧
    (∀ old, select_log (daily_logs w) (user_id user) (js_today clk) = Some old →
            scores row = scores old ∧ total_score row = total_score old ∧
            notes row = notes old) ∧
    (∀ date, date ≠ js_today clk →
             select_log (daily_logs w') (user_id user) date
             = select_log (daily_logs w) (user_id user) date).
Proof.
  intros Hok Hfresh Hlocked. unfold handleConfirm.
  rewrite bool_decide_eq_true_2 by done.
  assert (keeps_key (lock_columns state)
          ∧ log_update_empty (lock_columns state) = false) as [Hkeep Hne] by done.
  destruct (upsertDailyLog_succeeds clk (daily_logs w) (user_id user)
              (js_today clk) (lock_columns state) Hok Hkeep Hfresh (λ _, Hne))
    as [[logs' row] Hup].
  destruct (upsertDailyLog_again _ _ _ _ _ _ _ Hok Hkeep Hne Hup)
    as (_ & Hsel & Hrow & _).
  rewrite Hup. eexists _, _, row. split; [reflexivity|]. simpl.
  split; [done|]. split; [done|]. split; [done|].
  split; [by rewrite <- Hrow|]. split; [by rewrite <- Hrow|]. split.
  - rewrite <- Hrow. simpl.
    destruct (missReason state) as [reason|]; [|done].
    by destruct (Js.isEmpty reason).
  - split.
    + intros old Hold.
      rewrite (upsertDailyLog_existing _ _ _ _ _ old Hok Hkeep Hne Hold) in Hup.
      by injection Hup as _ <-.
    + intros date Hdate.
      apply (upsertDailyLog_other _ _ _ _ _ _ _ _ _ Hkeep Hup). congruence.
Qed.

(** X11. From the planning step, a plan message followed by LOCKED locks
    the day of the lock (its UTC date, which the code reads from the
    JavaScript clock): the session is gone, the log of that day is locked
    with the plan parsed from the plan message and keeps its scores and
    total. The morning message reads the row of the database's yesterday:
    it is the reminder of exactly that plan when that yesterday is the day
    of the lock, and for every other yesterday it is what it was before the
    lock. *)
Theorem plan_then_locked clk (w : Store) user contract state
    planMessage lockMessage :
  nightlyLockState w !! user_id user = Some state →
  step state = step_planning →
  logs_ok (daily_logs w) →
  (select_log (daily_logs w) (user_id user) (js_today clk) = None →
   fresh_id clk ∉ (log_id <$> daily_logs w)) →
  Js.toUpperCase (Js.trim lockMessage) = "LOCKED" →
  ∃ w1 reply1 w2 reply2 row,
    handleNightlyLock parseTomorrowPlan timeMatch clk w user contract planMessage
      = (w1, Some reply1) ∧
    handleNightlyLock parseTomorrowPlan timeMatch clk w1 user contract lockMessage
      = (w2, Some reply2) ∧
    nightlyLockState w2 !! user_id user = None ∧
    select_log (daily_logs w2) (user_id user) (js_today clk) = Some row ∧
    tomorrow_locked row = true ∧
    tomorrow_plan row = Some (parseTomorrowPlan planMessage) ∧
    (∀ old, select_log (daily_logs w) (user_id user) (js_today clk) = Some old →
            scores row = scores old ∧ total_score row = total_score old) ∧
    (∀ yesterday,
       (yesterday = js_today clk →
        Morning.generateMorningMessage (daily_logs w2) user yesterday
        = Morning.reminder (parseTomorrowPlan planMessage)) ∧
       (yesterday ≠ js_today clk →
        Morning.generateMorningMessage (daily_logs w2) user yesterday
        = Morning.generateMorningMessage (daily_logs w) user yesterday)).
Proof.
  intros Hstate Hstep Hok Hfresh Hlocked.
  unfold handleNightlyLock at 1. rewrite Hstate. simpl. rewrite Hstep.
  unfold handlePlanning.
  set (state1 := {| step := step_confirm; todayScores := todayScores state;
                    missedItems := missedItems state;
                    missReason := missReason state;
                    tomorrowPlan := Some (parseTomorrowPlan planMessage) |}).
  set (w1 := set_session (user_id user) state1 w).
  destruct (handleConfirm_locked clk w1 user lockMessage state1 Hok Hfresh Hlocked)
    as (w2 & reply2 & row & Hrun & Hses & _ & Hsel & Hlock & Hplan & _ & Hframe
        & Hother).
  eexists w1, _, w2, reply2, row. split; [reflexivity|]. split.
  { unfold handleNightlyLock. subst w1. simpl. rewrite lookup_insert_eq.
    simpl. exact Hrun. }
  split; [rewrite Hses; apply lookup_delete_eq|]. split; [done|].
  split; [done|]. split; [done|]. split.
  - intros old Hold. by destruct (Hframe old Hold) as (? & ? & _).
  - intros yesterday. split.
    + intros ->. unfold Morning.generateMorningMessage, Morning.getYesterdayLog.
      by rewrite Hsel, Hlock, Hplan.
    + intros Hdate.
      unfold Morning.generateMorningMessage, Morning.getYesterdayLog.
      by rewrite (Hother yesterday Hdate).
Qed.

(** X12. A locked night never stores an empty miss reason: without a
    reason, or with an empty one, the column miss_reason holds the text
    null, since the [null] of JavaScript goes through [JSON.stringify]. *)
Theorem handleConfirm_miss_reason_text clk (w : Store) user message state :
  logs_ok (daily_logs w) →
  (select_log (daily_logs w) (user_id user) (js_today clk) = None →
   fresh_id clk ∉ (log_id <$> daily_logs w)) →
  Js.toUpperCase (Js.trim message) = "LOCKED" →
  ∃ w' reply row text,
    handleConfirm clk w user message state = (w', Some reply) ∧
    select_log (daily_logs w') (user_id user) (js_today clk) = Some row ∧
    miss_reason row = Some text ∧ Js.isEmpty text = false ∧
    (missReason state = None → text = "null") ∧
    (∀ reason, missReason state = Some reason → Js.isEmpty reason = false →
               text = reason) ∧
    (∀ reason, missReason state = Some reason → Js.isEmpty reason = true →
               text = "null").
Proof.
  intros Hok Hfresh Hlocked.
  destruct (handleConfirm_locked clk w user message state Hok Hfresh Hlocked)
    as (w' & reply & row & Hrun & _ & _ & Hsel & _ & _ & Hmiss & _ & _).
  eexists w', reply, row, _. split; [done|]. split; [done|].
  split; [exact Hmiss|].
  destruct (missReason state) as [reason|]; [|done].
  destruct (Js.isEmpty reason) eqn:Hempty.
  - split; [reflexivity|]. split; [done|].
    split; [intros ? [= <-] ?; congruence | by intros ? [= <-] _].
  - split; [done|]. split; [done|].
    split; [by intros ? [= <-] | intros ? [= <-] ?; congruence].
Qed.

End NightlyFlow.

Section NightlyFlowWitnesses.
Import Db NightlyLock.

Lemma nightly_session_ends_only_locked_witness :
  ∃ state,
    nightlyLockState MoreSamples.in_confirm !! "u1" = Some state ∧
    step state = step_confirm ∧
    Js.toUpperCase (Js.trim " locked ") = "LOCKED".
Proof.
  apply (nightly_session_ends_only_locked MoreSamples.default_plan
           MoreSamples.no_time Samples.clock MoreSamples.in_confirm
           (Samples.user 1 true "complete") Samples.contract " locked ").
  vm_compute. reflexivity.
Defined.

Lemma plan_then_locked_witness :
  ∃ w2 row,
    nightlyLockState w2 !! "u1" = None ∧
    select_log (daily_logs w2) "u1" "2025-03-05" = Some row ∧
    tomorrow_locked row = true ∧ total_score row = 2 ∧
    Morning.generateMorningMessage (daily_logs w2)
      (Samples.user 1 true "complete") "2025-03-05"
      = Morning.reminder (MoreSamples.default_plan "walk at 7") ∧
    Morning.generateMorningMessage (daily_logs w2)
      (Samples.user 1 true "complete") "2025-03-04"
      = Morning.not_locked_message.
Proof.
  destruct (plan_then_locked MoreSamples.default_plan MoreSamples.no_time
              Samples.clock MoreSamples.in_planning
              (Samples.user 1 true "complete") Samples.contract
              {| step := step_planning;
                 todayScores := Some {[ "calories" := 2 ]};
                 missedItems := Some ["protein"];
                 missReason := Some "worked late";
                 tomorrowPlan := None |}
              "walk at 7" "Locked")
    as (w1 & reply1 & w2 & reply2 & row & _ & _ & Hgone & Hsel & Hlock & _
        & Hframe & Hmorning).
  - reflexivity.
  - reflexivity.
  - split; apply NoDup_singleton.
  - vm_compute. intros H. discriminate H.
  - reflexivity.
  - exists w2, row. split; [exact Hgone|]. split; [exact Hsel|].
    split; [exact Hlock|]. split.
    + by destruct (Hframe Samples.bad_log eq_refl) as [_ ->].
    + split.
      * exact (proj1 (Hmorning "2025-03-05") eq_refl).
      * rewrite (proj2 (Hmorning "2025-03-04")) by discriminate. reflexivity.
Defined.

Lemma handleConfirm_miss_reason_text_witness :
  ∃ w' row,
    select_log (daily_logs w') "u1" "2025-03-05" = Some row ∧
    miss_reason row = Some "null".
Proof.
  destruct (handleConfirm_miss_reason_text Samples.clock MoreSamples.in_confirm
              (Samples.user 1 true "complete") "LOCKED"
              (state_at step_confirm))
    as (w' & reply & row & text & _ & Hsel & Hmiss & _ & Hnull & _).
  - split; apply NoDup_singleton.
  - vm_compute. intros H. discriminate H.
  - reflexivity.
  - exists w', row. split; [exact Hsel|]. by rewrite Hmiss, (Hnull eq_refl).
Defined.

End NightlyFlowWitnesses.

(** ** Nightly lock: scoring free text *)

Section ScoringFreeText.
Import Db NightlyLock.

Lemma sortActions_grows (hit : BinaryAction → bool) (actions : list BinaryAction)
    (completedItems missed : list string) :
  ∃ completed' missed',
    sortActions hit actions (completedItems, missed)
      = (completedItems ++ completed', missed ++ missed') ∧
    (∀ a, a ∈ actions → hit a = false → action_name a ∈ missed') ∧
    (∀ a, a ∈ actions → hit a = true → action_name a ∈ completed') ∧
    (∀ name, name ∈ completed' →
             ∃ a, a ∈ actions ∧ hit a = true ∧ action_name a = name).
Proof.
  revert completedItems missed.
  induction actions as [|x l IH]; intros completedItems missed.
  - exists [], []. rewrite !app_nil_r. split; [done|].
    split; [|split]; intros ? H; by apply elem_of_nil in H.
  - unfold sortActions in *. simpl. destruct (hit x) eqn:Hx.
    + destruct (IH (completedItems ++ [action_name x]) missed)
        as (c' & m' & -> & Hm & Hc & Hback).
      exists (action_name x :: c'), m'. rewrite <- app_assoc. split; [done|].
      split; [|split].
      * intros a Ha Hhit. apply elem_of_cons in Ha as [->|Ha];
          [congruence | by apply Hm].
      * intros a Ha Hhit. apply elem_of_cons in Ha as [->|Ha];
          [apply elem_of_cons; by left | apply elem_of_cons; right; by apply Hc].
      * intros name Hn. apply elem_of_cons in Hn as [->|Hn].
        -- exists x. split; [apply elem_of_cons; by left | done].
        -- destruct (Hback name Hn) as (a & ? & ? & ?).
           exists a. split; [apply elem_of_cons; by right | done].
    + destruct (IH completedItems (missed ++ [action_name x]))
        as (c' & m' & -> & Hm & Hc & Hback).
      exists c', (action_name x :: m'). rewrite <- app_assoc. split; [done|].
      split; [|split].
      * intros a Ha Hhit. apply elem_of_cons in Ha as [->|Ha];
          [apply elem_of_cons; by left | apply elem_of_cons; right; by apply Hm].
      * intros a Ha Hhit. apply elem_of_cons in Ha as [->|Ha];
          [congruence | by apply Hc].
      * intros name Hn. destruct (Hback name Hn) as (a & ? & ? & ?).
        exists a. split; [apply elem_of_cons; by right | done].
Qed.

Lemma scoreActions_other (completedItems : list string)
    (actions : list BinaryAction) (m m' : gmap string Z) (t t' : Z)
    (name : string) :
  name ∉ (action_name <$> actions) →
  foldl (λ '(scores, totalScore) a,
           if listIncludes completedItems (action_name a)
           then (Js.setProp (action_name a) (points a) scores,
                 totalScore + points a)
           else (Js.setProp (action_name a) 0 scores, totalScore))
        (m, t) actions = (m', t') →
  m' !! name = m !! name.
Proof.
  revert m t. induction actions as [|y l IH]; intros m t Hnot Hf.
  - by injection Hf as <- _.
  - rewrite fmap_cons in Hnot. apply not_elem_of_cons in Hnot as [Hy Hnot].
    simpl in Hf.
    destruct (listIncludes completedItems (action_name y));
      rewrite (IH _ _ Hnot Hf); by apply lookup_setProp_ne.
Qed.

(** With distinct names, a completed action has its full points in the
    scores object. *)
Lemma scoreActions_credit (completedItems : list string)
    (actions : list BinaryAction) (m m' : gmap string Z) (t t' : Z)
    (a : BinaryAction) :
  NoDup (action_name <$> actions) → a ∈ actions →
  action_name a ∈ completedItems → action_name a ≠ "__proto__" →
  foldl (λ '(scores, totalScore) a,
           if listIncludes completedItems (action_name a)
           then (Js.setProp (action_name a) (points a) scores,
                 totalScore + points a)
           else (Js.setProp (action_name a) 0 scores, totalScore))
        (m, t) actions = (m', t') →
  m' !! action_name a = Some (points a).
Proof.
  revert m t. induction actions as [|x l IH]; intros m t Hnd Ha Hdone Hname Hf.
  - by apply elem_of_nil in Ha.
  - rewrite fmap_cons in Hnd. apply NoDup_cons in Hnd as [Hx Hnd].
    simpl in Hf. apply elem_of_cons in Ha as [->|Ha].
    + assert (listIncludes completedItems (action_name x) = true) as Hinc
        by (by apply bool_decide_eq_true_2).
      rewrite Hinc in Hf.
      rewrite (scoreActions_other _ _ _ _ _ _ _ Hx Hf).
      by apply lookup_setProp_eq.
    + destruct (listIncludes completedItems (action_name x)); by eapply IH.
Qed.

(** X13. When the answer is neither all nor none and names no action
    directly, the word-overlap pass credits the actions it recognises, but
    every action of the contract stays in the missed list of the first pass:
    the flow asks for a miss reason even when every action was credited.
    (The credit shows in the stored scores for every name but __proto__,
    which names no own property of the scores object.) *)
Theorem handleScoring_fallback_asks_reason clk (w : Store) user contract
    message state :
  logs_ok (daily_logs w) →
  (select_log (daily_logs w) (user_id user) (js_today clk) = None →
   fresh_id clk ∉ (log_id <$> daily_logs w)) →
  Js.toLowerCase message ≠ "all" → Js.toLowerCase message ≠ "none" →
  binary_actions contract ≠ [] →
  (∀ a, a ∈ binary_actions contract →
        mentioned (Js.toLowerCase message) a = false) →
  ∃ w' row session missed,
    handleScoring clk w user contract message state
      = (w', Some (nightly_lock_reason missed)) ∧
    nightlyLockState w' !! user_id user = Some session ∧
    step session = step_miss_reason ∧
    missedItems session = Some missed ∧
    (∀ a, a ∈ binary_actions contract → action_name a ∈ missed) ∧
    select_log (daily_logs w') (user_id user) (js_today clk) = Some row ∧
    (NoDup (action_name <$> binary_actions contract) →
     ∀ a, a ∈ binary_actions contract →
          overlaps (longWords (Js.toLowerCase message)) a = true →
          action_name a ≠ "__proto__" →
          scores row !! action_name a = Some (points a)).
Proof.
  intros Hok Hfresh Hall Hnone Hne Hdirect.
  set (lower := Js.toLowerCase message) in *.
  destruct (sortActions_grows (mentioned lower) (binary_actions contract) [] [])
    as (c1 & m1 & Hfirst & Hm1 & _ & Hback1).
  assert (c1 = []) as ->.
  { destruct c1 as [|name c1]; [done|].
    destruct (Hback1 name) as (a & Ha & Hhit & _); [apply elem_of_cons; by left|].
    rewrite (Hdirect a Ha) in Hhit. discriminate. }
  simpl in Hfirst.
  destruct (sortActions_grows (overlaps (longWords lower))
              (binary_actions contract) [] m1)
    as (c2 & m2 & Hsecond & _ & Hc2 & _).
  simpl in Hsecond.
  assert (classify lower (binary_actions contract) = (c2, m1 ++ m2)) as Hcl.
  { unfold classify. rewrite !bool_decide_eq_false_2 by done.
    rewrite Hfirst. simpl. exact Hsecond. }
  subst lower.
  destruct (scoreActions c2 (binary_actions contract)) as [scores total] eqn:Hsc.
  destruct (handleScoring_run clk w user contract message state c2 (m1 ++ m2)
              scores total Hok Hfresh Hcl Hsc)
    as (w' & reply & row & session & Hrun & Hsel & Hscores & _ & Hses & Hmiss
        & Hstep).
  assert (∀ a, a ∈ binary_actions contract → action_name a ∈ m1 ++ m2) as Hin.
  { intros a Ha. apply elem_of_app. left. by apply Hm1, Hdirect. }
  assert ((0 <? length (m1 ++ m2))%nat = true) as Hpos.
  { destruct (binary_actions contract) as [|a l] eqn:Hactions; [done|].
    assert (action_name a ∈ m1 ++ m2) as H
      by (apply Hin, elem_of_cons; by left).
    destruct (m1 ++ m2); [by apply elem_of_nil in H | done]. }
  rewrite Hpos in Hstep.
  exists w', row, session, (m1 ++ m2).
  split.
  { rewrite Hrun. unfold handleScoring in Hrun. rewrite Hcl, Hsc in Hrun.
    destruct (upsertDailyLog _ _ _ _ _) as [[? ?]|]; [|discriminate].
    rewrite Hpos in Hrun. by injection Hrun as _ <-. }
  split; [done|]. split; [done|]. split; [done|]. split; [done|].
  split; [done|].
  intros Hnd a Ha Hover Hname. rewrite Hscores.
  by apply (scoreActions_credit c2 (binary_actions contract) ∅ scores 0 total a);
    [ | | apply Hc2 | | ].
Qed.

End ScoringFreeText.

Section ScoringFreeTextWitness.
Import Db NightlyLock.

Lemma handleScoring_fallback_asks_reason_witness :
  ∃ w' row session missed,
    handleScoring Samples.clock Samples.in_scoring
      (Samples.user 1 true "complete") Samples.contract "cal and pro"
      (state_at step_scoring) = (w', Some (nightly_lock_reason missed)) ∧
    step session = step_miss_reason ∧
    "calories" ∈ missed ∧
    select_log (daily_logs w') "u1" "2025-03-05" = Some row ∧
    scores row !! "calories" = Some 2.
Proof.
  destruct (handleScoring_fallback_asks_reason Samples.clock Samples.in_scoring
              (Samples.user 1 true "complete") Samples.contract "cal and pro"
              (state_at step_scoring))
    as (w' & row & session & missed & Hrun & _ & Hstep & _ & Hmissed & Hsel
        & Hcredit).
  - split; apply NoDup_singleton.
  - vm_compute. intros H. discriminate H.
  - vm_compute. intros H. discriminate H.
  - vm_compute. intros H. discriminate H.
  - discriminate.
  - intros a Ha.
    repeat (apply elem_of_cons in Ha as [->|Ha]; [reflexivity|]).
    by apply elem_of_nil in Ha.
  - exists w', row, session, missed. split; [exact Hrun|]. split; [exact Hstep|].
    split.
    + apply (Hmissed {| action_name := "calories"; threshold := Some "under 2000";
                        points := 2 |}).
      apply elem_of_cons. by left.
    + split; [exact Hsel|].
      assert (NoDup (action_name <$> binary_actions Samples.contract)) as Hnd
        by (apply (bool_decide_unpack _); vm_compute; exact I).
      apply (Hcredit Hnd
               {| action_name := "calories"; threshold := Some "under 2000";
                  points := 2 |}).
      * apply elem_of_cons. by left.
      * reflexivity.
      * discriminate.
Defined.

End ScoringFreeTextWitness.

(** ** Nightly lock: the total and the scores *)

Section ScoringTotals.
Import Db NightlyLock.





(** An action named __proto__ is credited in the total and absent from
    the stored scores. *)
Example handleScoring_proto_action :
  ∃ w' reply,
    handleScoring Samples.clock Samples.in_scoring
      (Samples.user 1 true "complete") Samples.proto_contract "all"
      (state_at step_scoring) = (w', Some reply) ∧
    total_score <$> daily_logs w' = [3] ∧
    scores <$> daily_logs w' = [ {[ "walk" := 1 ]} ].
Proof. eexists _, _. split; [vm_compute; reflexivity|]. by vm_compute. Qed.

End ScoringTotals.

(** ** Reading a score from free text *)

Section ScoreParsingProperties.
Import Db Scorecard ScoreParsing.


(** X15. A message that contains the name of an action of the contract
    (cases ignored) is read as an update of an action of the contract,
    without a value, marked as not completed exactly when the message
    contains one of the negative patterns; [updateScore] then finds the
    action. *)
Theorem parseScoreUpdate_named_action (message : string) (contract : Contract)
    (a : BinaryAction) :
  a ∈ binary_actions contract →
  Js.includes (Js.toLowerCase message) (Js.toLowerCase (action_name a)) = true →
  ∃ update act found,
    parseScoreUpdate message contract = Some update ∧
    act ∈ binary_actions contract ∧
    refersTo (Js.toLowerCase message) act = true ∧
    action update = action_name act ∧ value update = None ∧
    (completed update = false
     ↔ ∃ p, p ∈ negativePatterns ∧ Js.includes (Js.toLowerCase message) p = true) ∧
    findAction contract (action update) = Some found ∧
    Js.toLowerCase (action_name found) = Js.toLowerCase (action_name act).
Proof.
  intros Ha Hincl. unfold parseScoreUpdate.
  destruct (List.find _ _) as [act|] eqn:Hfind.
  - apply find_some in Hfind as [Hin Hrefers]. apply list_elem_of_In in Hin.
    destruct (findAction contract (action_name act)) as [found|] eqn:Hfound.
    + exists {| action := action_name act;
                completed := negb (existsb (λ p, Js.includes (Js.toLowerCase message) p)
                                     negativePatterns);
                value := None |}, act, found.
      split; [done|]. split; [done|]. split; [done|]. split; [done|].
      split; [done|]. split; [|split; [done|]].
      * cbn [completed]. rewrite negb_false_iff, existsb_exists.
        split; intros (p & Hp & ?); exists p; split;
          try done; by apply list_elem_of_In.
      * unfold findAction in Hfound. apply find_some in Hfound as [_ H].
        by apply bool_decide_eq_true in H.
    + exfalso. by apply (proj1 (findAction_None _ _) Hfound act Hin).
  - exfalso. apply list_elem_of_In in Ha.
    pose proof (find_none _ _ Hfind a Ha) as Hno.
    unfold refersTo in Hno. rewrite Hincl in Hno. discriminate Hno.
Qed.

Lemma parseScoreUpdate_named_action_witness :
  ∃ update,
    parseScoreUpdate "Missed Protein today" Samples.contract = Some update ∧
    action update = "protein" ∧ completed update = false.
Proof.
  destruct (parseScoreUpdate_named_action "Missed Protein today" Samples.contract
              {| action_name := "protein"; threshold := Some "over 150g";
                 points := 2 |})
    as (update & act & found & Hparse & _).
  - apply elem_of_cons. right. apply elem_of_cons. by left.
  - reflexivity.
  - exists update. split; [exact Hparse|].
    assert (parseScoreUpdate "Missed Protein today" Samples.contract
            = Some {| action := "protein"; completed := false; value := None |})
      as Hval by reflexivity.
    rewrite Hval in Hparse. by injection Hparse as <-.
Defined.

(** The two letters no inside another word mark the update as missed. *)
Example parseScoreUpdate_know :
  parseScoreUpdate "I know I did protein" Samples.contract
  = Some {| action := "protein"; completed := false; value := None |}.
Proof. reflexivity. Qed.

(** Numbers with a unit are read when no action is named. *)
Example parseScoreUpdate_numbers :
  parseScoreUpdate "ate 1850 kcal" Samples.empty_contract
    = Some {| action := "calories"; completed := true; value := Some 1850 |} ∧
  parseScoreUpdate "150g" Samples.empty_contract
    = Some {| action := "protein"; completed := true; value := Some 150 |} ∧
  parseScoreUpdate "8500 steps" Samples.empty_contract
    = Some {| action := "walk"; completed := false; value := Some 8500 |} ∧
  parseScoreUpdate "12k steps" Samples.empty_contract = None.
Proof. repeat split; reflexivity. Qed.

End ScoreParsingProperties.

(** ** Times of day *)

Section TimeProperties.
Import Times.

Lemma twelve_hour_table :
  forallb (λ h, forallb (twelve_hour_ok h) (seqZ 0 60)) (seqZ 1 12) = true.
Proof. vm_compute. reflexivity. Qed.

(** X16. [normalizeTime] turns a 12-hour time into the 24-hour text: with pm
    the hours 1 to 11 gain twelve and 12 stays, with am the hour 12 becomes
    00, and minutes are kept; without a suffix the hour is kept. *)
Theorem normalizeTime_twelve_hour (h m : Z) :
  1 <= h <= 12 → 0 <= m <= 59 →
  normalizeTime (written h m "pm") = clockText (if h =? 12 then 12 else h + 12) m ∧
  normalizeTime (written h m " PM") = clockText (if h =? 12 then 12 else h + 12) m ∧
  normalizeTime (written h m "am") = clockText (if h =? 12 then 0 else h) m ∧
  normalizeTime (written h m "") = clockText h m.
Proof.
  intros Hh Hm.
  pose proof twelve_hour_table as Htable.
  rewrite forallb_forall in Htable.
  assert (In h (seqZ 1 12)) as Hin
    by (apply list_elem_of_In, elem_of_seqZ; lia).
  specialize (Htable h Hin). rewrite forallb_forall in Htable.
  assert (In m (seqZ 0 60)) as Hin'
    by (apply list_elem_of_In, elem_of_seqZ; lia).
  specialize (Htable m Hin'). unfold twelve_hour_ok in Htable.
  rewrite !andb_true_iff, !String.eqb_eq in Htable.
  tauto.
Qed.

Lemma normalizeTime_twelve_hour_witness :
  normalizeTime "9:05pm" = "21:05" ∧ normalizeTime "9:05am" = "09:05".
Proof.
  destruct (normalizeTime_twelve_hour 9 5) as (Hpm & _ & Ham & _); [lia | lia |].
  split; [exact Hpm | exact Ham].
Defined.

(** Text that does not start with a number gives no time of day, and
    digits that a space separates are read as one number. *)
Example normalizeTime_not_a_time :
  normalizeTime "noon" = "NaN:00" ∧ normalizeTime "7 30 am" = "730:00".
Proof. split; reflexivity. Qed.

End TimeProperties.

(** ** The last steps of onboarding *)

Section OnboardingEndProperties.
Import Db Onboarding OnboardingEnd.

Lemma shame_update_fits level : user_update_fits (shame_update level).
Proof. split; vm_compute; lia. Qed.

Lemma complete_update_fits : user_update_fits complete_update.
Proof. split; vm_compute; lia. Qed.

Lemma chosenLevel_range level : chosenLevel level ∈ [1; 2; 3].
Proof.
  unfold chosenLevel. destruct level as [n|].
  - case_bool_decide; [done|]. by apply elem_of_cons; left.
  - by apply elem_of_cons; left.
Qed.

(** X17. Whatever the message, [handleShameLevelInput] stores a shame level
    among 1, 2 and 3 for the user, the number the message starts with when
    that is one of them, and moves the user to the confirmation step; the
    rows of other users and the map are left as they were. The write stays
    when the contract text cannot be built. *)
Theorem handleShameLevelInput_level
    (generateContractText : User → OnboardingData → Z → option string)
    (w : Store) (user : User) (message : string) :
  ∃ w' reply,
    handleShameLevelInput generateContractText w user message = (w', reply) ∧
    onboardingData w' = onboardingData w ∧
    (∀ r, r ∈ users w' → user_id r = user_id user →
          shame_level r ∈ [1; 2; 3] ∧
          onboarding_step r = "awaiting_contract_confirm" ∧
          (∀ n, JsNum.parseInt (Js.trim message) = Some n → 1 <= n <= 3 →
                shame_level r = n)) ∧
    (∀ r, user_id r ≠ user_id user → r ∈ users w' ↔ r ∈ users w).
Proof.
  unfold handleShameLevelInput, updateUser.
  assert (user_update_empty (shame_update (chosenLevel
            (JsNum.parseInt (Js.trim message)))) = false) as -> by reflexivity.
  destruct (decide (user_update_fits _)) as [_|Hno];
    [|destruct Hno; apply shame_update_fits].
  set (level := chosenLevel _).
  set (tbl := _ <$> users w).
  assert (∀ r, r ∈ tbl → user_id r = user_id user →
            shame_level r = level ∧
            onboarding_step r = "awaiting_contract_confirm") as Hrow.
  { intros r Hr Hid. subst tbl. apply list_elem_of_fmap in Hr as (r0 & -> & _).
    destruct (decide (user_id r0 = user_id user)) as [_|Hne]; [done|].
    by destruct Hne. }
  assert (∀ r, user_id r ≠ user_id user → r ∈ tbl ↔ r ∈ users w) as Hother.
  { intros r Hne. subst tbl. split.
    - intros Hr. apply list_elem_of_fmap in Hr as (r0 & -> & Hr0).
      destruct (decide (user_id r0 = user_id user)) as [Heq|_]; [|done].
      by destruct Hne.
    - intros Hr. apply list_elem_of_fmap. exists r.
      by destruct (decide (user_id r = user_id user)). }
  assert (∀ r, r ∈ tbl → user_id r = user_id user →
            shame_level r ∈ [1; 2; 3] ∧
            onboarding_step r = "awaiting_contract_confirm" ∧
            (∀ n, JsNum.parseInt (Js.trim message) = Some n → 1 <= n <= 3 →
                  shame_level r = n)) as Hall.
  { intros r Hr Hid. destruct (Hrow r Hr Hid) as [Hlevel Hstep].
    split; [rewrite Hlevel; apply chosenLevel_range|]. split; [done|].
    intros n Hn Hrange. rewrite Hlevel. subst level. rewrite Hn.
    unfold chosenLevel. case_bool_decide as Hmem; [done|].
    destruct Hmem. assert (n = 1 ∨ n = 2 ∨ n = 3) as [-> | [-> | ->]] by lia;
      apply (bool_decide_unpack _); reflexivity. }
  destruct (generateContractText _ _ _); eexists _, _; (split; [reflexivity|]);
    (split; [reflexivity|]); split; assumption.
Qed.

Lemma createContract_row clk usersTbl tbl userId goal actions text :
  userId ∈ (user_id <$> usersTbl) →
  fresh_id clk ∉ (contract_id <$> tbl) →
  ∃ row, createContract clk usersTbl tbl userId goal actions text
         = Some (tbl ++ [row], row) ∧
         contract_user row = userId ∧ binary_actions row = actions ∧
         Db.goal row = goal ∧ active row = true ∧
         rules_text row = Some text.
Proof.
  intros Hin Hfresh. unfold createContract.
  rewrite decide_True by done. by eexists.
Qed.

(** X18. A user known to table users confirms with LOCKED, in any case and
    with spaces around, and no entry of the map holds an empty list. When
    the contract text cannot be built, because the danger times of the user
    as text do not parse, the reply is a rejection and nothing is written:
    no contract, the user not onboarded, the entry kept. When it can, as it
    always can for a user without danger times, one active contract of that
    user is added with that text and with at least one action, the actions
    of the map or else the defaults; the user is marked as onboarded and the
    entry of the map is removed. *)
Theorem handleContractConfirm_locked (joinParsed : string → option string)
    (clk : Clock) (w : Store) (contracts : list Contract) (user : User)
    (message : string) :
  Js.toUpperCase (Js.trim message) = "LOCKED" →
  data_ok w →
  user_id user ∈ (user_id <$> users w) →
  fresh_id clk ∉ (contract_id <$> contracts) →
  (dangerTimes joinParsed user = None →
   handleContractConfirm (generateContractText joinParsed) clk w contracts
     user message = ((w, contracts), None)) ∧
  (risk_times user = [] → dangerTimes joinParsed user = Some "9pm") ∧
  (is_Some (dangerTimes joinParsed user) →
   ∃ w' row,
     handleContractConfirm (generateContractText joinParsed) clk w contracts
       user message = ((w', contracts ++ [row]), Some complete) ∧
     contract_user row = user_id user ∧ active row = true ∧
     rules_text row
       = generateContractText joinParsed user (data_of w (user_id user))
           (shame_level user) ∧
     binary_actions row ≠ [] ∧
     binary_actions row
       = default DEFAULT_BINARY_ACTIONS
           (onboardingData w !! user_id user ≫= binaryActions) ∧
     onboardingData w' !! user_id user = None ∧
     (∀ r, r ∈ users w' → user_id r = user_id user →
           Webhook.isOnboarding r = false ∧ onboarding_step r = "complete")).
Proof.
  intros Hlocked Hok Huser Hfresh. split; [|split].
  - intros Hthrows. unfold handleContractConfirm.
    rewrite Hlocked, bool_decide_eq_true_2 by done.
    unfold generateContractText. by rewrite Hthrows.
  - intros Hnone. unfold dangerTimes. by rewrite Hnone.
  - intros [danger Hdanger].
    destruct (generateContractText joinParsed user (data_of w (user_id user))
                (shame_level user)) as [text|] eqn:Htext; last first.
    { unfold generateContractText in Htext. by rewrite Hdanger in Htext. }
    unfold handleContractConfirm.
    rewrite Hlocked, bool_decide_eq_true_2 by done. rewrite Htext.
    destruct (createContract_row clk (users w) contracts (user_id user)
                (BadDayFlow.orDefault (data_goal (data_of w (user_id user)))
                   "fitness")
                (default DEFAULT_BINARY_ACTIONS
                   (binaryActions (data_of w (user_id user))))
                text Huser Hfresh)
      as (row & -> & Hu & Hacts & _ & Hactive & Hrules).
    unfold updateUser.
    assert (user_update_empty complete_update = false) as -> by reflexivity.
    destruct (decide (user_update_fits _)) as [_|Hno];
      [|destruct Hno; apply complete_update_fits].
    eexists _, row. split; [reflexivity|]. split; [done|]. split; [done|].
    split; [done|].
    assert (binary_actions row
            = default DEFAULT_BINARY_ACTIONS
                (onboardingData w !! user_id user ≫= binaryActions)) as Hsame.
    { rewrite Hacts. unfold data_of.
      by destruct (onboardingData w !! user_id user). }
    split; [|split; [exact Hsame|split]].
    + rewrite Hsame.
      destruct (onboardingData w !! user_id user) as [d|] eqn:Hd; [|done].
      simpl. destruct (binaryActions d) as [acts|] eqn:Hb; [|done].
      simpl. intros ->. by apply (Hok _ _ Hd).
    + simpl. apply lookup_delete_eq.
    + simpl. intros r Hr Hid. apply list_elem_of_fmap in Hr as (r0 & -> & _).
      destruct (decide (user_id r0 = user_id user)) as [_|Hne]; [done|].
      by destruct Hne.
Qed.

(** Any other answer to the contract writes nothing. *)
Lemma handleContractConfirm_other
    (generateContractText : User → OnboardingData → Z → option string)
    (clk : Clock) (w : Store) (contracts : list Contract) (user : User)
    (message : string) :
  Js.toUpperCase (Js.trim message) ≠ "LOCKED" →
  handleContractConfirm generateContractText clk w contracts user message
  = ((w, contracts), Some revise).
Proof.
  intros Hno. unfold handleContractConfirm.
  by rewrite bool_decide_eq_false_2.
Qed.

Lemma parseBinaryActions_default_nonempty message :
  (if (0 <? length (parseBinaryActions message))%nat
   then parseBinaryActions message else DEFAULT_BINARY_ACTIONS) ≠ [].
Proof.
  destruct (parseBinaryActions message) as [|a l]; simpl; [|done].
  discriminate.
Qed.

(** X19. [handleActionsInput] stores a list of at least one action for the
    user, the defaults when the message names none, and keeps the goal of
    the entry; no step that writes the map stores an empty list. *)
Theorem handleActionsInput_nonempty (w : Store) (user : User) (message : string) :
  data_ok w →
  (∃ d acts,
     onboardingData (handleActionsInput w user message).1 !! user_id user = Some d ∧
     binaryActions d = Some acts ∧ acts ≠ [] ∧
     (parseBinaryActions message = [] → acts = DEFAULT_BINARY_ACTIONS) ∧
     data_goal d = (onboardingData w !! user_id user) ≫= data_goal) ∧
  data_ok (handleActionsInput w user message).1 ∧
  data_ok (handleGoalInput w user message).1.
Proof.
  intros Hok.
  assert (∀ d, binaryActions d ≠ Some [] →
            data_ok (set_data (user_id user) d w)) as Hset.
  { intros d Hd id d' Hlook. simpl in Hlook.
    destruct (decide (id = user_id user)) as [->|Hne].
    - rewrite lookup_insert_eq in Hlook. by injection Hlook as <-.
    - rewrite lookup_insert_ne in Hlook by done. by apply (Hok id). }
  split; [|split].
  - unfold handleActionsInput.
    set (d := {| data_goal := _; binaryActions := _ |}).
    exists d, (if (0 <? length (parseBinaryActions message))%nat
               then parseBinaryActions message else DEFAULT_BINARY_ACTIONS).
    split.
    { destruct (updateUser _ _ _) as [[tbl ?]|]; simpl; apply lookup_insert_eq. }
    split; [done|]. split; [apply parseBinaryActions_default_nonempty|].
    split; [by intros ->|].
    subst d. simpl. by destruct (onboardingData w !! user_id user).
  - unfold handleActionsInput.
    set (d := {| data_goal := _; binaryActions := _ |}).
    assert (data_ok (set_data (user_id user) d w)) as Hd.
    { apply Hset. subst d. simpl. intros [= Hnil].
      by apply (parseBinaryActions_default_nonempty message). }
    by destruct (updateUser _ _ _) as [[tbl ?]|].
  - unfold handleGoalInput.
    destruct (updateUser _ _ _) as [[tbl ?]|]; [|done].
    intros id d' Hlook. simpl in Hlook.
    destruct (decide (id = user_id user)) as [->|Hne].
    + rewrite lookup_insert_eq in Hlook. by injection Hlook as <-.
    + rewrite lookup_insert_ne in Hlook by done. by apply (Hok id).
Qed.

End OnboardingEndProperties.

(** ** Stored times read by the scheduler *)

Section ScheduleProperties.
Import Times Schedule.

Lemma round_trip_table :
  forallb (λ suffix,
    forallb (λ h, forallb (round_trip_ok suffix h) (seqZ 0 60)) (seqZ 1 12))
    ["pm"; "am"] = true.
Proof. vm_compute. reflexivity. Qed.

(** X20. A 12-hour time normalised by onboarding is read by the scheduler
    as the hour on the 24-hour clock and the minute that were written, also
    when the text comes back with seconds; the hour of the nightly
    reminder, two hours earlier, stays between 0 and 23. *)
Theorem parseTime_normalizeTime (suffix : string) (h m : Z) :
  suffix = "pm" ∨ suffix = "am" → 1 <= h <= 12 → 0 <= m <= 59 →
  parseTime (normalizeTime (written h m suffix))
    = (Some (hour24 h suffix), Some m) ∧
  parseTime (normalizeTime (written h m suffix) +:+ ":00")
    = (Some (hour24 h suffix), Some m) ∧
  0 <= hour24 h suffix <= 23 ∧
  0 <= nightlyHour (hour24 h suffix) <= 23 ∧
  (nightlyHour (hour24 h suffix) + 2 - hour24 h suffix) mod 24 = 0.
Proof.
  intros Hs Hh Hm.
  pose proof round_trip_table as Htable.
  rewrite forallb_forall in Htable.
  assert (In suffix ["pm"; "am"]) as Hin
    by (destruct Hs as [-> | ->]; simpl; tauto).
  specialize (Htable suffix Hin). rewrite forallb_forall in Htable.
  assert (In h (seqZ 1 12)) as Hin'
    by (apply list_elem_of_In, elem_of_seqZ; lia).
  specialize (Htable h Hin'). rewrite forallb_forall in Htable.
  assert (In m (seqZ 0 60)) as Hin''
    by (apply list_elem_of_In, elem_of_seqZ; lia).
  specialize (Htable m Hin''). unfold round_trip_ok in Htable.
  apply andb_true_iff in Htable as [H1 H2].
  apply bool_decide_eq_true in H1, H2.
  split; [exact H1|]. split; [exact H2|].
  assert (0 <= hour24 h suffix <= 23) as Hrange.
  { unfold hour24. destruct Hs as [-> | ->]; simpl;
      destruct (Z.eqb_spec h 12); lia. }
  split; [exact Hrange|].
  unfold nightlyHour. rewrite Z.rem_mod_nonneg by lia.
  clear - Hrange. revert Hrange. generalize (hour24 h suffix). intros x Hx.
  destruct (decide (x < 2)) as [Hlt|Hge].
  - rewrite (Z.mod_small (x - 2 + 24) 24) by lia.
    split; [lia|]. replace (x - 2 + 24 + 2 - x) with (1 * 24) by lia.
    apply Z_mod_mult.
  - replace (x - 2 + 24) with (x - 2 + 1 * 24) by lia.
    rewrite Z_mod_plus_full, (Z.mod_small (x - 2) 24) by lia.
    split; [lia|]. replace (x - 2 + 2 - x) with 0 by lia. reflexivity.
Qed.

Lemma parseTime_normalizeTime_witness :
  parseTime (normalizeTime "10:30pm") = (Some 22, Some 30) ∧
  nightlyHour 22 = 20.
Proof.
  destruct (parseTime_normalizeTime "pm" 10 30) as (Hread & _);
    [by left | lia | lia |].
  split; [exact Hread | reflexivity].
Defined.

End ScheduleProperties.

Section OnboardingEndWitnesses.
Import Db Onboarding OnboardingEnd OnboardingSamples.

Lemma confirming_ok : data_ok confirming.
Proof.
  intros id d Hlook. simpl in Hlook.
  apply lookup_singleton_Some in Hlook as [_ <-]. discriminate.
Qed.

Lemma handleContractConfirm_locked_witness :
  ∃ w' row,
    handleContractConfirm (generateContractText throws) Samples.clock
      confirming [] newcomer " locked " = ((w', [row]), Some complete) ∧
    binary_actions row ≠ [] ∧
    Webhook.isOnboarding <$> users w' = [false].
Proof.
  destruct (handleContractConfirm_locked throws Samples.clock confirming
              [] newcomer " locked ") as (_ & Hnine & Hbuilt).
  - reflexivity.
  - exact confirming_ok.
  - apply list_elem_of_singleton. reflexivity.
  - intros Hin. inversion Hin.
  - destruct Hbuilt as (w' & row & Hrun & _ & _ & _ & Hne & _).
    { rewrite (Hnine eq_refl). by eexists. }
    exists w', row. split; [exact Hrun|]. split; [exact Hne|].
    assert (handleContractConfirm (generateContractText throws) Samples.clock
              confirming [] newcomer " locked "
            = ((w', [row]), Some complete)) as Hrun' by exact Hrun.
    vm_compute in Hrun'. by injection Hrun' as <- _.
Defined.

Lemma handleActionsInput_nonempty_witness :
  data_ok (handleActionsInput confirming newcomer "nothing to add").1.
Proof.
  destruct (handleActionsInput_nonempty confirming newcomer "nothing to add")
    as (_ & Hok & _).
  - exact confirming_ok.
  - exact Hok.
Defined.

End OnboardingEndWitnesses.
